(** * Cohort delivery pipeline: merge, manifest and transfer

    A shallow embedding of [cohort_delivery/merge.py], [manifest.py] and
    [transfer.py].  The Python code works on the file system and on external
    processes (PLINK, rsync); both are explicit here:

    - paths follow [pathlib.PurePosixPath] (anchor and components);
    - the file system is a tree of regular files and directories; symbolic
      links and permissions are not modelled, [..] is resolved lexically,
      and a file holds its text as it is read in text mode;
    - an external process is a function from its command line and the file
      system to an exit status and a new file system, about which nothing
      is assumed;
    - every function of the source is a computation in a state-and-exception
      monad over the [World], which also keeps the list of commands that
      were started (the source logs each of them with "Running: ...").

    The definitions come first: strings, paths, the file system, the
    operating-system calls, then the three modules of the source, the
    vocabulary of the specification and sample data.  The properties
    follow. *)

From Stdlib Require Import String Ascii List Arith ZArith Lia Bool.
From stdpp Require Import base option list gmap strings sorting.

Open Scope string_scope.
Open Scope list_scope.

(** ** Strings *)

Module Str.

Definition slash : ascii := "/"%char.
Definition LF : ascii := "010"%char.
Definition CR : ascii := "013"%char.

(** [sep.join(xs)] *)
Fixpoint join (sep : string) (xs : list string) : string :=
  match xs with
  | [] => ""
  | [x] => x
  | x :: rest => x ++ sep ++ join sep rest
  end.

(** [s.split(c)] for a one-character separator: never the empty list. *)
Fixpoint split (c : ascii) (s : string) : list string :=
  match s with
  | EmptyString => [""]
  | String a rest =>
      if Ascii.eqb a c then "" :: split c rest
      else match split c rest with
           | [] => [String a ""]
           | w :: ws => String a w :: ws
           end
  end.

(** [s.startswith(p)] *)
Fixpoint startswith (p s : string) : bool :=
  match p, s with
  | EmptyString, _ => true
  | String a p', String b s' => Ascii.eqb a b && startswith p' s'
  | String _ _, EmptyString => false
  end.

(** [p in s] on strings: [p] occurs in [s] as a contiguous substring. *)
Fixpoint contains (p s : string) : bool :=
  startswith p s ||
  match s with
  | EmptyString => false
  | String _ s' => contains p s'
  end.

(** Iterating over a file opened in text mode: the lines of the text, a
    line ending at LF, CR LF or a lone CR (universal newlines); a last
    line without terminator counts when it is not empty.  [cur] is the
    line read so far. *)
Fixpoint lines_from (cur : string) (s : string) : list string :=
  match s with
  | EmptyString => if String.eqb cur "" then [] else [cur]
  | String a rest =>
      if Ascii.eqb a LF then cur :: lines_from "" rest
      else if Ascii.eqb a CR then
        match rest with
        | String b rest' =>
            if Ascii.eqb b LF then cur :: lines_from "" rest'
            else cur :: lines_from "" rest
        | EmptyString => [cur]
        end
      else lines_from (cur ++ String a "") rest
  end.

Definition lines (s : string) : list string := lines_from "" s.

(** Decimal digits of a number, padded with zeros on the left. *)
Definition digit (n : nat) : ascii := ascii_of_nat (48 + n mod 10).

Fixpoint digits (width n : nat) : string :=
  match width with
  | O => ""
  | S w => digits w (n / 10) ++ String (digit n) ""
  end.

End Str.

(** ** Paths, after [pathlib.PurePosixPath] *)

Module Path.

Record t := mk { anchor : string; parts : list string }.

Definition keep_part (c : string) : bool :=
  negb (String.eqb c "") && negb (String.eqb c ".").

(** [Path(s)]: two leading slashes (and not three) give the anchor "//",
    any other leading slash the anchor "/"; empty components and "." are
    dropped, ".." is kept. *)
Definition parse (s : string) : t :=
  {| anchor :=
       if Str.startswith "//" s && negb (Str.startswith "///" s) then "//"
       else if Str.startswith "/" s then "/" else "";
     parts := List.filter keep_part (Str.split Str.slash s) |}.

(** [str(p)] *)
Definition str (p : t) : string :=
  match anchor p, parts p with
  | EmptyString, [] => "."
  | a, ps => a ++ Str.join "/" ps
  end.

(** [p / s]: an absolute right operand replaces the left one. *)
Definition join (p : t) (s : string) : t :=
  let q := parse s in
  if String.eqb (anchor q) "" then
    {| anchor := anchor p; parts := parts p ++ parts q |}
  else q.

(** [p.name] *)
Definition name (p : t) : string := List.last (parts p) "".

(** The entry called [n] of the directory [p]. *)
Definition child (p : t) (n : string) : t :=
  {| anchor := anchor p; parts := parts p ++ [n] |}.

Definition is_absolute (p : t) : bool := negb (String.eqb (anchor p) "").

End Path.

(** ** The file system *)

Module FS.

#[warnings="-register-all"]
Inductive node :=
| File (data : string)
| Dir (entries : gmap string node).

(** [root] is the root directory, [cwd] the components of the working
    directory of the process, [dir_size] the [st_size] the platform
    reports for a directory. *)
Record t := mk { root : node; cwd : list string; dir_size : nat }.

(** Resolution of ".." against the components walked so far ([stack],
    innermost first). *)
Fixpoint lexical (stack : list string) (ps : list string) : list string :=
  match ps with
  | [] => rev stack
  | c :: rest =>
      if String.eqb c ".." then lexical (tail stack) rest
      else lexical (c :: stack) rest
  end.

(** The components from the root that a path denotes. *)
Definition locate (fs : t) (p : Path.t) : list string :=
  lexical (if Path.is_absolute p then [] else rev (cwd fs)) (Path.parts p).

Fixpoint find (ps : list string) (n : node) : option node :=
  match ps with
  | [] => Some n
  | c :: rest =>
      match n with
      | Dir es => match es !! c with Some m => find rest m | None => None end
      | File _ => None
      end
  end.

Definition lookup (fs : t) (p : Path.t) : option node :=
  find (locate fs p) (root fs).

(** [p.exists()], [p.is_file()], [p.is_dir()] *)
Definition exists_ (fs : t) (p : Path.t) : bool :=
  match lookup fs p with Some _ => true | None => false end.

Definition is_file (fs : t) (p : Path.t) : bool :=
  match lookup fs p with Some (File _) => true | _ => false end.

Definition is_dir (fs : t) (p : Path.t) : bool :=
  match lookup fs p with Some (Dir _) => true | _ => false end.

(** Replace or create the node at [ps]; the parent has to be a
    directory.  [inl true]: a component on the way is a regular file;
    [inl false]: a component on the way is missing. *)
Fixpoint put (ps : list string) (new : node) (n : node) : bool + node :=
  match ps with
  | [] => inr new
  | c :: rest =>
      match n with
      | Dir es =>
          match rest, es !! c with
          | [], _ => inr (Dir (<[c := new]> es))
          | _ :: _, Some m =>
              match put rest new m with
              | inr m' => inr (Dir (<[c := m']> es))
              | inl b => inl b
              end
          | _ :: _, None => inl false
          end
      | File _ => inl true
      end
  end.

(** Remove the node at [ps], if there is one. *)
Fixpoint remove (ps : list string) (n : node) : node :=
  match ps, n with
  | [c], Dir es => Dir (delete c es)
  | c :: rest, Dir es =>
      match es !! c with
      | Some m => Dir (<[c := remove rest m]> es)
      | None => n
      end
  | _, _ => n
  end.

(** Create the directory at [ps] with every missing ancestor.  [inl true]:
    the path is a regular file; [inl false]: an ancestor is one. *)
Fixpoint make_dirs (ps : list string) (n : node) : bool + node :=
  match ps with
  | [] => match n with Dir _ => inr n | File _ => inl true end
  | c :: rest =>
      match n with
      | File _ => inl false
      | Dir es =>
          match make_dirs rest (default (Dir ∅) (es !! c)) with
          | inr m' => inr (Dir (<[c := m']> es))
          | inl b => inl b
          end
      end
  end.

Definition with_root (fs : t) (n : node) : t :=
  {| root := n; cwd := cwd fs; dir_size := dir_size fs |}.

(** The names in a directory, in the order the map enumerates them. *)
Definition names (es : gmap string node) : list string :=
  (map_to_list es).*1.

(** A name that a directory entry can have. *)
Definition valid_name (c : string) : bool :=
  negb (String.eqb c "") && negb (String.eqb c ".")
  && negb (String.eqb c "..") && negb (Str.contains "/" c).

End FS.

(** ** The world, exceptions and computations *)

Inductive exn :=
| FileExistsError
| FileNotFoundError
| NotADirectoryError
| IsADirectoryError
| SameFileError
| ShutilError
| CalledProcessError (returncode : Z) (cmd : list string).

Inductive outcome (A : Type) :=
| Return (a : A)
| Raise (e : exn).
Arguments Return {A} a.
Arguments Raise {A} e.

(** [datetime.now()], as far as the source formats it. *)
Record Date := { year : nat; month : nat; day : nat }.

(** [started] lists the command lines handed to [subprocess.run], oldest
    first. *)
Record World := { disk : FS.t; now : Date; started : list (list string) }.

Definition M (A : Type) : Type := World -> World * outcome A.

Definition ret {A} (a : A) : M A := fun w => (w, Return a).

Definition raise {A} (e : exn) : M A := fun w => (w, Raise e).

Definition bind {A B} (c : M A) (k : A -> M B) : M B :=
  fun w =>
    match c w with
    | (w1, Return a) => k a w1
    | (w1, Raise e) => (w1, Raise e)
    end.

Notation "'let*' x ':=' c 'in' k" := (bind c (fun x => k))
  (at level 10, x pattern, c at level 100, k at level 200).

(** [for x in xs: ys.append(body(x))] *)
Fixpoint for_each {A B} (xs : list A) (body : A -> M B) : M (list B) :=
  match xs with
  | [] => ret []
  | x :: rest =>
      let* y := body x in
      let* ys := for_each rest body in
      ret (y :: ys)
  end.

(** [for x in xs: body(x)] *)
Fixpoint for_ {A} (xs : list A) (body : A -> M unit) : M unit :=
  match xs with
  | [] => ret tt
  | x :: rest => let* _ := body x in for_ rest body
  end.

(** An external process: what starting [cmd] on a file system does.  [None]:
    the executable cannot be started. *)
Definition Spawn : Type := list string -> FS.t -> option (Z * FS.t).

Definition set_disk (d : FS.t) (w : World) : World :=
  {| disk := d; now := now w; started := started w |}.

Definition set_root (n : FS.node) (w : World) : World :=
  set_disk (FS.with_root (disk w) n) w.

Definition record_start (cmd : list string) (w : World) : World :=
  {| disk := disk w; now := now w; started := started w ++ [cmd] |}.

(** ** Operating-system calls *)

Module OS.

Definition get_now : M Date := fun w => (w, Return (now w)).

Definition exists_ (p : Path.t) : M bool :=
  fun w => (w, Return (FS.exists_ (disk w) p)).

Definition is_file (p : Path.t) : M bool :=
  fun w => (w, Return (FS.is_file (disk w) p)).

Definition is_dir (p : Path.t) : M bool :=
  fun w => (w, Return (FS.is_dir (disk w) p)).

(** [p.stat().st_size] *)
Definition st_size (p : Path.t) : M nat :=
  fun w =>
    match FS.lookup (disk w) p with
    | Some (FS.File data) => (w, Return (String.length data))
    | Some (FS.Dir _) => (w, Return (FS.dir_size (disk w)))
    | None => (w, Raise FileNotFoundError)
    end.

(** The whole content of a file opened for reading. *)
Definition read (p : Path.t) : M string :=
  fun w =>
    match FS.lookup (disk w) p with
    | Some (FS.File data) => (w, Return data)
    | Some (FS.Dir _) => (w, Raise IsADirectoryError)
    | None => (w, Raise FileNotFoundError)
    end.

Definition path_error (not_a_directory : bool) : exn :=
  if not_a_directory then NotADirectoryError else FileNotFoundError.

(** Open for writing, write [data], close. *)
Definition write (p : Path.t) (data : string) : M unit :=
  fun w =>
    match FS.lookup (disk w) p with
    | Some (FS.Dir _) => (w, Raise IsADirectoryError)
    | _ =>
        match FS.put (FS.locate (disk w) p) (FS.File data) (FS.root (disk w)) with
        | inr n => (set_root n w, Return tt)
        | inl b => (w, Raise (path_error b))
        end
    end.

(** [p.mkdir(parents=True, exist_ok=True)] *)
Definition mkdir_parents_exist_ok (p : Path.t) : M unit :=
  fun w =>
    match FS.make_dirs (FS.locate (disk w) p) (FS.root (disk w)) with
    | inr n => (set_root n w, Return tt)
    | inl true => (w, Raise FileExistsError)
    | inl false => (w, Raise NotADirectoryError)
    end.

(** [p.iterdir()]: the entries of a directory, as paths. *)
Definition iterdir (p : Path.t) : M (list Path.t) :=
  fun w =>
    match FS.lookup (disk w) p with
    | Some (FS.Dir es) => (w, Return (Path.child p <$> FS.names es))
    | Some (FS.File _) => (w, Raise NotADirectoryError)
    | None => (w, Raise FileNotFoundError)
    end.

(** [subprocess.run(cmd, check=check)]: the exit status. *)
Definition subprocess_run (spawn : Spawn) (cmd : list string) (check : bool)
  : M Z :=
  fun w =>
    let w1 := record_start cmd w in
    match spawn cmd (disk w) with
    | None => (w1, Raise FileNotFoundError)
    | Some (rc, d) =>
        if check && negb (rc =? 0)%Z
        then (set_disk d w1, Raise (CalledProcessError rc cmd))
        else (set_disk d w1, Return rc)
    end.

(** The second half of [shutil.move]: [os.rename(src, dst)] for a [dst]
    that is not a directory, and the copy-and-delete that [shutil.move]
    falls back to when the rename is refused. *)
Definition rename_or_copy (src dst : Path.t) : M unit :=
  fun w =>
    let fs := disk w in
    let s := FS.locate fs src in
    let d := FS.locate fs dst in
    match FS.lookup fs src with
    | None => (w, Raise FileNotFoundError)
    | Some n =>
        if bool_decide (s = d) then (w, Return tt)
        else
          match n with
          | FS.File _ =>
              match FS.put d n (FS.root fs) with
              | inl b => (w, Raise (path_error b))
              | inr _ =>
                  match FS.put d n (FS.remove s (FS.root fs)) with
                  | inr r => (set_root r w, Return tt)
                  | inl b => (w, Raise (path_error b))
                  end
              end
          | FS.Dir _ =>
              if FS.exists_ fs dst then (w, Raise FileExistsError)
              else if bool_decide (s `prefix_of` d) then (w, Raise ShutilError)
              else
                match FS.make_dirs (removelast d) (FS.remove s (FS.root fs)) with
                | inl _ => (w, Raise NotADirectoryError)
                | inr r1 =>
                    match FS.put d n r1 with
                    | inr r => (set_root r w, Return tt)
                    | inl b => (w, Raise (path_error b))
                    end
                end
          end
    end.

(** [shutil.move(src, dst)]: into [dst] when that is a directory. *)
Definition shutil_move (src dst : Path.t) : M unit :=
  fun w =>
    let fs := disk w in
    if FS.is_dir fs dst then
      if bool_decide (FS.locate fs src = FS.locate fs dst) then (w, Return tt)
      else
        let real_dst := Path.join dst (Path.name src) in
        if FS.exists_ fs real_dst then (w, Raise ShutilError)
        else rename_or_copy src real_dst w
    else rename_or_copy src dst w.

(** [shutil.copy2(src, dst)]: into [dst] when that is a directory. *)
Definition shutil_copy2 (src dst : Path.t) : M unit :=
  fun w =>
    let fs := disk w in
    let dst :=
      if FS.is_dir fs dst then Path.join dst (Path.name src) else dst in
    if FS.exists_ fs src && bool_decide (FS.locate fs src = FS.locate fs dst)
    then (w, Raise SameFileError)
    else (let* data := read src in write dst data) w.

End OS.

(** ** merge.py *)

Module Merge.

Record MergeReport := {
  batch_count : nat;
  conflict_snp_count : nat;
  final_sample_count : nat;
  final_variant_count : nat;
  correction_applied : bool;
  output_prefix : string
}.

(** [MergeReport(batch_count=n)] *)
Definition new_report (n : nat) : MergeReport :=
  {| batch_count := n; conflict_snp_count := 0; final_sample_count := 0;
     final_variant_count := 0; correction_applied := false;
     output_prefix := "" |}.

Definition set_conflict (n : nat) (r : MergeReport) : MergeReport :=
  {| batch_count := batch_count r; conflict_snp_count := n;
     final_sample_count := final_sample_count r;
     final_variant_count := final_variant_count r;
     correction_applied := true; output_prefix := output_prefix r |}.

Definition set_output_prefix (p : string) (r : MergeReport) : MergeReport :=
  {| batch_count := batch_count r; conflict_snp_count := conflict_snp_count r;
     final_sample_count := final_sample_count r;
     final_variant_count := final_variant_count r;
     correction_applied := correction_applied r; output_prefix := p |}.

Definition set_final_sample_count (n : nat) (r : MergeReport) : MergeReport :=
  {| batch_count := batch_count r; conflict_snp_count := conflict_snp_count r;
     final_sample_count := n;
     final_variant_count := final_variant_count r;
     correction_applied := correction_applied r;
     output_prefix := output_prefix r |}.

Definition set_final_variant_count (n : nat) (r : MergeReport) : MergeReport :=
  {| batch_count := batch_count r; conflict_snp_count := conflict_snp_count r;
     final_sample_count := final_sample_count r;
     final_variant_count := n;
     correction_applied := correction_applied r;
     output_prefix := output_prefix r |}.

Definition newline : string := String Str.LF "".

(** [sum(1 for _ in open(p))] *)
Definition count_lines (p : Path.t) : M nat :=
  let* data := OS.read p in ret (length (Str.lines data)).

(** Truth value of an [Optional[str]]. *)
Definition truthy (o : option string) : bool :=
  match o with
  | Some s => negb (String.eqb s "")
  | None => false
  end.

Section WithProcesses.

Variable spawn : Spawn.
Variable plink_exec : string.

Definition _run_plink (args : list string) (check : bool) : M Z :=
  OS.subprocess_run spawn (plink_exec :: args) check.

Definition extract_args (bfile_prefix keep_list output_prefix : string)
  (exclude_snps : option string) : list string :=
  let args := ["--bfile"; bfile_prefix; "--keep"; keep_list;
               "--make-bed"; "--out"; output_prefix] in
  if truthy exclude_snps
  then args ++ ["--exclude"; default "" exclude_snps]
  else args.

Definition extract_samples (bfile_prefix keep_list output_prefix : string)
  (exclude_snps : option string) : M string :=
  let* _ := _run_plink
              (extract_args bfile_prefix keep_list output_prefix exclude_snps)
              true in
  ret output_prefix.

(** The output prefix of one batch in the working directory. *)
Definition batch_out (wd : Path.t) (suffix bp : string) : string :=
  let name := Path.name (Path.parse bp) in
  Path.str (Path.join wd (name ++ suffix)).

(** Step 1 (lines 137-142) and the loop of lines 178-183. *)
Definition extract_batches (wd : Path.t) (batch_prefixes : list string)
  (keep_list suffix : string) (exclude_snps : option string)
  : M (list string) :=
  for_each batch_prefixes (fun bp =>
    let out := batch_out wd suffix bp in
    let* _ := extract_samples bp keep_list out exclude_snps in
    ret out).

Definition merge_args (base merge_list out : string) : list string :=
  ["--bfile"; base; "--merge-list"; merge_list; "--make-bed"; "--out"; out].

(** Steps 2 and 3 (lines 150-164): the merge list and the first merge
    attempt, whose exit status is not checked. *)
Definition attempt_merge (wd : Path.t) (subset_prefixes : list string)
  : M string :=
  let merge_list := Path.join wd "merge_list.txt" in
  let* _ := OS.write merge_list
              (Str.join newline (tail subset_prefixes) ++ newline) in
  let first_attempt := Path.str (Path.join wd "merge_attempt") in
  let* _ := _run_plink
              (merge_args (hd "" subset_prefixes) (Path.str merge_list)
                 first_attempt)
              false in
  ret first_attempt.

Definition missnp_of (first_attempt : string) : Path.t :=
  Path.parse (first_attempt ++ "-merge.missnp").

(** The test of line 168. *)
Definition has_conflicts (missnp : Path.t) : M bool :=
  let* present := OS.exists_ missnp in
  if present then
    let* size := OS.st_size missnp in ret (Nat.ltb 0 size)
  else ret false.

(** Lines 169-195: count, re-extract with exclusions, merge again. *)
Definition correct (wd : Path.t) (batch_prefixes : list string)
  (keep_list output_prefix : string) (missnp : Path.t)
  (report : MergeReport) : M MergeReport :=
  let* conflict_count := count_lines missnp in
  let report := set_conflict conflict_count report in
  let* corrected_prefixes :=
    extract_batches wd batch_prefixes keep_list "_corrected"
      (Some (Path.str missnp)) in
  let corrected_list := Path.join wd "merge_list_corrected.txt" in
  let* _ := OS.write corrected_list
              (Str.join newline (tail corrected_prefixes) ++ newline) in
  let* _ := _run_plink
              (merge_args (hd "" corrected_prefixes)
                 (Path.str corrected_list) output_prefix)
              true in
  ret report.

(** Lines 197-202: the first attempt becomes the final output. *)
Definition promote (first_attempt output_prefix : string) : M unit :=
  for_ [".bed"; ".bim"; ".fam"; ".log"] (fun ext =>
    let src := Path.parse (first_attempt ++ ext) in
    let dst := Path.parse (output_prefix ++ ext) in
    let* present := OS.exists_ src in
    if present then OS.shutil_move src dst else ret tt).

(** Step 4 (lines 166-202). *)
Definition resolve (wd : Path.t) (batch_prefixes : list string)
  (keep_list output_prefix first_attempt : string)
  (report : MergeReport) : M MergeReport :=
  let missnp := missnp_of first_attempt in
  let* conflicts := has_conflicts missnp in
  if conflicts then
    correct wd batch_prefixes keep_list output_prefix missnp report
  else
    let* _ := promote first_attempt output_prefix in
    ret report.

Definition vcf_args (output_prefix : string) : list string :=
  ["--bfile"; output_prefix; "--recode"; "vcf"; "bgz";
   "--out"; output_prefix].

(** Lines 204-224: the counts read back from disk and the export. *)
Definition finish (output_prefix : string) (convert_to_vcf : bool)
  (report : MergeReport) : M MergeReport :=
  let report := set_output_prefix output_prefix report in
  let fam := Path.parse (output_prefix ++ ".fam") in
  let bim := Path.parse (output_prefix ++ ".bim") in
  let* fam_present := OS.exists_ fam in
  let* report :=
    (if fam_present then
       let* n := count_lines fam in ret (set_final_sample_count n report)
     else ret report) in
  let* bim_present := OS.exists_ bim in
  let* report :=
    (if bim_present then
       let* n := count_lines bim in ret (set_final_variant_count n report)
     else ret report) in
  let* _ :=
    (if convert_to_vcf then
       let* _ := _run_plink (vcf_args output_prefix) true in ret tt
     else ret tt) in
  ret report.

(** The run up to and including the first merge attempt (lines
    131-164), for two batches or more. *)
Definition first_attempt (batch_prefixes : list string)
  (keep_list work_dir : string) : M string :=
  let wd := Path.parse work_dir in
  let* _ := OS.mkdir_parents_exist_ok wd in
  let* subset_prefixes :=
    extract_batches wd batch_prefixes keep_list "_subset" None in
  attempt_merge wd subset_prefixes.

Definition merge (batch_prefixes : list string)
  (keep_list output_prefix work_dir : string) (convert_to_vcf : bool)
  : M MergeReport :=
  let wd := Path.parse work_dir in
  let* _ := OS.mkdir_parents_exist_ok wd in
  let report := new_report (length batch_prefixes) in
  let* subset_prefixes :=
    extract_batches wd batch_prefixes keep_list "_subset" None in
  if Nat.ltb (length subset_prefixes) 2 then
    ret (match subset_prefixes with
         | p :: _ => set_output_prefix p report
         | [] => report
         end)
  else
    let* first_attempt := attempt_merge wd subset_prefixes in
    let* report :=
      resolve wd batch_prefixes keep_list output_prefix first_attempt
        report in
    finish output_prefix convert_to_vcf report.

End WithProcesses.

End Merge.

(** ** manifest.py *)

Module Manifest.

Record FileChecksum := {
  filename : string;
  file_size : nat;
  md5 : string;
  sha256 : string
}.

Record DeliveryManifest := {
  project_id : string;
  delivery_date : string;
  files : list FileChecksum;
  metadata : gmap string string
}.

Definition total_files (m : DeliveryManifest) : nat := length (files m).

Definition total_size_bytes (m : DeliveryManifest) : nat :=
  foldr Nat.add 0 (file_size <$> files m).

Definition append_file (fc : FileChecksum) (m : DeliveryManifest)
  : DeliveryManifest :=
  {| project_id := project_id m; delivery_date := delivery_date m;
     files := files m ++ [fc]; metadata := metadata m |}.

(** [strftime("%Y-%m-%d")], for years of four digits. *)
Definition strftime_Y_m_d (d : Date) : string :=
  Str.digits 4 (year d) ++ "-" ++ Str.digits 2 (month d) ++ "-"
  ++ Str.digits 2 (day d).

(** The order of [sorted] on strings. *)
Definition str_le (a b : string) : Prop := Is_true (String.leb a b).

(** [sorted(directory.iterdir())]: the entries of one directory differ in
    their last component only, which decides the order. *)
Definition sorted_paths (ps : list Path.t) : list Path.t :=
  merge_sort (fun p q => str_le (Path.name p) (Path.name q)) ps.

Section WithHashes.

(** [hashlib.md5(data).hexdigest()] and
    [hashlib.sha256(data).hexdigest()] *)
Variable md5_hex : string -> string.
Variable sha256_hex : string -> string.

Definition compute_checksums (filepath : string) : M FileChecksum :=
  let path := Path.parse filepath in
  let* data := OS.read path in
  let* size := OS.st_size path in
  ret {| filename := Path.name path; file_size := size;
         md5 := md5_hex data; sha256 := sha256_hex data |}.

(** Line 112: an absent or empty list gives the default tokens. *)
Definition exclusions (exclude_patterns : option (list string))
  : gset string :=
  match exclude_patterns with
  | Some (p :: ps) => list_to_set (p :: ps)
  | _ => {[ "MANIFEST"; "STATUS" ]}
  end.

(** [any(pat in name for pat in exclude)] *)
Definition excluded (exclude : gset string) (name : string) : bool :=
  existsb (fun pat => Str.contains pat name) (elements exclude).

(** The body of the loop of lines 122-127. *)
Definition visit (exclude : gset string) (manifest : DeliveryManifest)
  (fp : Path.t) : M DeliveryManifest :=
  let* regular := OS.is_file fp in
  if negb regular then ret manifest
  else if excluded exclude (Path.name fp) then ret manifest
  else
    let* fc := compute_checksums (Path.str fp) in
    ret (append_file fc manifest).

Fixpoint visit_all (exclude : gset string) (manifest : DeliveryManifest)
  (fps : list Path.t) : M DeliveryManifest :=
  match fps with
  | [] => ret manifest
  | fp :: rest =>
      let* manifest := visit exclude manifest fp in
      visit_all exclude manifest rest
  end.

Definition generate (delivery_dir project_id : string)
  (exclude_patterns : option (list string)) : M DeliveryManifest :=
  let exclude := exclusions exclude_patterns in
  let directory := Path.parse delivery_dir in
  let* is_directory := OS.is_dir directory in
  if negb is_directory then raise NotADirectoryError
  else
    let* today := OS.get_now in
    let manifest :=
      {| project_id := project_id;
         delivery_date := strftime_Y_m_d today;
         files := []; metadata := ∅ |} in
    let* entries := OS.iterdir directory in
    visit_all exclude manifest (sorted_paths entries).

End WithHashes.

End Manifest.

(** ** transfer.py *)

Module Transfer.

Record TransferReport := {
  source_dir : string;
  destination_dir : string;
  file_count : nat;
  total_bytes : nat;
  verified : bool;
  method : string
}.

(** [strftime("%Y%m%d")], for years of four digits. *)
Definition strftime_Ymd (d : Date) : string :=
  Str.digits 4 (year d) ++ Str.digits 2 (month d) ++ Str.digits 2 (day d).

(** [[f for f in p.iterdir() if f.is_file()]] *)
Definition regular_files (p : Path.t) : M (list Path.t) :=
  let* entries := OS.iterdir p in
  fun w => (w, Return (List.filter (FS.is_file (disk w)) entries)).

Definition _copy (src dest : Path.t) : M unit :=
  let* entries := OS.iterdir src in
  for_ entries (fun fp =>
    let* regular := OS.is_file fp in
    if regular then OS.shutil_copy2 fp (Path.join dest (Path.name fp))
    else ret tt).

Section WithProcesses.

Variable spawn : Spawn.

Definition rsync_cmd (src dest : Path.t) (chmod_dirs chmod_files : string)
  : list string :=
  ["rsync"; "-a"; ("--chmod=" ++ chmod_dirs ++ "," ++ chmod_files)%string;
   (Path.str src ++ "/")%string; (Path.str dest ++ "/")%string].

Definition _rsync (src dest : Path.t) (chmod_dirs chmod_files : string)
  : M unit :=
  let* _ := OS.subprocess_run spawn
              (rsync_cmd src dest chmod_dirs chmod_files) true in
  ret tt.

(** The destination directory of line 84. *)
Definition destination (dest_root project_id : string) (today : Date)
  : Path.t :=
  Path.join (Path.parse dest_root)
    (project_id ++ "_Delivery_" ++ strftime_Ymd today).

(** Lines 79-96: checks, destination directory and transfer. *)
Definition deliver (source_dir dest_root project_id method
                      chmod_dirs chmod_files : string) : M Path.t :=
  let src := Path.parse source_dir in
  let* src_is_dir := OS.is_dir src in
  if negb src_is_dir then raise NotADirectoryError
  else
    let* today := OS.get_now in
    let dest := destination dest_root project_id today in
    let* _ := OS.mkdir_parents_exist_ok dest in
    let* _ :=
      (if String.eqb method "rsync"
       then _rsync src dest chmod_dirs chmod_files
       else _copy src dest) in
    ret dest.

(** Lines 98-112: the file counts and the report. *)
Definition verify (src dest : Path.t) (method : string)
  : M TransferReport :=
  let* src_files := regular_files src in
  let* dst_files := regular_files dest in
  let* sizes := for_each dst_files OS.st_size in
  ret {| source_dir := Path.str src;
         destination_dir := Path.str dest;
         file_count := length dst_files;
         total_bytes := foldr Nat.add 0 sizes;
         verified := Nat.eqb (length src_files) (length dst_files);
         method := method |}.

Definition send (source_dir dest_root project_id method
                   chmod_dirs chmod_files : string) : M TransferReport :=
  let* dest := deliver source_dir dest_root project_id method
                 chmod_dirs chmod_files in
  verify (Path.parse source_dir) dest method.

End WithProcesses.

End Transfer.

(** ** Vocabulary of the specification *)

Module Spec.

(** A merge command: [exec --bfile base --merge-list ...]. *)
Definition is_merge (cmd : list string) : bool :=
  match cmd !! 3 with
  | Some flag => String.eqb flag "--merge-list"
  | None => false
  end.

(** An extraction with exclusions:
    [exec --bfile b --keep k --make-bed --out o --exclude e]. *)
Definition is_reextract (cmd : list string) : bool :=
  match cmd !! 8 with
  | Some flag => String.eqb flag "--exclude"
  | None => false
  end.

(** The marker identifiers of a conflict list, one per line, and the
    same without repetitions. *)
Definition marker_ids (data : string) : list string := Str.lines data.

Definition distinct_markers (data : string) : list string :=
  remove_dups (marker_ids data).

Definition is_regular (n : FS.node) : bool :=
  match n with FS.File _ => true | FS.Dir _ => false end.

(** The number of regular files among the entries of a directory. *)
Definition regular_count (es : gmap string FS.node) : nat :=
  length (List.filter (fun kn => is_regular kn.2) (map_to_list es)).

(** Every entry of the directory has a name that a file system allows. *)
Definition names_ok (es : gmap string FS.node) : Prop :=
  forall c n, es !! c = Some n -> FS.valid_name c = true.

(** [pat] occurs in [name]. *)
Definition occurs_in (pat name : string) : Prop :=
  exists l r : string, name = (l ++ pat ++ r)%string.

Definition is_blank (a : ascii) : bool :=
  Ascii.eqb a " "%char || Ascii.eqb a "009"%char.

(** The fields of a line, separated by blanks or tabs. *)
Fixpoint fields_from (cur : string) (s : string) : list string :=
  match s with
  | EmptyString => if String.eqb cur "" then [] else [cur]
  | String a rest =>
      if is_blank a
      then (if String.eqb cur "" then [] else [cur]) ++ fields_from "" rest
      else fields_from (cur ++ String a "") rest
  end.

(** The samples of a [.fam] file or of a keep-list: family and
    individual identifier, the first two fields of each line. *)
Definition sample_ids (data : string) : list (list string) :=
  (fun l => take 2 (fields_from "" l)) <$> Str.lines data.

(** The markers of a [.bim] file: the second field of each line. *)
Definition bim_markers (data : string) : list string :=
  (fun l => default "" (fields_from "" l !! 1)) <$> Str.lines data.


(** A computation that starts no process. *)
Definition silent {A} (c : M A) : Prop :=
  forall w w' r, c w = (w', r) -> started w' = started w.

(** A computation that starts exactly the commands [L] when it returns,
    with a result in [Q], and the first few of them when it raises. *)
Definition starts {A} (c : M A) (L : list (list string)) (Q : A -> Prop)
  : Prop :=
  forall w w' r, c w = (w', r) ->
    exists tr, started w' = started w ++ tr
      /\ match r with
         | Return a => tr = L /\ Q a
         | Raise _ => tr `prefix_of` L
         end.

(** The commands of a merge run, in the order of the source: the first
    extractions, the first merge, the extractions with exclusions, the
    second merge and the export. *)
Definition first_pass (exec : string) (wd : Path.t) (bps : list string)
  (keep : string) : list (list string) :=
  (fun bp =>
     exec :: Merge.extract_args bp keep (Merge.batch_out wd "_subset" bp) None)
  <$> bps.

Definition first_merge (exec : string) (wd : Path.t) (bps : list string)
  : list string :=
  exec :: Merge.merge_args (hd "" (Merge.batch_out wd "_subset" <$> bps))
            (Path.str (Path.join wd "merge_list.txt"))
            (Path.str (Path.join wd "merge_attempt")).

(** The conflict list of the first merge attempt, as a path and as the
    string handed to the tool. *)
Definition conflict_list (wd : Path.t) : Path.t :=
  Merge.missnp_of (Path.str (Path.join wd "merge_attempt")).

Definition exclusion_file (wd : Path.t) : string :=
  Path.str (conflict_list wd).

Definition second_pass (exec : string) (wd : Path.t) (bps : list string)
  (keep : string) : list (list string) :=
  (fun bp =>
     [exec; "--bfile"; bp; "--keep"; keep; "--make-bed"; "--out";
      Merge.batch_out wd "_corrected" bp; "--exclude"; exclusion_file wd])
  <$> bps.

Definition second_merge (exec : string) (wd : Path.t) (bps : list string)
  (out : string) : list string :=
  exec :: Merge.merge_args (hd "" (Merge.batch_out wd "_corrected" <$> bps))
            (Path.str (Path.join wd "merge_list_corrected.txt")) out.

Definition export (exec out : string) : list string :=
  exec :: Merge.vcf_args out.

(** The longest command sequences of a run: with a correction round and
    without one. *)
Definition corrected_run (exec : string) (wd : Path.t) (bps : list string)
  (keep out : string) : list (list string) :=
  first_pass exec wd bps keep ++ [first_merge exec wd bps]
  ++ second_pass exec wd bps keep
  ++ [second_merge exec wd bps out; export exec out].

Definition clean_run (exec : string) (wd : Path.t) (bps : list string)
  (keep out : string) : list (list string) :=
  first_pass exec wd bps keep ++ [first_merge exec wd bps; export exec out].

(** What the last stage of a merge keeps of the report it is given. *)
Definition same_verdict (r1 r2 : Merge.MergeReport) : Prop :=
  Merge.correction_applied r2 = Merge.correction_applied r1
  /\ Merge.conflict_snp_count r2 = Merge.conflict_snp_count r1
  /\ Merge.batch_count r2 = Merge.batch_count r1.

(** A path component as [Path.parse] keeps it, and a path made of such
    components. *)
Definition component (c : string) : Prop :=
  Str.contains "/" c = false /\ Path.keep_part c = true.

Definition well_formed (p : Path.t) : Prop :=
  (Path.anchor p = "" \/ Path.anchor p = "/" \/ Path.anchor p = "//")
  /\ Forall component (Path.parts p).

(** The entry [c] of a directory goes into the manifest. *)
Definition allowed (exclude : gset string) (es : gmap string FS.node)
  (c : string) : bool :=
  match es !! c with
  | Some (FS.File _) => negb (Manifest.excluded exclude c)
  | _ => false
  end.

(** The checksum record of the entry [c] of a directory. *)
Definition record (md5_hex sha256_hex : string -> string)
  (es : gmap string FS.node) (c : string) : Manifest.FileChecksum :=
  let data := match es !! c with Some (FS.File d) => d | _ => "" end in
  {| Manifest.filename := c;
     Manifest.file_size := String.length data;
     Manifest.md5 := md5_hex data;
     Manifest.sha256 := sha256_hex data |}.

End Spec.

(** ** Sample processes and worlds *)

Module Demo.

(** A process that does nothing and exits with status 0, as [true]
    does. *)
Definition quiet : Spawn := fun _ fs => Some (0%Z, fs).

(** A process that fails with status 2 without touching the disk. *)
Definition failing : Spawn := fun _ fs => Some (2%Z, fs).

Definition write_file (fs : FS.t) (p data : string) : FS.t :=
  match FS.put (FS.locate fs (Path.parse p)) (FS.File data) (FS.root fs) with
  | inr n => FS.with_root fs n
  | inl _ => fs
  end.

(** A stand-in for PLINK: a merge whose base dataset is not a corrected
    one writes [conflicts] to the conflict list next to its output and
    exits with status 3; every other command exits with status 0. *)
Definition conflicting (conflicts : string) : Spawn :=
  fun cmd fs =>
    match cmd with
    | [_; _; base; flag; _; _; _; out] =>
        if String.eqb flag "--merge-list"
           && negb (Str.contains "_corrected" base)
        then Some (3%Z, write_file fs (out ++ "-merge.missnp") conflicts)
        else Some (0%Z, fs)
    | _ => Some (0%Z, fs)
    end.

(** A tool that reports [conflicts] after the first merge and then takes
    no notice of the exclusions: the merge of the corrected datasets still
    writes the marker [rs1] to the [.bim] of its output. *)
Definition careless (conflicts : string) : Spawn :=
  fun cmd fs =>
    match cmd with
    | [_; _; base; flag; _; _; _; out] =>
        if String.eqb flag "--merge-list" then
          if Str.contains "_corrected" base
          then Some (0%Z,
                     write_file fs (out ++ ".bim")
                       ("1 rs1 0 100 A G" ++ Merge.newline))
          else Some (3%Z, write_file fs (out ++ "-merge.missnp") conflicts)
        else Some (0%Z, fs)
    | _ => Some (0%Z, fs)
    end.

(** A tool that reports [conflicts] after every merge, also after the
    second one, and always exits with status 0. *)
Definition stubborn (conflicts : string) : Spawn :=
  fun cmd fs =>
    match cmd with
    | [_; _; _; flag; _; _; _; out] =>
        if String.eqb flag "--merge-list"
        then Some (0%Z, write_file fs (out ++ "-merge.missnp") conflicts)
        else Some (0%Z, fs)
    | _ => Some (0%Z, fs)
    end.

Definition empty_disk : FS.t :=
  {| FS.root := FS.Dir ∅; FS.cwd := []; FS.dir_size := 4096 |}.

Definition day0 : Date := {| year := 2026; month := 11; day := 4 |}.

Definition world (fs : FS.t) : World :=
  {| disk := fs; now := day0; started := [] |}.

Definition read_file (fs : FS.t) (p : string) : string :=
  match FS.lookup fs (Path.parse p) with
  | Some (FS.File data) => data
  | _ => ""
  end.

(** A stand-in for a subsetting tool that accepts an empty selection: for
    [exec --bfile b --keep k --make-bed --out o] it writes to [o.fam] the
    lines of [b.fam] whose sample is in [k], and exits with status 0. *)
Definition lenient_subsetter : Spawn :=
  fun cmd fs =>
    match cmd with
    | [_; _; b; _; k; _; _; o] =>
        let keep := Spec.sample_ids (read_file fs k) in
        let kept :=
          List.filter
            (fun l => bool_decide (take 2 (Spec.fields_from "" l) ∈ keep))
            (Str.lines (read_file fs (b ++ ".fam"))) in
        Some (0%Z,
              write_file fs (o ++ ".fam")
                (Str.join Merge.newline kept
                 ++ (if kept is [] then "" else Merge.newline)))
    | _ => Some (0%Z, fs)
    end.

(** One sample in the batch, another one in the keep-list. *)
Definition disjoint_disk : FS.t :=
  write_file
    (write_file empty_disk "b1.fam" ("F1 S1 0 0 1 -9" ++ Merge.newline))
    "keep.txt" ("F2 S2" ++ Merge.newline).

(** A delivery directory with two data files, a manifest, a status file
    and a subdirectory. *)
Definition delivery_entries : gmap string FS.node :=
  {[ "a.vcf.gz" := FS.File "vcf";
     "b.txt" := FS.File "notes";
     "MANIFEST.tsv" := FS.File "old";
     "STATUS_SUMMARY.tsv" := FS.File "old";
     "logs" := FS.Dir ∅ ]}.

Definition delivery_disk : FS.t :=
  {| FS.root := FS.Dir {[ "delivery" := FS.Dir delivery_entries ]};
     FS.cwd := []; FS.dir_size := 4096 |}.

(** Stand-ins for the hash functions. *)
Definition fake_md5 (data : string) : string := "md5:" ++ data.
Definition fake_sha256 (data : string) : string := "sha256:" ++ data.

Definition twice_rs1 : string :=
  "rs1" ++ Merge.newline ++ "rs1" ++ Merge.newline.

End Demo.

(** * The rest of the pipeline: filter.py, the manifest writers and
    pipeline.py *)

(** ** Python built-ins that the filter uses

    A character stands for a code point below 256. *)

Module Py.

(** [c.isspace()] *)
Definition isspace (a : ascii) : bool :=
  let n := nat_of_ascii a in
  (Nat.leb 9 n && Nat.leb n 13) || (Nat.leb 28 n && Nat.leb n 32)
  || Nat.eqb n 133 || Nat.eqb n 160.

(** [s.lstrip()], [s.rstrip()] and [s.strip()] *)
Fixpoint lstrip (s : string) : string :=
  match s with
  | EmptyString => EmptyString
  | String a rest => if isspace a then lstrip rest else s
  end.

Fixpoint rstrip (s : string) : string :=
  match s with
  | EmptyString => EmptyString
  | String a rest =>
      match rstrip rest with
      | EmptyString => if isspace a then EmptyString else String a EmptyString
      | kept => String a kept
      end
  end.

Definition strip (s : string) : string := rstrip (lstrip s).

(** [s.split()]: the words between runs of whitespace; [cur] is the word
    read so far. *)
Fixpoint split_from (cur : string) (s : string) : list string :=
  match s with
  | EmptyString => if String.eqb cur "" then [] else [cur]
  | String a rest =>
      if isspace a
      then (if String.eqb cur "" then [] else [cur]) ++ split_from "" rest
      else split_from (cur ++ String a "") rest
  end.

Definition split (s : string) : list string := split_from "" s.

(** [l[i]] for an [int] index: negative indices count from the end, and
    [None] stands for [IndexError]. *)
Definition index {A} (l : list A) (i : Z) : option A :=
  if (0 <=? i)%Z then l !! Z.to_nat i
  else if (- Z.of_nat (length l) <=? i)%Z
       then l !! Z.to_nat (Z.of_nat (length l) + i)
       else None.

(** [p.parent] *)
Definition parent (p : Path.t) : Path.t :=
  {| Path.anchor := Path.anchor p; Path.parts := removelast (Path.parts p) |}.

(** Truth value of an [Optional[str]] and of an [Optional[List]]. *)
Definition truthy_list {A} (o : option (list A)) : bool :=
  match o with
  | Some (_ :: _) => true
  | _ => false
  end.

End Py.

(** ** Exceptions beyond those of the operating system *)

Inductive error :=
| Os (e : exn)
| CsvFailure
| IndexError
| UnicodeEncodeError.

Inductive result (A : Type) :=
| Ok (a : A)
| Fail (e : error).
Arguments Ok {A} a.
Arguments Fail {A} e.

Definition P (A : Type) : Type := World -> World * result A.

Definition pret {A} (a : A) : P A := fun w => (w, Ok a).

Definition pfail {A} (e : error) : P A := fun w => (w, Fail e).

Definition pbind {A B} (c : P A) (k : A -> P B) : P B :=
  fun w =>
    match c w with
    | (w1, Ok a) => k a w1
    | (w1, Fail e) => (w1, Fail e)
    end.

Notation "'let+' x ':=' c 'in' k" := (pbind c (fun x => k))
  (at level 10, x pattern, c at level 100, k at level 200).

(** A computation that raises operating-system exceptions only. *)
Definition lift {A} (c : M A) : P A :=
  fun w =>
    match c w with
    | (w1, Return a) => (w1, Ok a)
    | (w1, Raise e) => (w1, Fail (Os e))
    end.

(** A value or an exception, without the world. *)
Definition of_result {A} (r : result A) : P A := fun w => (w, r).

(** What [csv.reader(fh, delimiter=d)] yields over a text: the rows, and
    whether it raises after the last of them ([csv.Error], or [TypeError]
    for a delimiter it refuses). *)
Record CsvRows := { rows : list (list string); raises : bool }.

Definition CsvReader : Type := string -> string -> CsvRows.

(** ** filter.py *)

Module Filter.

Record FilterReport := {
  original_count : nat;
  exclusion_count : nat;
  final_count : nat;
  exclusion_reasons : gmap string nat
}.

(** [FilterReport.removed_count] *)
Definition removed_count (r : FilterReport) : Z :=
  (Z.of_nat (original_count r) - Z.of_nat (final_count r))%Z.

(** The loop of lines 88-90. *)
Fixpoint add_ids (id_column : Z) (rows : list (list string))
  (ids : gset string) : result (gset string) :=
  match rows with
  | [] => Ok ids
  | row :: rest =>
      if negb (bool_decide (row = []))
         && (id_column <? Z.of_nat (length row))%Z
      then match Py.index row id_column with
           | Some field => add_ids id_column rest ({[ Py.strip field ]} ∪ ids)
           | None => Fail IndexError
           end
      else add_ids id_column rest ids
  end.

(** The loop of lines 113-115. *)
Fixpoint add_reasons (id_column reason_column : Z) (rows : list (list string))
  (mapping : gmap string string) : result (gmap string string) :=
  match rows with
  | [] => Ok mapping
  | row :: rest =>
      if negb (bool_decide (row = []))
         && (Z.max id_column reason_column <? Z.of_nat (length row))%Z
      then match Py.index row reason_column, Py.index row id_column with
           | Some reason, Some field =>
               add_reasons id_column reason_column rest
                 (<[ Py.strip field := Py.strip reason ]> mapping)
           | _, _ => Fail IndexError
           end
      else add_reasons id_column reason_column rest mapping
  end.

(** The rows after [next(reader, None)]. *)
Definition data_rows (has_header : bool) (rows : list (list string))
  : list (list string) :=
  if has_header then tail rows else rows.

(** The identifier of a cohort line (lines 158-160), if it has one. *)
Definition line_id (line : string) : option string :=
  head (Py.split (Py.strip line)).

(** The identifiers of a cohort text (lines 156-160). *)
Definition read_ids (text : string) : list string :=
  omap line_id (Str.lines text).

Section WithCsv.

Variable csv_reader : CsvReader.

Definition load_exclusion_set (filepath : string) (id_column : Z)
  (has_header : bool) (delimiter : string) : P (gset string) :=
  let path := Path.parse filepath in
  let+ present := lift (OS.exists_ path) in
  if negb present then pfail (Os FileNotFoundError)
  else
    let+ text := lift (OS.read path) in
    let reader := csv_reader delimiter text in
    let+ ids :=
      of_result (add_ids id_column (data_rows has_header (rows reader)) ∅) in
    if raises reader then pfail CsvFailure else pret ids.

Definition load_exclusion_set_with_reasons (filepath : string)
  (id_column reason_column : Z) (has_header : bool) (delimiter : string)
  : P (gmap string string) :=
  let path := Path.parse filepath in
  let+ present := lift (OS.exists_ path) in
  if negb present then pfail (Os FileNotFoundError)
  else
    let+ text := lift (OS.read path) in
    let reader := csv_reader delimiter text in
    let+ mapping :=
      of_result (add_reasons id_column reason_column
                   (data_rows has_header (rows reader)) ∅) in
    if raises reader then pfail CsvFailure else pret mapping.

(** The loop of lines 151-152. *)
Fixpoint load_all (exclusion_paths : list string) (to_exclude : gset string)
  : P (gset string) :=
  match exclusion_paths with
  | [] => pret to_exclude
  | ep :: rest =>
      let+ ids := load_exclusion_set ep 0 true "," in
      load_all rest (to_exclude ∪ ids)
  end.

Definition apply (cohort_path : string)
  (exclusion_paths : option (list string))
  (exclusion_set : option (gset string)) (output_path : option string)
  : P FilterReport :=
  let cohort := Path.parse cohort_path in
  let+ present := lift (OS.exists_ cohort) in
  if negb present then pfail (Os FileNotFoundError)
  else
    let to_exclude : gset string := default ∅ exclusion_set in
    let+ to_exclude :=
      (if Py.truthy_list exclusion_paths
       then load_all (default [] exclusion_paths) to_exclude
       else pret to_exclude) in
    let+ text := lift (OS.read cohort) in
    let original_ids := read_ids text in
    let filtered :=
      List.filter (fun sid => negb (bool_decide (sid ∈ to_exclude)))
        original_ids in
    let report :=
      {| original_count := length original_ids;
         exclusion_count := size to_exclude;
         final_count := length filtered;
         exclusion_reasons := ∅ |} in
    let+ _ :=
      (if Merge.truthy output_path then
         let out := Path.parse (default "" output_path) in
         let+ _ := lift (OS.mkdir_parents_exist_ok (Py.parent out)) in
         lift (OS.write out (Str.join Merge.newline filtered ++ Merge.newline))
       else pret tt) in
    pret report.

End WithCsv.

End Filter.

(** ** A reader for the tests: [csv.reader] with the default dialect

    After the reader of CPython ([Modules/_csv.c], as of 3.11), for the
    default dialect with a delimiter of one character: quote character
    [dquote], doubled quotes inside quoted fields, no escape character, not
    strict.  The properties of the filter do not depend on it. *)

Module Csv.

Inductive state :=
| START_RECORD
| START_FIELD
| IN_FIELD
| IN_QUOTED_FIELD
| QUOTE_IN_QUOTED_FIELD
| EAT_CRNL.

Record parser := { fields : list string; field : string; st : state }.

Definition dquote : ascii := ascii_of_nat 34.

Definition field_limit : N := 131072%N.

Definition reset : parser :=
  {| fields := []; field := ""; st := START_RECORD |}.

Definition goto (s : state) (p : parser) : parser :=
  {| fields := fields p; field := field p; st := s |}.

Definition save_field (s : state) (p : parser) : parser :=
  {| fields := fields p ++ [field p]; field := ""; st := s |}.

Definition add_char (a : ascii) (s : state) (p : parser) : option parser :=
  if (field_limit <=? N.of_nat (String.length (field p)))%N then None
  else Some {| fields := fields p; field := field p ++ String a ""; st := s |}.

Definition is_newline (a : ascii) : bool :=
  Ascii.eqb a Str.LF || Ascii.eqb a Str.CR.

(** One step on a character, or on the end of the line for [None]; the
    result [None] is [csv.Error]. *)
Definition start_field (delimiter : ascii) (c : option ascii) (p : parser)
  : option parser :=
  match c with
  | None => Some (save_field START_RECORD p)
  | Some a =>
      if is_newline a then Some (save_field EAT_CRNL p)
      else if Ascii.eqb a dquote then Some (goto IN_QUOTED_FIELD p)
      else if Ascii.eqb a delimiter then Some (save_field START_FIELD p)
      else add_char a IN_FIELD p
  end.

Definition process (delimiter : ascii) (c : option ascii) (p : parser)
  : option parser :=
  match st p with
  | START_RECORD =>
      match c with
      | None => Some p
      | Some a =>
          if is_newline a then Some (goto EAT_CRNL p)
          else start_field delimiter c p
      end
  | START_FIELD => start_field delimiter c p
  | IN_FIELD =>
      match c with
      | None => Some (save_field START_RECORD p)
      | Some a =>
          if is_newline a then Some (save_field EAT_CRNL p)
          else if Ascii.eqb a delimiter then Some (save_field START_FIELD p)
          else add_char a IN_FIELD p
      end
  | IN_QUOTED_FIELD =>
      match c with
      | None => Some p
      | Some a =>
          if Ascii.eqb a dquote then Some (goto QUOTE_IN_QUOTED_FIELD p)
          else add_char a IN_QUOTED_FIELD p
      end
  | QUOTE_IN_QUOTED_FIELD =>
      match c with
      | None => Some (save_field START_RECORD p)
      | Some a =>
          if Ascii.eqb a dquote then add_char a IN_QUOTED_FIELD p
          else if Ascii.eqb a delimiter then Some (save_field START_FIELD p)
          else if is_newline a then Some (save_field EAT_CRNL p)
          else add_char a IN_FIELD p
      end
  | EAT_CRNL =>
      match c with
      | None => Some (goto START_RECORD p)
      | Some a => if is_newline a then Some p else None
      end
  end.

(** The characters of a line, then its end. *)
Fixpoint process_line (delimiter : ascii) (line : string) (p : parser)
  : option parser :=
  match line with
  | EmptyString => process delimiter None p
  | String a rest =>
      match process delimiter (Some a) p with
      | Some p' => process_line delimiter rest p'
      | None => None
      end
  end.

(** The lines that iterating over a text file yields, each with its
    terminator, which universal newlines turn into LF. *)
Fixpoint lines_keepends (cur : string) (s : string) : list string :=
  match s with
  | EmptyString => if String.eqb cur "" then [] else [cur]
  | String a rest =>
      if Ascii.eqb a Str.LF then (cur ++ String Str.LF "")%string :: lines_keepends "" rest
      else if Ascii.eqb a Str.CR then
        match rest with
        | String b rest' =>
            if Ascii.eqb b Str.LF
            then (cur ++ String Str.LF "")%string :: lines_keepends "" rest'
            else (cur ++ String Str.LF "")%string :: lines_keepends "" rest
        | EmptyString => [(cur ++ String Str.LF "")%string]
        end
      else lines_keepends (cur ++ String a "") rest
  end.

(** The records of the remaining lines; [p] is the record under way. *)
Fixpoint records (delimiter : ascii) (p : parser) (lines : list string)
  : CsvRows :=
  match lines with
  | [] =>
      if negb (String.eqb (field p) "")
         || match st p with IN_QUOTED_FIELD => true | _ => false end
      then {| rows := [fields p ++ [field p]]; raises := false |}
      else {| rows := []; raises := false |}
  | line :: rest =>
      match process_line delimiter line p with
      | None => {| rows := []; raises := true |}
      | Some p' =>
          match st p' with
          | START_RECORD =>
              let more := records delimiter reset rest in
              {| rows := fields p' :: rows more; raises := raises more |}
          | _ => records delimiter p' rest
          end
      end
  end.

Definition reader : CsvReader :=
  fun delimiter text =>
    match delimiter with
    | String d EmptyString => records d reset (lines_keepends "" text)
    | _ => {| rows := []; raises := true |}
    end.

End Csv.

(** ** Vocabulary for the properties of the filter *)

Module FilterSpec.

(** A computation that leaves the world as it is. *)
Definition reads_only {A} (c : P A) : Prop :=
  forall w w' r, c w = (w', r) -> w' = w.

(** A cohort identifier: not empty and without whitespace. *)
Fixpoint spaceless (s : string) : bool :=
  match s with
  | EmptyString => true
  | String a rest => negb (Py.isspace a) && spaceless rest
  end.

Definition token (s : string) : Prop := s <> "" /\ spaceless s = true.

(** The identifiers that a run of the filter keeps. *)
Definition kept (to_exclude : gset string) (ids : list string) : list string :=
  List.filter (fun sid => negb (bool_decide (sid ∈ to_exclude))) ids.

(** The identifiers that it removes. *)
Definition removed (to_exclude : gset string) (ids : list string)
  : list string :=
  List.filter (fun sid => bool_decide (sid ∈ to_exclude)) ids.

(** The exclusion set of a run: the set given and the lists loaded. *)
Definition union_of (exclusion_set : option (gset string))
  (sets : list (gset string)) : gset string :=
  default ∅ exclusion_set ∪ ⋃ sets.

(** The text that it writes for them. *)
Definition listing (ids : list string) : string :=
  (Str.join Merge.newline ids ++ Merge.newline)%string.

End FilterSpec.

(** ** Sample data for the filter *)

Module FilterDemo.

Definition nl : string := Merge.newline.

(** The files of [tests/test_filter.py]. *)
Definition exclusions_csv : string :=
  "SampleID,Reason" ++ nl ++ "S001,GenderMismatch" ++ nl
  ++ "S002,Withdrawal" ++ nl.

Definition cohort_txt : string :=
  "S001" ++ nl ++ "S002" ++ nl ++ "S003" ++ nl ++ "S004" ++ nl.

Definition disk : FS.t :=
  Demo.write_file
    (Demo.write_file Demo.empty_disk "exclusions.csv" exclusions_csv)
    "cohort.txt" cohort_txt.

Definition world : World := Demo.world disk.

End FilterDemo.

(** ** The writers of manifest.py *)

(** The line that [csv.writer(fh, delimiter=d).writerow(row)] writes. *)
Definition CsvWriter : Type := string -> list string -> string.

Module Report.

(** [str(n)] for an [int] that is not negative; [fuel] bounds the number
    of digits. *)
Fixpoint decimal (fuel n : nat) (acc : string) : string :=
  match fuel with
  | O => acc
  | S fuel' =>
      if Nat.ltb n 10 then String (Str.digit n) acc
      else decimal fuel' (n / 10) (String (Str.digit n) acc)
  end.

Definition str_of_nat (n : nat) : string := decimal (S n) n "".

Definition tab : string := String (ascii_of_nat 9) "".

(** [meta.update(extra)] on a dictionary kept in insertion order. *)
Fixpoint set_item (k v : string) (meta : list (string * string))
  : list (string * string) :=
  match meta with
  | [] => [(k, v)]
  | (k', v') :: rest =>
      if String.eqb k' k then (k, v) :: rest
      else (k', v') :: set_item k v rest
  end.

Definition update (meta extra : list (string * string))
  : list (string * string) :=
  fold_left (fun m kv => set_item kv.1 kv.2 m) extra meta.

Section WithWriter.

Variable csv_writerow : CsvWriter.

(** Whether the encoding of a file opened for writing in text mode, the
    one of the locale, has a code for every character of a text. *)
Variable encodable : string -> bool.

(** The lines that reach the file: those before the first one that the
    encoding refuses. *)
Fixpoint encoded (lines : list string) : list string :=
  match lines with
  | [] => []
  | l :: rest => if encodable l then l :: encoded rest else []
  end.

(** [with open(path, "w", newline="") as fh:] and one [fh.write] for
    each line, as [csv.writer] does it: the file is created or emptied,
    the lines are written in turn, and the first one that cannot be
    encoded raises [UnicodeEncodeError]; the file is closed on the way
    out and keeps the lines before that one. *)
Definition write_lines (path : Path.t) (lines : list string) : P unit :=
  let+ _ := lift (OS.write path (Str.join "" (encoded lines))) in
  if forallb encodable lines then pret tt else pfail UnicodeEncodeError.

Definition manifest_rows (manifest : Manifest.DeliveryManifest)
  : list string :=
  csv_writerow tab ["Filename"; "Size_Bytes"; "MD5"; "SHA256"]
  :: ((fun fc =>
         csv_writerow tab
           [Manifest.filename fc; str_of_nat (Manifest.file_size fc);
            Manifest.md5 fc; Manifest.sha256 fc])
      <$> Manifest.files manifest).

Definition manifest_text (manifest : Manifest.DeliveryManifest) : string :=
  Str.join "" (manifest_rows manifest).

Definition write_manifest (manifest : Manifest.DeliveryManifest)
  (output_path : string) : P unit :=
  let path := Path.parse output_path in
  let+ _ := lift (OS.mkdir_parents_exist_ok (Py.parent path)) in
  write_lines path (manifest_rows manifest).

Definition status_meta (manifest : Manifest.DeliveryManifest)
  (extra_metadata : option (list (string * string)))
  : list (string * string) :=
  let meta :=
    [("Project_ID", Manifest.project_id manifest);
     ("Delivery_Date", Manifest.delivery_date manifest);
     ("Total_Files", str_of_nat (Manifest.total_files manifest));
     ("Total_Size_Bytes", str_of_nat (Manifest.total_size_bytes manifest));
     ("Integrity_Check", "PASS")] in
  if Py.truthy_list extra_metadata
  then update meta (default [] extra_metadata)
  else meta.

Definition status_rows (manifest : Manifest.DeliveryManifest)
  (extra_metadata : option (list (string * string))) : list string :=
  csv_writerow tab ["Metric"; "Value"]
  :: ((fun kv => csv_writerow tab [kv.1; kv.2])
      <$> status_meta manifest extra_metadata).

Definition status_text (manifest : Manifest.DeliveryManifest)
  (extra_metadata : option (list (string * string))) : string :=
  Str.join "" (status_rows manifest extra_metadata).

Definition write_status_summary (manifest : Manifest.DeliveryManifest)
  (output_path : string) (extra_metadata : option (list (string * string)))
  : P unit :=
  let path := Path.parse output_path in
  let+ _ := lift (OS.mkdir_parents_exist_ok (Py.parent path)) in
  write_lines path (status_rows manifest extra_metadata).

End WithWriter.

End Report.

(** ** pipeline.py *)

Module Pipeline.

Record PipelineConfig := {
  project_id : string;
  cohort_file : string;
  exclusion_files : option (list string);
  batch_prefixes : option (list string);
  work_dir : string;
  delivery_dir : string;
  staging_root : string;
  plink_exec : string;
  convert_to_vcf : bool;
  transfer_method : string
}.

Record PipelineResult := {
  filter_report : option Filter.FilterReport;
  merge_report : option Merge.MergeReport;
  manifest : option Manifest.DeliveryManifest;
  transfer_report : option Transfer.TransferReport
}.

(** The path of the filtered cohort and the prefix of the final dataset. *)
Definition filtered_path (config : PipelineConfig) : string :=
  Path.str (Path.join (Path.parse (work_dir config)) "cohort_filtered.txt").

Definition output_prefix (config : PipelineConfig) : string :=
  Path.str
    (Path.join (Path.parse (delivery_dir config))
       (project_id config ++ "_final_genotypes")).

Section WithEnvironment.

Variable spawn : Spawn.
Variable csv_reader : CsvReader.
Variable csv_writerow : CsvWriter.
Variable encodable : string -> bool.
Variable md5_hex sha256_hex : string -> string.

(** Step 2 (lines 103-121). *)
Definition merge_step (config : PipelineConfig)
  : P (option Merge.MergeReport) :=
  if Py.truthy_list (batch_prefixes config) then
    let+ report :=
      lift (Merge.merge spawn (plink_exec config)
              (default [] (batch_prefixes config)) (filtered_path config)
              (output_prefix config) (work_dir config)
              (convert_to_vcf config)) in
    pret (Some report)
  else pret None.

Definition run (config : PipelineConfig) : P PipelineResult :=
  let wd := Path.parse (work_dir config) in
  let+ _ := lift (OS.mkdir_parents_exist_ok wd) in
  let dd := Path.parse (delivery_dir config) in
  let+ _ := lift (OS.mkdir_parents_exist_ok dd) in
  let+ filter_report :=
    Filter.apply csv_reader (cohort_file config) (exclusion_files config)
      None (Some (filtered_path config)) in
  let+ merge_report := merge_step config in
  let+ manifest :=
    lift (Manifest.generate md5_hex sha256_hex (delivery_dir config)
            (project_id config) None) in
  let+ _ :=
    Report.write_manifest csv_writerow encodable manifest
      (Path.str (Path.join dd "MANIFEST.tsv")) in
  let+ _ :=
    Report.write_status_summary csv_writerow encodable manifest
      (Path.str (Path.join dd "STATUS_SUMMARY.tsv")) None in
  let+ transfer_report :=
    lift (Transfer.send spawn (delivery_dir config) (staging_root config)
            (project_id config) (transfer_method config)
            "Du=rwx,Dgo=rx" "Fu=rw,Fgo=r") in
  pret {| filter_report := Some filter_report;
          merge_report := merge_report;
          manifest := Some manifest;
          transfer_report := Some transfer_report |}.

End WithEnvironment.

End Pipeline.

(** ** A writer for the tests: [csv.writer] with the default dialect

    Fields are joined by the delimiter and the line ends with CR LF; a
    field is quoted when it holds the delimiter, a quote or a line break,
    and a row of one empty field is written as a pair of quotes. *)

Module CsvOut.

Definition needs_quotes (delimiter : ascii) (f : string) : bool :=
  existsb
    (fun a =>
       Ascii.eqb a delimiter || Ascii.eqb a Csv.dquote || Csv.is_newline a)
    (list_ascii_of_string f).

Fixpoint doubled (f : string) : string :=
  match f with
  | EmptyString => EmptyString
  | String a rest =>
      if Ascii.eqb a Csv.dquote then String a (String a (doubled rest))
      else String a (doubled rest)
  end.

Definition quoted (f : string) : string :=
  String Csv.dquote (doubled f ++ String Csv.dquote "").

Definition field_out (delimiter : ascii) (f : string) : string :=
  if needs_quotes delimiter f then quoted f else f.

Definition writerow : CsvWriter :=
  fun delimiter row =>
    match delimiter with
    | String d EmptyString =>
        (match row with
         | [EmptyString] => quoted ""
         | _ => Str.join delimiter (field_out d <$> row)
         end ++ String Str.CR (String Str.LF ""))%string
    | _ => ""
    end.

(** Two encodings: UTF-8, which has a code for every character, and
    ASCII, which has one for the code points below 128. *)
Definition utf8 : string -> bool := fun _ => true.

Definition ascii_only (s : string) : bool :=
  forallb (fun a => Nat.ltb (nat_of_ascii a) 128) (list_ascii_of_string s).

End CsvOut.

(** ** Vocabulary for the manifest and the transfer *)

Module ManifestSpec.





(** The two files that the pipeline writes next to the data. *)
Definition manifest_name : string := "MANIFEST.tsv".
Definition status_name : string := "STATUS_SUMMARY.tsv".

End ManifestSpec.

(** ** Vocabulary for the failures of a merge *)

Module MergeSpec.

(** A computation that never raises [CalledProcessError]. *)
Definition os_only {A} (c : M A) : Prop :=
  forall w w' rc cmd, c w <> (w', Raise (CalledProcessError rc cmd)).

(** A computation that raises [CalledProcessError] only for a command in
    [Q] that it started last and that exited with a status other than 0. *)
Definition blames {A} (c : M A) (Q : list string -> Prop) : Prop :=
  forall w w' rc cmd,
    c w = (w', Raise (CalledProcessError rc cmd)) ->
    rc <> 0%Z /\ last (started w') = Some cmd /\ Q cmd.

(** The commands whose exit status the merge checks: every extraction
    and the export are no merge commands, and of the two merges it is the
    second. *)
Definition checked (exec : string) (wd : Path.t) (bps : list string)
  (out : string) (cmd : list string) : Prop :=
  Spec.is_merge cmd = false \/ cmd = Spec.second_merge exec wd bps out.

(** The number of lines of the file at [p], 0 when there is none. *)
Definition line_count (fs : FS.t) (p : string) : nat :=
  match FS.lookup fs (Path.parse p) with
  | Some (FS.File data) => length (Str.lines data)
  | _ => 0
  end.

End MergeSpec.

(** ** Vocabulary for a transfer by copy *)

Module TransferSpec.

(** Two places of the file system of which neither lies within the
    other, nor are they the same: their components part somewhere. *)
Fixpoint apart (s d : list string) : bool :=
  match s, d with
  | a :: s', b :: d' => if String.eqb a b then apart s' d' else true
  | _, _ => false
  end.

(** The regular files among the entries of a directory. *)
Definition regular_part (es : gmap string FS.node) : gmap string FS.node :=
  filter (fun kn => Spec.is_regular kn.2 = true) es.

(** A directory after the entry [c] of [es] is copied into it, and after
    the entries [cs] are. *)
Definition copy_entry (es b : gmap string FS.node) (c : string)
  : gmap string FS.node :=
  match es !! c with
  | Some (FS.File data) => <[c := FS.File data]> b
  | _ => b
  end.

Definition copied (es : gmap string FS.node) (cs : list string)
  (b : gmap string FS.node) : gmap string FS.node :=
  foldl (copy_entry es) b cs.

Definition only_files (b : gmap string FS.node) : Prop :=
  forall c n, b !! c = Some n -> Spec.is_regular n = true.

(** The size of a regular file, and the total size of the regular files
    of a directory. *)
Definition node_size (n : FS.node) : nat :=
  match n with
  | FS.File data => String.length data
  | FS.Dir _ => 0
  end.

Definition bytes (es : gmap string FS.node) : nat :=
  foldr Nat.add 0 ((fun kn => node_size kn.2) <$> map_to_list es).

End TransferSpec.

(** ** Vocabulary for a run of the pipeline *)

Module PipelineSpec.







End PipelineSpec.

(** ** A sample run of the pipeline *)

Module PipelineDemo.

(** The configuration of the class docstring, with a transfer by
    [rsync], over the cohort and the exclusions of the filter tests. *)
Definition config : Pipeline.PipelineConfig :=
  {| Pipeline.project_id := "NBR030";
     Pipeline.cohort_file := "cohort.txt";
     Pipeline.exclusion_files := Some ["exclusions.csv"];
     Pipeline.batch_prefixes := Some ["batch_01"; "batch_02"];
     Pipeline.work_dir := "work";
     Pipeline.delivery_dir := "delivery";
     Pipeline.staging_root := "staging";
     Pipeline.plink_exec := "plink";
     Pipeline.convert_to_vcf := true;
     Pipeline.transfer_method := "rsync" |}.

(** The same without a cohort file that exists. *)
Definition no_cohort : Pipeline.PipelineConfig :=
  {| Pipeline.project_id := "NBR030";
     Pipeline.cohort_file := "missing.txt";
     Pipeline.exclusion_files := Some ["exclusions.csv"];
     Pipeline.batch_prefixes := Some ["batch_01"; "batch_02"];
     Pipeline.work_dir := "work";
     Pipeline.delivery_dir := "delivery";
     Pipeline.staging_root := "staging";
     Pipeline.plink_exec := "plink";
     Pipeline.convert_to_vcf := true;
     Pipeline.transfer_method := "rsync" |}.

Definition run (config : Pipeline.PipelineConfig)
  : World * result Pipeline.PipelineResult :=
  Pipeline.run Demo.quiet Csv.reader CsvOut.writerow CsvOut.utf8
    Demo.fake_md5 Demo.fake_sha256 config FilterDemo.world.

End PipelineDemo.

(** ** Sample data for the writers *)

Module ReportDemo.

(** The manifest of the sample delivery directory. *)
Definition manifest : Manifest.DeliveryManifest :=
  match (Manifest.generate Demo.fake_md5 Demo.fake_sha256 "delivery" "P1"
           None (Demo.world Demo.delivery_disk)).2 with
  | Return m => m
  | Raise _ =>
      {| Manifest.project_id := ""; Manifest.delivery_date := "";
         Manifest.files := []; Manifest.metadata := ∅ |}
  end.

(** A file name with an e acute, code point 233. *)
Definition accented : string := "caf" ++ String (ascii_of_nat 233) ".txt".

(** A delivery directory with two files, the second of which has a name
    that is not ASCII. *)
Definition accented_disk : FS.t :=
  {| FS.root :=
       FS.Dir {[ "delivery" :=
                   FS.Dir {[ "a.txt" := FS.File "one";
                             accented := FS.File "two" ]} ]};
     FS.cwd := []; FS.dir_size := 4096 |}.

End ReportDemo.

(** * Properties *)

(** ** Computations *)

Lemma bind_returns {A B} (c : M A) (k : A -> M B) w w' b :
  bind c k w = (w', Return b) ->
  exists a w1, c w = (w1, Return a) /\ k a w1 = (w', Return b).
Proof.
  unfold bind. destruct (c w) as [w1 [a | e]]; intros H.
  - exists a, w1. split; [reflexivity | exact H].
  - discriminate H.
Qed.

Lemma bind_cases {A B} (c : M A) (k : A -> M B) w w' r :
  bind c k w = (w', r) ->
  (exists e, c w = (w', Raise e) /\ r = Raise e) \/
  (exists a w1, c w = (w1, Return a) /\ k a w1 = (w', r)).
Proof.
  unfold bind. destruct (c w) as [w1 [a | e]]; intros H.
  - right. exists a, w1. split; [reflexivity | exact H].
  - left. exists e. inversion H; subst. split; reflexivity.
Qed.

Lemma bind_of_return {A B} (c : M A) (k : A -> M B) w w1 a :
  c w = (w1, Return a) -> bind c k w = k a w1.
Proof. unfold bind. intros ->. reflexivity. Qed.

(** ** Merging fewer than two batches *)

Section FewBatches.

Variable spawn : Spawn.
Variable plink_exec : string.

(** C10: with no batch at all, once the working directory is there, the
    report is the initial one (no conflict, no correction, no counts, no
    output prefix) and no command is started. *)
Theorem merge_no_batch keep_list output_prefix work_dir convert_to_vcf w w1 :
  OS.mkdir_parents_exist_ok (Path.parse work_dir) w = (w1, Return tt) ->
  exists r,
    Merge.merge spawn plink_exec [] keep_list output_prefix work_dir
      convert_to_vcf w = (w1, Return r)
    /\ Merge.batch_count r = 0
    /\ Merge.conflict_snp_count r = 0
    /\ Merge.correction_applied r = false
    /\ Merge.final_sample_count r = 0
    /\ Merge.final_variant_count r = 0
    /\ Merge.output_prefix r = ""
    /\ started w1 = started w.
Proof.
  intros Hmk. exists (Merge.new_report 0).
  unfold Merge.merge. rewrite (bind_of_return _ _ _ _ _ Hmk). cbn.
  repeat split; try reflexivity.
  unfold OS.mkdir_parents_exist_ok in Hmk.
  destruct (FS.make_dirs _ _) as [[|]|n]; inversion Hmk; reflexivity.
Qed.


End FewBatches.

Lemma merge_no_batch_witness :
  exists r,
    Merge.merge Demo.quiet "plink" [] "keep.txt" "out/final" "work" true
      (Demo.world Demo.empty_disk)
    = (set_root (FS.Dir {[ "work" := FS.Dir ∅ ]}) (Demo.world Demo.empty_disk),
       Return r)
    /\ Merge.batch_count r = 0
    /\ Merge.conflict_snp_count r = 0
    /\ Merge.correction_applied r = false
    /\ Merge.final_sample_count r = 0
    /\ Merge.final_variant_count r = 0
    /\ Merge.output_prefix r = ""
    /\ started (set_root (FS.Dir {[ "work" := FS.Dir ∅ ]})
                  (Demo.world Demo.empty_disk)) = [].
Proof.
  apply (merge_no_batch Demo.quiet "plink" "keep.txt" "out/final" "work" true
           (Demo.world Demo.empty_disk)).
  vm_compute. reflexivity.
Defined.


(** ** The sample subsetter *)

Section Subsetter.

Variable spawn : Spawn.
Variable plink_exec : string.


End Subsetter.


(** When the tool refuses, as PLINK does when no sample remains, the
    failure is a [CalledProcessError] with the tool's status. *)
Example extract_samples_failing_tool :
  (Merge.extract_samples Demo.failing "plink" "b1" "keep.txt" "out" None
     (Demo.world Demo.disjoint_disk)).2
  = Raise
      (CalledProcessError 2
         ["plink"; "--bfile"; "b1"; "--keep"; "keep.txt"; "--make-bed";
          "--out"; "out"]).
Proof. reflexivity. Qed.

(** ** Which computations start processes *)

Lemma silent_ret {A} (a : A) : Spec.silent (ret a).
Proof. intros w w' r H. inversion H. reflexivity. Qed.

Lemma silent_bind {A B} (c : M A) (k : A -> M B) :
  Spec.silent c -> (forall a, Spec.silent (k a)) -> Spec.silent (bind c k).
Proof.
  intros Hc Hk w w' r H. apply bind_cases in H as [(e & H & _) | (a & w1 & H1 & H2)].
  - exact (Hc _ _ _ H).
  - rewrite (Hk _ _ _ _ H2). exact (Hc _ _ _ H1).
Qed.

Lemma silent_for_ {A} (xs : list A) (body : A -> M unit) :
  (forall x, Spec.silent (body x)) -> Spec.silent (for_ xs body).
Proof.
  intros Hb. induction xs as [|x xs IH]; cbn.
  - apply silent_ret.
  - apply silent_bind; [apply Hb | intros _; exact IH].
Qed.

Lemma silent_for_each {A B} (xs : list A) (body : A -> M B) :
  (forall x, Spec.silent (body x)) -> Spec.silent (for_each xs body).
Proof.
  intros Hb. induction xs as [|x xs IH]; cbn.
  - apply silent_ret.
  - apply silent_bind; [apply Hb | intros y].
    apply silent_bind; [exact IH | intros ys; apply silent_ret].
Qed.

Ltac silent_by_cases :=
  intros w w' r H;
  repeat match type of H with
         | context [match ?x with _ => _ end] => destruct x
         end;
  inversion H; reflexivity.

Lemma silent_exists p : Spec.silent (OS.exists_ p).
Proof. intros w w' r H. inversion H. reflexivity. Qed.

Lemma silent_is_file p : Spec.silent (OS.is_file p).
Proof. intros w w' r H. inversion H. reflexivity. Qed.



Lemma silent_st_size p : Spec.silent (OS.st_size p).
Proof. unfold OS.st_size. silent_by_cases. Qed.

Lemma silent_read p : Spec.silent (OS.read p).
Proof. unfold OS.read. silent_by_cases. Qed.

Lemma silent_write p data : Spec.silent (OS.write p data).
Proof. unfold OS.write. silent_by_cases. Qed.

Lemma silent_mkdir p : Spec.silent (OS.mkdir_parents_exist_ok p).
Proof. unfold OS.mkdir_parents_exist_ok. silent_by_cases. Qed.

Lemma silent_iterdir p : Spec.silent (OS.iterdir p).
Proof. unfold OS.iterdir. silent_by_cases. Qed.

Lemma silent_rename_or_copy src dst : Spec.silent (OS.rename_or_copy src dst).
Proof. unfold OS.rename_or_copy. silent_by_cases. Qed.

Lemma silent_shutil_move src dst : Spec.silent (OS.shutil_move src dst).
Proof.
  intros w w' r H. unfold OS.shutil_move in H.
  destruct (FS.is_dir _ _).
  - destruct (bool_decide _); [inversion H; reflexivity |].
    destruct (FS.exists_ _ _); [inversion H; reflexivity |].
    exact (silent_rename_or_copy _ _ _ _ _ H).
  - exact (silent_rename_or_copy _ _ _ _ _ H).
Qed.

Lemma silent_shutil_copy2 src dst : Spec.silent (OS.shutil_copy2 src dst).
Proof.
  intros w w' r H. unfold OS.shutil_copy2 in H.
  destruct (_ && _); [inversion H; reflexivity |].
  revert H. apply silent_bind; [apply silent_read | intros; apply silent_write].
Qed.

Lemma silent_count_lines p : Spec.silent (Merge.count_lines p).
Proof.
  apply silent_bind; [apply silent_read | intros; apply silent_ret].
Qed.

Lemma subprocess_run_started spawn cmd check w w' r :
  OS.subprocess_run spawn cmd check w = (w', r) ->
  started w' = started w ++ [cmd].
Proof.
  unfold OS.subprocess_run. intros H.
  destruct (spawn cmd (disk w)) as [[rc d]|];
    [destruct (check && _) |]; inversion H; reflexivity.
Qed.

Lemma starts_ret {A} (a : A) (Q : A -> Prop) : Q a -> Spec.starts (ret a) [] Q.
Proof.
  intros HQ w w' r H. inversion H; subst. exists [].
  rewrite app_nil_r. auto.
Qed.

Lemma starts_silent {A} (c : M A) : Spec.silent c -> Spec.starts c [] (fun _ => True).
Proof.
  intros Hc w w' r H. exists []. rewrite app_nil_r, (Hc _ _ _ H).
  split; [reflexivity |]. destruct r; [auto | apply prefix_nil].
Qed.

Lemma starts_bind {A B} (c : M A) (k : A -> M B) L1 L2 Q R :
  Spec.starts c L1 Q ->
  (forall a, Q a -> Spec.starts (k a) L2 R) ->
  Spec.starts (bind c k) (L1 ++ L2) R.
Proof.
  intros Hc Hk w w' r H.
  apply bind_cases in H as [(e & H & ->) | (a & w1 & H1 & H2)].
  - destruct (Hc _ _ _ H) as (tr & Htr & Hp). exists tr.
    split; [exact Htr | by apply prefix_app_r].
  - destruct (Hc _ _ _ H1) as (tr1 & Htr1 & -> & HQ).
    destruct (Hk a HQ _ _ _ H2) as (tr2 & Htr2 & Hr).
    exists (L1 ++ tr2). rewrite Htr2, Htr1, app_assoc.
    split; [reflexivity |]. destruct r as [b | e].
    + destruct Hr as [-> HR]. auto.
    + by apply prefix_app.
Qed.

Lemma starts_seq {A B} (c : M A) (k : A -> M B) L1 L2 Q R L :
  Spec.starts c L1 Q ->
  (forall a, Q a -> Spec.starts (k a) L2 R) ->
  L = L1 ++ L2 ->
  Spec.starts (bind c k) L R.
Proof. intros Hc Hk ->. by eapply starts_bind. Qed.

Lemma starts_run spawn cmd check :
  Spec.starts (OS.subprocess_run spawn cmd check) [cmd] (fun _ => True).
Proof.
  intros w w' r H. exists [cmd].
  split; [exact (subprocess_run_started _ _ _ _ _ _ H) |].
  destruct r; auto.
Qed.

(** ** The commands of a merge run *)

Section MergeCommands.

Variable spawn : Spawn.
Variable plink_exec : string.

Lemma starts_extract_samples bfile keep out ex :
  Spec.starts (Merge.extract_samples spawn plink_exec bfile keep out ex)
    [plink_exec :: Merge.extract_args bfile keep out ex] (eq out).
Proof.
  unfold Merge.extract_samples.
  eapply (starts_seq _ _ [_] [] (fun _ => True)); [apply starts_run | | done].
  intros _ _. by apply starts_ret.
Qed.

Lemma starts_extract_batches wd bps keep suffix ex :
  Spec.starts
    (Merge.extract_batches spawn plink_exec wd bps keep suffix ex)
    ((fun bp =>
        plink_exec
          :: Merge.extract_args bp keep (Merge.batch_out wd suffix bp) ex)
     <$> bps)
    (eq (Merge.batch_out wd suffix <$> bps)).
Proof.
  unfold Merge.extract_batches.
  induction bps as [|bp rest IH]; cbn [for_each fmap list_fmap].
  - by apply starts_ret.
  - eapply (starts_seq _ _ [_] _ (eq (Merge.batch_out wd suffix bp)));
      [| | reflexivity].
    + eapply (starts_seq _ _ [_] [] (eq (Merge.batch_out wd suffix bp)));
        [apply starts_extract_samples | | done].
      intros out <-. by apply starts_ret.
    + intros out <-.
      eapply (starts_seq _ _ _ [] _); [exact IH | | by rewrite app_nil_r].
      intros outs <-. by apply starts_ret.
Qed.

End MergeCommands.

(** ** Paths as strings *)

Lemma join_cons_nonempty c ps : c <> "" -> Str.join "/" (c :: ps) <> "".
Proof.
  intros Hc. destruct c as [|a c]; [done |].
  destruct ps; cbn; discriminate.
Qed.

Lemma parse_parts_nonempty s c : c ∈ Path.parts (Path.parse s) -> c <> "".
Proof.
  cbn. rewrite list_elem_of_In, filter_In. intros [_ H] ->. discriminate H.
Qed.

Lemma str_parse_nonempty s : Path.str (Path.parse s) <> "".
Proof.
  unfold Path.str.
  destruct (Path.anchor (Path.parse s)) as [|a an] eqn:Ha;
    [| discriminate].
  pose proof (parse_parts_nonempty s) as Hne.
  destruct (Path.parts (Path.parse s)) as [|c ps]; [discriminate |].
  apply join_cons_nonempty, Hne. left.
Qed.

Lemma extract_args_excluding bp keep out s :
  Merge.extract_args bp keep out (Some (Path.str (Path.parse s)))
  = ["--bfile"; bp; "--keep"; keep; "--make-bed"; "--out"; out;
     "--exclude"; Path.str (Path.parse s)].
Proof.
  unfold Merge.extract_args, Merge.truthy.
  destruct (String.eqb_spec (Path.str (Path.parse s)) "") as [E | _].
  - destruct (str_parse_nonempty _ E).
  - reflexivity.
Qed.

Section MergeStages.

Variable spawn : Spawn.
Variable plink_exec : string.

Lemma starts_second_pass wd bps keep :
  Spec.starts
    (Merge.extract_batches spawn plink_exec wd bps keep "_corrected"
       (Some (Spec.exclusion_file wd)))
    (Spec.second_pass plink_exec wd bps keep)
    (eq (Merge.batch_out wd "_corrected" <$> bps)).
Proof.
  pose proof (starts_extract_batches spawn plink_exec wd bps keep
                "_corrected" (Some (Spec.exclusion_file wd))) as H.
  unfold Spec.second_pass.
  erewrite list_fmap_ext; [exact H |].
  intros i bp _. cbn beta. unfold Spec.exclusion_file, Spec.conflict_list,
    Merge.missnp_of. by rewrite extract_args_excluding.
Qed.

Lemma starts_attempt_merge wd subsets :
  Spec.starts (Merge.attempt_merge spawn plink_exec wd subsets)
    [plink_exec
       :: Merge.merge_args (hd "" subsets)
            (Path.str (Path.join wd "merge_list.txt"))
            (Path.str (Path.join wd "merge_attempt"))]
    (eq (Path.str (Path.join wd "merge_attempt"))).
Proof.
  unfold Merge.attempt_merge.
  eapply (starts_seq _ _ [] [_] (fun _ => True));
    [apply starts_silent, silent_write | | reflexivity].
  intros _ _.
  eapply (starts_seq _ _ [_] [] (fun _ => True));
    [apply starts_run | | reflexivity].
  intros _ _. by apply starts_ret.
Qed.

Lemma starts_correct wd bps keep out report :
  Spec.starts
    (Merge.correct spawn plink_exec wd bps keep out (Spec.conflict_list wd)
       report)
    (Spec.second_pass plink_exec wd bps keep
     ++ [Spec.second_merge plink_exec wd bps out])
    (fun rep => exists n, rep = Merge.set_conflict n report).
Proof.
  unfold Merge.correct.
  eapply (starts_seq _ _ [] _ (fun _ => True));
    [apply starts_silent, silent_count_lines | | reflexivity].
  intros n _.
  eapply (starts_seq _ _ _ [_]); [apply starts_second_pass | | reflexivity].
  intros outs <-.
  eapply (starts_seq _ _ [] [_] (fun _ => True));
    [apply starts_silent, silent_write | | reflexivity].
  intros _ _.
  eapply (starts_seq _ _ [_] [] (fun _ => True));
    [apply starts_run | | reflexivity].
  intros _ _. apply starts_ret. by exists n.
Qed.

Lemma silent_promote fa out : Spec.silent (Merge.promote fa out).
Proof.
  apply silent_for_. intros ext.
  apply silent_bind; [apply silent_exists |].
  intros [|]; [apply silent_shutil_move | apply silent_ret].
Qed.

Lemma silent_has_conflicts p : Spec.silent (Merge.has_conflicts p).
Proof.
  apply silent_bind; [apply silent_exists |].
  intros [|]; [| apply silent_ret].
  apply silent_bind; [apply silent_st_size | intros; apply silent_ret].
Qed.

Lemma starts_finish out (convert : bool) report :
  Spec.starts (Merge.finish spawn plink_exec out convert report)
    (if convert then [Spec.export plink_exec out] else [])
    (fun rep => Spec.same_verdict report rep /\ Merge.output_prefix rep = out).
Proof.
  unfold Merge.finish.
  set (inv := fun rep : Merge.MergeReport =>
                Spec.same_verdict report rep /\ Merge.output_prefix rep = out).
  eapply (starts_seq _ _ [] _ (fun _ => True));
    [apply starts_silent, silent_exists | | reflexivity].
  intros b1 _.
  eapply (starts_seq _ _ [] _ inv); [| | reflexivity].
  { destruct b1; [| by apply starts_ret].
    eapply (starts_seq _ _ [] [] (fun _ => True));
      [apply starts_silent, silent_count_lines | | reflexivity].
    intros n _. by apply starts_ret. }
  intros rep1 Hinv1.
  eapply (starts_seq _ _ [] _ (fun _ => True));
    [apply starts_silent, silent_exists | | reflexivity].
  intros b2 _.
  eapply (starts_seq _ _ [] _ inv); [| | reflexivity].
  { destruct b2; [| by apply starts_ret].
    eapply (starts_seq _ _ [] [] (fun _ => True));
      [apply starts_silent, silent_count_lines | | reflexivity].
    intros n _. apply starts_ret. destruct Hinv1 as [(? & ? & ?) ?].
    by repeat split. }
  intros rep2 Hinv2.
  eapply (starts_seq _ _ _ [] (fun _ => True)); [| | by rewrite app_nil_r].
  { destruct convert; [| by apply starts_ret].
    eapply (starts_seq _ _ [_] [] (fun _ => True));
      [apply starts_run | | reflexivity].
    intros _ _. by apply starts_ret. }
  intros _ _. by apply starts_ret.
Qed.

End MergeStages.

Lemma prefix_optional {A} (tr : list A) (b : bool) (x : A) :
  tr `prefix_of` (if b then [x] else []) -> tr `prefix_of` [x].
Proof.
  destruct b; [done |]. intros H. etrans; [exact H | apply prefix_nil].
Qed.

Section MergeRun.

Variable spawn : Spawn.
Variable plink_exec : string.

Lemma starts_resolve wd bps keep out report w w' r :
  Merge.resolve spawn plink_exec wd bps keep out
    (Path.str (Path.join wd "merge_attempt")) report w = (w', r) ->
  exists tr, started w' = started w ++ tr
    /\ match r with
       | Return rep =>
           (tr = Spec.second_pass plink_exec wd bps keep
                 ++ [Spec.second_merge plink_exec wd bps out]
            /\ exists n, rep = Merge.set_conflict n report)
           \/ (tr = [] /\ rep = report)
       | Raise _ =>
           tr `prefix_of` Spec.second_pass plink_exec wd bps keep
                          ++ [Spec.second_merge plink_exec wd bps out]
       end.
Proof.
  unfold Merge.resolve. fold (Spec.conflict_list wd). intros H.
  apply bind_cases in H as [(e & H & ->) | (b & w1 & H1 & H2)].
  - exists []. rewrite app_nil_r, (silent_has_conflicts _ _ _ _ H).
    split; [reflexivity | apply prefix_nil].
  - rewrite <- (silent_has_conflicts _ _ _ _ H1). destruct b.
    + destruct (starts_correct _ _ _ _ _ _ _ _ _ _ H2) as (tr & Htr & Hr).
      exists tr. split; [exact Htr |]. destruct r; [left |]; exact Hr.
    + exists []. rewrite app_nil_r.
      apply bind_cases in H2 as [(e & H & ->) | ([] & w2 & H2 & H3)].
      * rewrite (silent_promote _ _ _ _ _ H).
        split; [reflexivity | apply prefix_nil].
      * inversion H3; subst. rewrite (silent_promote _ _ _ _ _ H2).
        split; [reflexivity | right; auto].
Qed.

(** The commands that a merge run starts, by outcome. *)
Lemma merge_started bps keep out work_dir (convert : bool) w w' r :
  Merge.merge spawn plink_exec bps keep out work_dir convert w = (w', r) ->
  exists tr, started w' = started w ++ tr
    /\ match r with
       | Return rep =>
           Merge.batch_count rep = length bps
           /\ if Nat.ltb (length bps) 2 then
                tr = Spec.first_pass plink_exec (Path.parse work_dir) bps keep
                /\ Merge.correction_applied rep = false
                /\ Merge.conflict_snp_count rep = 0
              else if Merge.correction_applied rep then
                tr = Spec.first_pass plink_exec (Path.parse work_dir) bps keep
                     ++ [Spec.first_merge plink_exec (Path.parse work_dir) bps]
                     ++ Spec.second_pass plink_exec (Path.parse work_dir) bps keep
                     ++ [Spec.second_merge plink_exec (Path.parse work_dir) bps out]
                     ++ (if convert then [Spec.export plink_exec out] else [])
              else
                tr = Spec.first_pass plink_exec (Path.parse work_dir) bps keep
                     ++ [Spec.first_merge plink_exec (Path.parse work_dir) bps]
                     ++ (if convert then [Spec.export plink_exec out] else [])
                /\ Merge.conflict_snp_count rep = 0
       | Raise _ =>
           tr `prefix_of`
             Spec.corrected_run plink_exec (Path.parse work_dir) bps keep out
           \/ tr `prefix_of`
                Spec.clean_run plink_exec (Path.parse work_dir) bps keep out
       end.
Proof.
  unfold Merge.merge, Spec.corrected_run, Spec.clean_run.
  set (wd := Path.parse work_dir).
  set (X := Spec.first_pass plink_exec wd bps keep).
  set (m1 := Spec.first_merge plink_exec wd bps).
  set (Y := Spec.second_pass plink_exec wd bps keep).
  set (m2 := Spec.second_merge plink_exec wd bps out).
  set (v := Spec.export plink_exec out).
  intros H.
  apply bind_cases in H as [(e & H & ->) | ([] & w1 & H1 & H)].
  { exists []. rewrite app_nil_r, (silent_mkdir _ _ _ _ H).
    split; [reflexivity | left; apply prefix_nil]. }
  rewrite <- (silent_mkdir _ _ _ _ H1).
  apply bind_cases in H as [(e & H & ->) | (subsets & w2 & H2 & H)].
  { destruct (starts_extract_batches _ _ _ _ _ _ _ _ _ _ H) as (tr & Htr & Hp).
    exists tr. split; [exact Htr |]. left. by apply prefix_app_r. }
  destruct (starts_extract_batches _ _ _ _ _ _ _ _ _ _ H2)
    as (tr1 & Htr1 & -> & <-).
  fold X in Htr1. rewrite length_fmap in H.
  destruct (Nat.ltb (length bps) 2) eqn:Hn.
  { exists X. inversion H; subst w' r. split; [exact Htr1 |].
    destruct bps as [|b1 bs]; cbn; auto. }
  apply bind_cases in H as [(e & H & ->) | (fa & w3 & H3 & H)].
  { destruct (starts_attempt_merge _ _ _ _ _ _ _ H) as (tr & Htr & Hp).
    exists (X ++ tr). rewrite Htr, Htr1, app_assoc.
    split; [reflexivity |]. left. apply prefix_app. by apply prefix_app_r. }
  destruct (starts_attempt_merge _ _ _ _ _ _ _ H3) as (tr3 & Htr3 & -> & <-).
  fold m1 in Htr3.
  apply bind_cases in H as [(e & H & ->) | (rep & w4 & H4 & H)].
  { destruct (starts_resolve _ _ _ _ _ _ _ _ H) as (tr & Htr & Hp).
    fold Y m2 in Hp.
    exists (X ++ [m1] ++ tr). rewrite Htr, Htr3, Htr1, <- !app_assoc.
    split; [reflexivity |]. left. do 2 apply prefix_app.
    destruct Hp as [k Hk]. exists (k ++ [v]).
    change (Y ++ [m2; v]) with (Y ++ ([m2] ++ [v])).
    rewrite (app_assoc Y), Hk. by rewrite <- app_assoc. }
  destruct (starts_resolve _ _ _ _ _ _ _ _ H4) as (tr4 & Htr4 & Hrep).
  fold Y m2 in Hrep.
  destruct (starts_finish _ _ _ _ _ _ _ _ H) as (tr5 & Htr5 & Hfin).
  exists (X ++ [m1] ++ tr4 ++ tr5).
  rewrite Htr5, Htr4, Htr3, Htr1, <- !app_assoc.
  split; [reflexivity |].
  destruct r as [final | e].
  - destruct Hfin as (-> & (Hc & Hk & Hb) & _). rewrite Hb.
    destruct Hrep as [(-> & n & ->) | (-> & ->)]; cbn in Hc, Hk |- *;
      rewrite Hc; cbn; rewrite <- ?app_assoc; auto.
  - destruct Hrep as [(-> & _) | (-> & _)].
    + left. do 2 apply prefix_app. rewrite <- app_assoc. apply prefix_app.
      apply (prefix_app [m2] tr5 [v]). by eapply prefix_optional.
    + right. apply prefix_app. apply (prefix_app [m1] tr5 [v]).
      by eapply prefix_optional.
Qed.

End MergeRun.

(** ** Counting the commands of a run *)

Lemma filter_fmap_none {A B} (P : B -> bool) (f : A -> B) (l : list A) :
  (forall x, P (f x) = false) -> List.filter P (f <$> l) = [].
Proof.
  intros H. induction l as [|x l IH]; cbn; [done |]. by rewrite H.
Qed.

Lemma filter_fmap_all {A B} (P : B -> bool) (f : A -> B) (l : list A) :
  (forall x, P (f x) = true) -> List.filter P (f <$> l) = f <$> l.
Proof.
  intros H. induction l as [|x l IH]; cbn; [done |]. by rewrite H, IH.
Qed.

Lemma filter_prefix {A} (P : A -> bool) (l1 l2 : list A) :
  l1 `prefix_of` l2 -> List.filter P l1 `prefix_of` List.filter P l2.
Proof. intros [k ->]. rewrite List.filter_app. by apply prefix_app_r. Qed.

Lemma is_merge_extract exec bp keep out ex :
  Spec.is_merge (exec :: Merge.extract_args bp keep out ex) = false.
Proof. unfold Merge.extract_args. by destruct (Merge.truthy ex). Qed.

Section RunCounts.

Variable exec : string.
Variable wd : Path.t.
Variable bps : list string.
Variable keep out : string.

Lemma reextract_corrected_run :
  List.filter Spec.is_reextract (Spec.corrected_run exec wd bps keep out)
  = Spec.second_pass exec wd bps keep.
Proof.
  unfold Spec.corrected_run. rewrite !List.filter_app.
  unfold Spec.first_pass. rewrite filter_fmap_none by done.
  unfold Spec.second_pass at 1. rewrite filter_fmap_all by done.
  cbn. by rewrite app_nil_r.
Qed.

Lemma reextract_clean_run :
  List.filter Spec.is_reextract (Spec.clean_run exec wd bps keep out) = [].
Proof.
  unfold Spec.clean_run. rewrite !List.filter_app.
  unfold Spec.first_pass. by rewrite filter_fmap_none.
Qed.

Lemma merge_corrected_run :
  List.filter Spec.is_merge (Spec.corrected_run exec wd bps keep out)
  = [Spec.first_merge exec wd bps; Spec.second_merge exec wd bps out].
Proof.
  unfold Spec.corrected_run. rewrite !List.filter_app.
  unfold Spec.first_pass, Spec.second_pass.
  rewrite !filter_fmap_none; [done | done |].
  intros bp. apply is_merge_extract.
Qed.

Lemma merge_clean_run :
  List.filter Spec.is_merge (Spec.clean_run exec wd bps keep out)
  = [Spec.first_merge exec wd bps].
Proof.
  unfold Spec.clean_run. rewrite !List.filter_app.
  unfold Spec.first_pass.
  rewrite filter_fmap_none; [done |].
  intros bp. apply is_merge_extract.
Qed.

End RunCounts.

Section Correction.

Variable spawn : Spawn.
Variable plink_exec : string.

(** Every run starts the first commands of one of the two sequences. *)
Lemma merge_run_shape bps keep out work_dir convert w :
  exists tr,
    started (Merge.merge spawn plink_exec bps keep out work_dir convert w).1
    = started w ++ tr
    /\ (tr `prefix_of`
          Spec.corrected_run plink_exec (Path.parse work_dir) bps keep out
        \/ tr `prefix_of`
             Spec.clean_run plink_exec (Path.parse work_dir) bps keep out).
Proof.
  destruct (Merge.merge spawn plink_exec bps keep out work_dir convert w)
    as [w' r] eqn:H.
  destruct (merge_started _ _ _ _ _ _ _ _ _ _ H) as (tr & Htr & Hr).
  exists tr. split; [exact Htr |].
  destruct r as [rep | e]; [| exact Hr].
  destruct Hr as [_ Hr]. unfold Spec.corrected_run, Spec.clean_run.
  destruct (Nat.ltb (length bps) 2).
  - destruct Hr as (-> & _). left. by apply prefix_app_r.
  - destruct (Merge.correction_applied rep).
    + subst tr. left. do 3 apply prefix_app.
      apply (prefix_app [_] _ [_]). by destruct convert; [| apply prefix_nil].
    + destruct Hr as [-> _]. right. apply prefix_app.
      apply (prefix_app [_] _ [_]). by destruct convert; [| apply prefix_nil].
Qed.

(** C3: whatever the tool does, a run starts at most two merges (the
    first attempt and one more) and at most one extraction with exclusions
    per batch; its commands are the first ones of a run with a single
    correction round or of a run without one. *)
Theorem merge_at_most_one_correction bps keep out work_dir convert w :
  exists tr,
    started (Merge.merge spawn plink_exec bps keep out work_dir convert w).1
    = started w ++ tr
    /\ (tr `prefix_of`
          Spec.corrected_run plink_exec (Path.parse work_dir) bps keep out
        \/ tr `prefix_of`
             Spec.clean_run plink_exec (Path.parse work_dir) bps keep out)
    /\ length (List.filter Spec.is_merge tr) <= 2
    /\ length (List.filter Spec.is_reextract tr) <= length bps.
Proof.
  destruct (merge_run_shape bps keep out work_dir convert w)
    as (tr & Htr & Hp).
  exists tr. split; [exact Htr |]. split; [exact Hp |].
  split.
  - destruct Hp as [Hp | Hp];
      apply (filter_prefix Spec.is_merge), prefix_length in Hp.
    + by rewrite merge_corrected_run in Hp.
    + rewrite merge_clean_run in Hp. cbn in Hp. lia.
  - destruct Hp as [Hp | Hp];
      apply (filter_prefix Spec.is_reextract), prefix_length in Hp.
    + rewrite reextract_corrected_run in Hp. unfold Spec.second_pass in Hp.
      by rewrite length_fmap in Hp.
    + rewrite reextract_clean_run in Hp. cbn in Hp. lia.
Qed.

End Correction.

(** ** Writing a file and finding it *)

Lemma find_put ps new n n' :
  FS.put ps new n = inr n' -> FS.find ps n' = Some new.
Proof.
  revert n n'. induction ps as [|c ps IH]; intros n n'.
  - cbn. by intros [= ->].
  - cbn [FS.put]. destruct n as [data | es]; [discriminate |].
    destruct ps as [|c2 ps].
    + intros [= <-]. cbn. by rewrite lookup_insert_eq.
    + destruct (es !! c) as [m |]; [| discriminate].
      destruct (FS.put (c2 :: ps) new m) as [b | m'] eqn:E; [discriminate |].
      intros [= <-]. cbn [FS.find]. rewrite lookup_insert_eq.
      exact (IH _ _ E).
Qed.

Lemma write_then_lookup p data w w' :
  OS.write p data w = (w', Return tt) ->
  FS.lookup (disk w') p = Some (FS.File data).
Proof.
  unfold OS.write. intros H.
  assert (Hput : exists n,
             FS.put (FS.locate (disk w) p) (FS.File data) (FS.root (disk w))
             = inr n /\ w' = set_root n w).
  { destruct (FS.lookup (disk w) p) as [[d | es] |];
      try discriminate H;
      destruct (FS.put _ _ _) as [b | n]; try discriminate H;
      exists n; split; [reflexivity | by inversion H | reflexivity | by inversion H]. }
  destruct Hput as (n & Hput & ->).
  unfold FS.lookup. cbn. exact (find_put _ _ _ _ Hput).
Qed.

(** ** The report after a conflict *)

Lemma has_conflicts_nonempty_file p data w :
  FS.lookup (disk w) p = Some (FS.File data) -> data <> "" ->
  Merge.has_conflicts p w = (w, Return true).
Proof.
  intros Hf Hne. unfold Merge.has_conflicts, bind, OS.exists_, FS.exists_,
    OS.st_size. rewrite !Hf.
  destruct data; [done | reflexivity].
Qed.

Lemma count_lines_file p data w :
  FS.lookup (disk w) p = Some (FS.File data) ->
  Merge.count_lines p w = (w, Return (length (Str.lines data))).
Proof.
  intros Hf. unfold Merge.count_lines, bind, OS.read. by rewrite Hf.
Qed.

(** A call whose status is checked returns only for a tool that was
    started and exited with status 0. *)
Lemma subprocess_run_checked spawn cmd w w' rc :
  OS.subprocess_run spawn cmd true w = (w', Return rc) ->
  exists d, spawn cmd (disk w) = Some (0%Z, d).
Proof.
  unfold OS.subprocess_run.
  destruct (spawn cmd (disk w)) as [[rc' d] |]; [| discriminate].
  cbn [andb]. destruct (rc' =? 0)%Z eqn:E; cbn [negb]; [| discriminate].
  intros _. apply Z.eqb_eq in E as ->. by exists d.
Qed.

Section ConflictRun.

Variable spawn : Spawn.
Variable plink_exec : string.

(** What a run does after a first merge attempt that leaves a conflict
    list, when it returns. *)
Lemma conflict_run bps keep out work_dir convert w w1 fa data w' rep :
  2 <= length bps ->
  Merge.first_attempt spawn plink_exec bps keep work_dir w
  = (w1, Return fa) ->
  FS.lookup (disk w1) (Merge.missnp_of fa) = Some (FS.File data) ->
  data <> "" ->
  Merge.merge spawn plink_exec bps keep out work_dir convert w
  = (w', Return rep) ->
  Merge.correction_applied rep = true
  /\ Merge.conflict_snp_count rep = length (Str.lines data)
  /\ Merge.output_prefix rep = out
  /\ started w'
     = started w1
       ++ Spec.second_pass plink_exec (Path.parse work_dir) bps keep
       ++ [Spec.second_merge plink_exec (Path.parse work_dir) bps out]
       ++ (if convert then [Spec.export plink_exec out] else [])
  /\ exists w2 d,
       started w2
       = started w1
         ++ Spec.second_pass plink_exec (Path.parse work_dir) bps keep
       /\ FS.lookup (disk w2)
            (Path.join (Path.parse work_dir) "merge_list_corrected.txt")
          = Some (FS.File
                    (Str.join Merge.newline
                       (tail (Merge.batch_out (Path.parse work_dir)
                                "_corrected" <$> bps))
                     ++ Merge.newline))
       /\ spawn (Spec.second_merge plink_exec (Path.parse work_dir) bps out)
            (disk w2)
          = Some (0%Z, d).
Proof.
  intros Hn Hfirst Hfile Hne Hrun.
  unfold Merge.first_attempt in Hfirst. unfold Merge.merge in Hrun.
  set (wd := Path.parse work_dir) in *.
  apply bind_returns in Hfirst as ([] & wa & Hmk & Hfirst).
  apply bind_returns in Hfirst as (subsets & wb & Hex & Hat).
  rewrite (bind_of_return _ _ _ _ _ Hmk) in Hrun.
  rewrite (bind_of_return _ _ _ _ _ Hex) in Hrun.
  destruct (starts_extract_batches _ _ _ _ _ _ _ _ _ _ Hex)
    as (_ & _ & _ & <-).
  rewrite length_fmap in Hrun.
  destruct (Nat.ltb_spec (length bps) 2) as [Hlt | _]; [lia |].
  rewrite (bind_of_return _ _ _ _ _ Hat) in Hrun.
  destruct (starts_attempt_merge _ _ _ _ _ _ _ Hat) as (_ & _ & _ & <-).
  apply bind_returns in Hrun as (rep4 & w4 & Hres & Hfin).
  unfold Merge.resolve in Hres.
  rewrite (bind_of_return _ _ _ _ _
             (has_conflicts_nonempty_file _ _ _ Hfile Hne)) in Hres.
  fold (Spec.conflict_list wd) in Hres.
  destruct (starts_correct _ _ _ _ _ _ _ _ _ _ Hres) as (tr4 & Htr4 & -> & _).
  unfold Merge.correct in Hres.
  rewrite (bind_of_return _ _ _ _ _ (count_lines_file _ _ _ Hfile)) in Hres.
  apply bind_returns in Hres as (outs & w5 & Hre & Hres).
  apply bind_returns in Hres as ([] & w6 & Hwr & Hres).
  apply bind_returns in Hres as (rc & w7 & Hm2 & Hres).
  inversion Hres; subst rep4.
  destruct (starts_second_pass _ _ _ _ _ _ _ _ Hre) as (tr5' & Htr5' & -> & <-).
  destruct (starts_finish _ _ _ _ _ _ _ _ Hfin)
    as (tr5 & Htr5 & -> & (Hc & Hk & _) & Ho).
  rewrite Hc, Hk, Ho, Htr5, Htr4, <- !app_assoc.
  repeat (split; [auto; fail |]).
  destruct (subprocess_run_checked _ _ _ _ _ Hm2) as [d Hd].
  exists w6, d. split; [| split; [| exact Hd]].
  - by rewrite (silent_write _ _ _ _ _ Hwr).
  - exact (write_then_lookup _ _ _ _ Hwr).
Qed.

(** C6: the extractions with exclusions of a run are, in batch order, the
    first ones of the list that gives every batch the same exclusion
    file; when the run returns after a correction they are the whole
    list, one for each batch; and a run that returns after a first merge
    attempt that left a conflict list has made the correction: it has
    re-extracted every batch with that list. *)
Theorem correction_excludes_alike bps keep out work_dir convert w w' r :
  Merge.merge spawn plink_exec bps keep out work_dir convert w = (w', r) ->
  exists tr,
    started w' = started w ++ tr
    /\ List.filter Spec.is_reextract tr
       `prefix_of`
         ((fun bp =>
             [plink_exec; "--bfile"; bp; "--keep"; keep; "--make-bed";
              "--out"; Merge.batch_out (Path.parse work_dir) "_corrected" bp;
              "--exclude"; Spec.exclusion_file (Path.parse work_dir)])
          <$> bps)
    /\ (forall rep,
          r = Return rep -> Merge.correction_applied rep = true ->
          List.filter Spec.is_reextract tr
          = (fun bp =>
               [plink_exec; "--bfile"; bp; "--keep"; keep; "--make-bed";
                "--out"; Merge.batch_out (Path.parse work_dir) "_corrected" bp;
                "--exclude"; Spec.exclusion_file (Path.parse work_dir)])
            <$> bps)
    /\ forall w1 fa data rep,
         2 <= length bps ->
         Merge.first_attempt spawn plink_exec bps keep work_dir w
         = (w1, Return fa) ->
         FS.lookup (disk w1) (Merge.missnp_of fa) = Some (FS.File data) ->
         data <> "" ->
         r = Return rep ->
         Merge.correction_applied rep = true
         /\ Merge.missnp_of fa = Spec.conflict_list (Path.parse work_dir)
         /\ List.filter Spec.is_reextract tr
            = (fun bp =>
                 [plink_exec; "--bfile"; bp; "--keep"; keep; "--make-bed";
                  "--out";
                  Merge.batch_out (Path.parse work_dir) "_corrected" bp;
                  "--exclude"; Spec.exclusion_file (Path.parse work_dir)])
              <$> bps.
Proof.
  intros H.
  fold (Spec.second_pass plink_exec (Path.parse work_dir) bps keep).
  destruct (merge_run_shape spawn plink_exec bps keep out work_dir convert w)
    as (tr & Htr & Hp).
  rewrite H in Htr. cbn in Htr. exists tr. split; [exact Htr |].
  assert (Hall : forall rep,
             r = Return rep -> Merge.correction_applied rep = true ->
             List.filter Spec.is_reextract tr
             = Spec.second_pass plink_exec (Path.parse work_dir) bps keep).
  { intros rep -> Hc.
    destruct (merge_started _ _ _ _ _ _ _ _ _ _ H) as (tr' & Htr' & _ & Hr).
    rewrite Htr in Htr'. apply app_inv_head in Htr'. subst tr'.
    rewrite Hc in Hr. destruct (Nat.ltb (length bps) 2).
    + destruct Hr as (_ & Hr & _). discriminate Hr.
    + subst tr. rewrite !List.filter_app.
      unfold Spec.first_pass. rewrite filter_fmap_none by done.
      unfold Spec.second_pass at 1. rewrite filter_fmap_all by done.
      destruct convert; cbn; by rewrite app_nil_r. }
  split; [| split; [exact Hall |]].
  - destruct Hp as [Hp | Hp]; apply (filter_prefix Spec.is_reextract) in Hp.
    + by rewrite reextract_corrected_run in Hp.
    + rewrite reextract_clean_run in Hp. etrans; [exact Hp | apply prefix_nil].
  - intros w1 fa data rep Hn Hfirst Hfile Hne ->.
    destruct (conflict_run _ _ _ _ _ _ _ _ _ _ _ Hn Hfirst Hfile Hne H)
      as (Hc & _).
    split; [exact Hc |]. split; [| by eapply Hall].
    unfold Merge.first_attempt in Hfirst.
    apply bind_returns in Hfirst as (u & wa & _ & Hfirst).
    apply bind_returns in Hfirst as (subsets & wb & _ & Hat).
    by destruct (starts_attempt_merge _ _ _ _ _ _ _ Hat) as (_ & _ & _ & <-).
Qed.

End ConflictRun.


(** Conflicts reported by the second merge are not acted upon: the run
    returns after two merges and one round of extractions with
    exclusions. *)
Example second_conflicts_not_retried :
  exists w' rep,
    Merge.merge (Demo.stubborn Demo.twice_rs1) "plink" ["data/b1"; "data/b2"]
      "keep.txt" "work/final" "work" false (Demo.world Demo.empty_disk)
    = (w', Return rep)
    /\ FS.lookup (disk w') (Path.parse "work/final-merge.missnp")
       = Some (FS.File Demo.twice_rs1)
    /\ length (List.filter Spec.is_merge (started w')) = 2
    /\ length (List.filter Spec.is_reextract (started w')) = 2
    /\ length (started w') = 6.
Proof.
  eexists _, _. split; [vm_compute; reflexivity |].
  repeat split; vm_compute; reflexivity.
Qed.

Lemma correction_excludes_alike_witness :
  exists tr,
    started
      (Merge.merge (Demo.conflicting Demo.twice_rs1) "plink"
         ["data/b1"; "data/b2"] "keep.txt" "out/final" "work" true
         (Demo.world Demo.empty_disk)).1
    = started (Demo.world Demo.empty_disk) ++ tr
    /\ List.filter Spec.is_reextract tr
       `prefix_of`
         ((fun bp =>
             ["plink"; "--bfile"; bp; "--keep"; "keep.txt"; "--make-bed";
              "--out"; Merge.batch_out (Path.parse "work") "_corrected" bp;
              "--exclude"; Spec.exclusion_file (Path.parse "work")])
          <$> ["data/b1"; "data/b2"])
    /\ (forall rep,
          (Merge.merge (Demo.conflicting Demo.twice_rs1) "plink"
             ["data/b1"; "data/b2"] "keep.txt" "out/final" "work" true
             (Demo.world Demo.empty_disk)).2 = Return rep ->
          Merge.correction_applied rep = true ->
          List.filter Spec.is_reextract tr
          = (fun bp =>
               ["plink"; "--bfile"; bp; "--keep"; "keep.txt"; "--make-bed";
                "--out"; Merge.batch_out (Path.parse "work") "_corrected" bp;
                "--exclude"; Spec.exclusion_file (Path.parse "work")])
            <$> ["data/b1"; "data/b2"])
    /\ forall w1 fa data rep,
         2 <= length ["data/b1"; "data/b2"] ->
         Merge.first_attempt (Demo.conflicting Demo.twice_rs1) "plink"
           ["data/b1"; "data/b2"] "keep.txt" "work"
           (Demo.world Demo.empty_disk)
         = (w1, Return fa) ->
         FS.lookup (disk w1) (Merge.missnp_of fa) = Some (FS.File data) ->
         data <> "" ->
         (Merge.merge (Demo.conflicting Demo.twice_rs1) "plink"
            ["data/b1"; "data/b2"] "keep.txt" "out/final" "work" true
            (Demo.world Demo.empty_disk)).2 = Return rep ->
         Merge.correction_applied rep = true
         /\ Merge.missnp_of fa = Spec.conflict_list (Path.parse "work")
         /\ List.filter Spec.is_reextract tr
            = (fun bp =>
                 ["plink"; "--bfile"; bp; "--keep"; "keep.txt"; "--make-bed";
                  "--out"; Merge.batch_out (Path.parse "work") "_corrected" bp;
                  "--exclude"; Spec.exclusion_file (Path.parse "work")])
              <$> ["data/b1"; "data/b2"].
Proof.
  apply (correction_excludes_alike (Demo.conflicting Demo.twice_rs1) "plink"
           ["data/b1"; "data/b2"] "keep.txt" "out/final" "work" true
           (Demo.world Demo.empty_disk)).
  vm_compute. reflexivity.
Defined.

(** The sample run finds the conflict list after its first attempt, so
    the last clause applies to it: both batches are extracted again. *)
Example sample_run_corrects_every_batch :
  exists w1,
    Merge.first_attempt (Demo.conflicting Demo.twice_rs1) "plink"
      ["data/b1"; "data/b2"] "keep.txt" "work" (Demo.world Demo.empty_disk)
    = (w1, Return "work/merge_attempt")
    /\ FS.lookup (disk w1) (Merge.missnp_of "work/merge_attempt")
       = Some (FS.File Demo.twice_rs1)
    /\ List.filter Spec.is_reextract
         (started
            (Merge.merge (Demo.conflicting Demo.twice_rs1) "plink"
               ["data/b1"; "data/b2"] "keep.txt" "out/final" "work" true
               (Demo.world Demo.empty_disk)).1)
       = [["plink"; "--bfile"; "data/b1"; "--keep"; "keep.txt"; "--make-bed";
           "--out"; "work/b1_corrected"; "--exclude";
           "work/merge_attempt-merge.missnp"];
          ["plink"; "--bfile"; "data/b2"; "--keep"; "keep.txt"; "--make-bed";
           "--out"; "work/b2_corrected"; "--exclude";
           "work/merge_attempt-merge.missnp"]].
Proof.
  eexists. split; [vm_compute; reflexivity |].
  split; vm_compute; reflexivity.
Qed.

Section ConflictReport.

Variable spawn : Spawn.
Variable plink_exec : string.

(** C1, as the code has it: when the first merge attempt leaves a
    conflict list that is not empty, a run that returns reports the
    correction and counts the LINES of that list, repeated ones
    included; after the first attempt it starts the extractions with
    that list as exclusion file, then the merge into the final prefix
    and, if asked, the export.  The second merge takes the first
    re-extracted subset as its base and is started, and exits with
    status 0, on a disk where the corrected merge list names the other
    re-extracted subsets, one per line. *)
Theorem merge_conflict_report bps keep out work_dir convert
    w w1 fa data w' rep :
  2 <= length bps ->
  Merge.first_attempt spawn plink_exec bps keep work_dir w
  = (w1, Return fa) ->
  FS.lookup (disk w1) (Merge.missnp_of fa) = Some (FS.File data) ->
  data <> "" ->
  Merge.merge spawn plink_exec bps keep out work_dir convert w
  = (w', Return rep) ->
  Merge.correction_applied rep = true
  /\ Merge.conflict_snp_count rep = length (Str.lines data)
  /\ Merge.output_prefix rep = out
  /\ started w'
     = started w1
       ++ Spec.second_pass plink_exec (Path.parse work_dir) bps keep
       ++ [Spec.second_merge plink_exec (Path.parse work_dir) bps out]
       ++ (if convert then [Spec.export plink_exec out] else [])
  /\ Spec.second_merge plink_exec (Path.parse work_dir) bps out
     = [plink_exec; "--bfile";
        hd "" (Merge.batch_out (Path.parse work_dir) "_corrected" <$> bps);
        "--merge-list";
        Path.str (Path.join (Path.parse work_dir) "merge_list_corrected.txt");
        "--make-bed"; "--out"; out]
  /\ exists w2 d,
       started w2
       = started w1
         ++ Spec.second_pass plink_exec (Path.parse work_dir) bps keep
       /\ FS.lookup (disk w2)
            (Path.join (Path.parse work_dir) "merge_list_corrected.txt")
          = Some (FS.File
                    (Str.join Merge.newline
                       (tail (Merge.batch_out (Path.parse work_dir)
                                "_corrected" <$> bps))
                     ++ Merge.newline))
       /\ spawn (Spec.second_merge plink_exec (Path.parse work_dir) bps out)
            (disk w2)
          = Some (0%Z, d).
Proof.
  intros Hn Hfirst Hfile Hne Hrun.
  destruct (conflict_run spawn plink_exec _ _ _ _ _ _ _ _ _ _ _
              Hn Hfirst Hfile Hne Hrun) as (Hc & Hk & Ho & Hst & Hlist).
  repeat (split; [done |]). exact Hlist.
Qed.

End ConflictReport.

Lemma merge_conflict_report_witness :
  Merge.correction_applied
    {| Merge.batch_count := 2; Merge.conflict_snp_count := 2;
       Merge.final_sample_count := 0; Merge.final_variant_count := 0;
       Merge.correction_applied := true; Merge.output_prefix := "out/final" |}
  = true
  /\ Merge.conflict_snp_count
       {| Merge.batch_count := 2; Merge.conflict_snp_count := 2;
          Merge.final_sample_count := 0; Merge.final_variant_count := 0;
          Merge.correction_applied := true; Merge.output_prefix := "out/final" |}
     = length (Str.lines Demo.twice_rs1)
  /\ Merge.output_prefix
       {| Merge.batch_count := 2; Merge.conflict_snp_count := 2;
          Merge.final_sample_count := 0; Merge.final_variant_count := 0;
          Merge.correction_applied := true; Merge.output_prefix := "out/final" |}
     = "out/final"
  /\ started
       (Merge.merge (Demo.conflicting Demo.twice_rs1) "plink"
          ["data/b1"; "data/b2"] "keep.txt" "out/final" "work" true
          (Demo.world Demo.empty_disk)).1
     = started
         (Merge.first_attempt (Demo.conflicting Demo.twice_rs1) "plink"
            ["data/b1"; "data/b2"] "keep.txt" "work"
            (Demo.world Demo.empty_disk)).1
       ++ Spec.second_pass "plink" (Path.parse "work") ["data/b1"; "data/b2"]
            "keep.txt"
       ++ [Spec.second_merge "plink" (Path.parse "work")
             ["data/b1"; "data/b2"] "out/final"]
       ++ [Spec.export "plink" "out/final"]
  /\ Spec.second_merge "plink" (Path.parse "work") ["data/b1"; "data/b2"]
       "out/final"
     = ["plink"; "--bfile";
        hd "" (Merge.batch_out (Path.parse "work") "_corrected"
               <$> ["data/b1"; "data/b2"]);
        "--merge-list";
        Path.str (Path.join (Path.parse "work") "merge_list_corrected.txt");
        "--make-bed"; "--out"; "out/final"]
  /\ exists w2 d,
       started w2
       = started
           (Merge.first_attempt (Demo.conflicting Demo.twice_rs1) "plink"
              ["data/b1"; "data/b2"] "keep.txt" "work"
              (Demo.world Demo.empty_disk)).1
         ++ Spec.second_pass "plink" (Path.parse "work")
              ["data/b1"; "data/b2"] "keep.txt"
       /\ FS.lookup (disk w2)
            (Path.join (Path.parse "work") "merge_list_corrected.txt")
          = Some (FS.File
                    (Str.join Merge.newline
                       (tail (Merge.batch_out (Path.parse "work") "_corrected"
                              <$> ["data/b1"; "data/b2"]))
                     ++ Merge.newline))
       /\ Demo.conflicting Demo.twice_rs1
            (Spec.second_merge "plink" (Path.parse "work")
               ["data/b1"; "data/b2"] "out/final")
            (disk w2)
          = Some (0%Z, d).
Proof.
  apply (merge_conflict_report (Demo.conflicting Demo.twice_rs1) "plink"
           ["data/b1"; "data/b2"] "keep.txt" "out/final" "work" true
           (Demo.world Demo.empty_disk) _ "work/merge_attempt" Demo.twice_rs1).
  - cbn. lia.
  - vm_compute. reflexivity.
  - vm_compute. reflexivity.
  - discriminate.
  - vm_compute. reflexivity.
Defined.

(** C1 as stated fails: the conflict list names the marker [rs1] twice;
    the report counts two conflicts, the list holds one distinct marker. *)
Lemma merge_counts_repeated_markers :
  exists w1 w' rep,
    Merge.first_attempt (Demo.conflicting Demo.twice_rs1) "plink"
      ["data/b1"; "data/b2"] "keep.txt" "work" (Demo.world Demo.empty_disk)
    = (w1, Return "work/merge_attempt")
    /\ FS.lookup (disk w1) (Merge.missnp_of "work/merge_attempt")
       = Some (FS.File Demo.twice_rs1)
    /\ Merge.merge (Demo.conflicting Demo.twice_rs1) "plink"
         ["data/b1"; "data/b2"] "keep.txt" "out/final" "work" true
         (Demo.world Demo.empty_disk)
       = (w', Return rep)
    /\ Spec.distinct_markers Demo.twice_rs1 = ["rs1"]
    /\ Merge.conflict_snp_count rep = 2
    /\ Merge.conflict_snp_count rep
       <> length (Spec.distinct_markers Demo.twice_rs1).
Proof.
  eexists _, _, _.
  split; [vm_compute; reflexivity |].
  split; [vm_compute; reflexivity |].
  split; [vm_compute; reflexivity |].
  split; [vm_compute; reflexivity |].
  split; [reflexivity |].
  vm_compute. discriminate.
Qed.

(** Whether the markers of the conflict list are absent from the final
    output is up to the tool: the code hands it the list and reads back
    what it wrote. *)
Example exclusion_is_left_to_the_tool :
  exists w' rep,
    Merge.merge (Demo.careless Demo.twice_rs1) "plink" ["data/b1"; "data/b2"]
      "keep.txt" "work/final" "work" true (Demo.world Demo.empty_disk)
    = (w', Return rep)
    /\ Merge.correction_applied rep = true
    /\ Merge.final_variant_count rep = 1
    /\ Spec.bim_markers (Demo.read_file (disk w') "work/final.bim") = ["rs1"]
    /\ Spec.marker_ids Demo.twice_rs1 = ["rs1"; "rs1"].
Proof.
  eexists _, _. split; [vm_compute; reflexivity |].
  repeat split; vm_compute; reflexivity.
Qed.

(** ** Components without a slash *)

Lemma contains_slash_cons a s :
  Str.contains "/" (String a s) = Ascii.eqb a Str.slash || Str.contains "/" s.
Proof. cbn. by rewrite andb_true_r. Qed.

Lemma append_cons a s t : (String a s ++ t)%string = String a (s ++ t).
Proof. reflexivity. Qed.

Lemma append_empty t : ("" ++ t)%string = t.
Proof. reflexivity. Qed.

Lemma contains_slash_app s t :
  Str.contains "/" (s ++ t) = Str.contains "/" s || Str.contains "/" t.
Proof.
  induction s as [|a s IH].
  - rewrite append_empty. by destruct t.
  - rewrite append_cons, !contains_slash_cons, IH. by rewrite orb_assoc.
Qed.

Lemma split_no_slash s : Str.contains "/" s = false -> Str.split Str.slash s = [s].
Proof.
  induction s as [|a s IH]; [done |].
  rewrite contains_slash_cons. intros [Ha Hs]%orb_false_elim.
  cbn. rewrite Ha, (IH Hs). done.
Qed.

Lemma startswith_cons a b p s :
  Str.startswith (String a p) (String b s)
  = Ascii.eqb a b && Str.startswith p s.
Proof. reflexivity. Qed.

Lemma startswith_slash_no_slash s :
  Str.contains "/" s = false -> Str.startswith "/" s = false.
Proof.
  destruct s as [|a s]; [done |].
  rewrite contains_slash_cons. intros [Ha _]%orb_false_elim.
  rewrite startswith_cons.
  destruct (Ascii.eqb_spec "/" a) as [<- | _]; [discriminate Ha | done].
Qed.

Lemma startswith_two_slashes s :
  Str.startswith "/" s = false -> Str.startswith "//" s = false.
Proof.
  destruct s as [|a s]; [done |]. rewrite !startswith_cons.
  by destruct (Ascii.eqb "/" a).
Qed.

Lemma parse_component c :
  Str.contains "/" c = false -> Path.keep_part c = true ->
  Path.parse c = {| Path.anchor := ""; Path.parts := [c] |}.
Proof.
  intros Hs Hk. unfold Path.parse. rewrite (split_no_slash _ Hs).
  cbn [List.filter]. rewrite Hk.
  pose proof (startswith_slash_no_slash _ Hs) as H1.
  by rewrite (startswith_two_slashes _ H1), H1.
Qed.

Lemma join_component p c :
  Str.contains "/" c = false -> Path.keep_part c = true ->
  Path.join p c = Path.child p c.
Proof.
  intros Hs Hk. unfold Path.join. by rewrite (parse_component _ Hs Hk).
Qed.

(** ** The date stamp *)

Lemma digit_no_slash n : Ascii.eqb (Str.digit n) Str.slash = false.
Proof.
  unfold Str.digit. pose proof (Nat.mod_upper_bound n 10) as H.
  destruct (n mod 10) as [|[|[|[|[|[|[|[|[|[|k]]]]]]]]]]; try reflexivity. lia.
Qed.

Lemma digits_no_slash w n : Str.contains "/" (Str.digits w n) = false.
Proof.
  revert n. induction w as [|w IH]; intros n; [done |].
  cbn [Str.digits]. rewrite contains_slash_app, IH, contains_slash_cons.
  by rewrite digit_no_slash.
Qed.

Lemma length_append s t :
  String.length (s ++ t) = String.length s + String.length t.
Proof.
  induction s as [|a s IH]; [done |]. rewrite append_cons. cbn. by rewrite IH.
Qed.

Lemma digits_length w n : String.length (Str.digits w n) = w.
Proof.
  revert n. induction w as [|w IH]; intros n; [done |].
  cbn [Str.digits]. rewrite length_append, IH. cbn. lia.
Qed.

Lemma strftime_Ymd_length d : String.length (Transfer.strftime_Ymd d) = 8.
Proof.
  unfold Transfer.strftime_Ymd. by rewrite !length_append, !digits_length.
Qed.

Lemma strftime_Ymd_no_slash d :
  Str.contains "/" (Transfer.strftime_Ymd d) = false.
Proof.
  unfold Transfer.strftime_Ymd.
  by rewrite !contains_slash_app, !digits_no_slash.
Qed.

Lemma delivery_name_component project_id stamp :
  Str.contains "/" project_id = false -> Str.contains "/" stamp = false ->
  Str.contains "/" (project_id ++ "_Delivery_" ++ stamp) = false
  /\ Path.keep_part (project_id ++ "_Delivery_" ++ stamp) = true.
Proof.
  intros HP Hs. split.
  - rewrite !contains_slash_app, HP, Hs. reflexivity.
  - set (c := (project_id ++ "_Delivery_" ++ stamp)%string).
    assert (Hlen : 10 <= String.length c).
    { subst c. rewrite !length_append. cbn. lia. }
    unfold Path.keep_part.
    destruct (String.eqb_spec c "") as [E | _];
      [rewrite E in Hlen; cbn in Hlen; lia |].
    destruct (String.eqb_spec c ".") as [E | _];
      [rewrite E in Hlen; cbn in Hlen; lia |].
    reflexivity.
Qed.

(** ** The destination of a transfer *)

Section Destination.

Variable spawn : Spawn.

Lemma silent_regular_files p : Spec.silent (Transfer.regular_files p).
Proof.
  apply silent_bind; [apply silent_iterdir |].
  intros entries w w' r H. inversion H. reflexivity.
Qed.

Lemma silent_copy src dest : Spec.silent (Transfer._copy src dest).
Proof.
  apply silent_bind; [apply silent_iterdir | intros entries].
  apply silent_for_. intros fp.
  apply silent_bind; [apply silent_is_file |].
  intros [|]; [apply silent_shutil_copy2 | apply silent_ret].
Qed.

Lemma silent_verify src dest method : Spec.silent (Transfer.verify src dest method).
Proof.
  apply silent_bind; [apply silent_regular_files | intros src_files].
  apply silent_bind; [apply silent_regular_files | intros dst_files].
  apply silent_bind; [| intros; apply silent_ret].
  apply silent_for_each. intros q. apply silent_st_size.
Qed.

Lemma verify_destination_dir src dest method w w' r :
  Transfer.verify src dest method w = (w', Return r) ->
  Transfer.destination_dir r = Path.str dest.
Proof.
  unfold Transfer.verify. intros H.
  apply bind_returns in H as (src_files & w1 & _ & H).
  apply bind_returns in H as (dst_files & w2 & _ & H).
  apply bind_returns in H as (sizes & w3 & _ & H).
  inversion H. reflexivity.
Qed.

(** What [deliver] returns, and the command it starts. *)
Lemma deliver_returns source_dir dest_root project_id method cd cf w w1 dest :
  Transfer.deliver spawn source_dir dest_root project_id method cd cf w
  = (w1, Return dest) ->
  dest = Transfer.destination dest_root project_id (now w)
  /\ started w1
     = started w
       ++ (if String.eqb method "rsync"
           then [Transfer.rsync_cmd (Path.parse source_dir) dest cd cf]
           else []).
Proof.
  unfold Transfer.deliver, bind at 1, OS.is_dir. cbn beta iota.
  destruct (FS.is_dir (disk w) (Path.parse source_dir)); [| discriminate].
  cbn [negb]. unfold bind at 1, OS.get_now. cbn beta iota.
  set (d := Transfer.destination dest_root project_id (now w)).
  intros H.
  apply bind_returns in H as ([] & w2 & Hmk & H).
  apply bind_returns in H as ([] & w3 & Htr & H).
  inversion H; subst w3 dest. split; [reflexivity |].
  rewrite <- (silent_mkdir _ _ _ _ Hmk).
  destruct (String.eqb method "rsync").
  - unfold Transfer._rsync in Htr.
    apply bind_returns in Htr as (rc & w4 & Hrun & Hret).
    inversion Hret; subst w4.
    exact (subprocess_run_started _ _ _ _ _ _ Hrun).
  - by rewrite (silent_copy _ _ _ _ _ Htr), app_nil_r.
Qed.

(** C8, as the code has it: when the project identifier holds no slash,
    the destination is the entry [P_Delivery_YYYYMMDD] of the root
    directory, with the eight digits of the current date; the report
    names it, and [rsync] is started on it. *)
Theorem send_destination_dir source_dir dest_root project_id method cd cf
    w w' r :
  Str.contains "/" project_id = false ->
  Transfer.send spawn source_dir dest_root project_id method cd cf w
  = (w', Return r) ->
  Transfer.destination_dir r
  = Path.str
      (Path.child (Path.parse dest_root)
         (project_id ++ "_Delivery_" ++ Transfer.strftime_Ymd (now w)))
  /\ String.length (Transfer.strftime_Ymd (now w)) = 8
  /\ started w'
     = started w
       ++ (if String.eqb method "rsync"
           then [Transfer.rsync_cmd (Path.parse source_dir)
                   (Path.child (Path.parse dest_root)
                      (project_id ++ "_Delivery_"
                       ++ Transfer.strftime_Ymd (now w)))
                   cd cf]
           else []).
Proof.
  intros HP H. unfold Transfer.send in H.
  apply bind_returns in H as (dest & w1 & Hd & Hv).
  apply deliver_returns in Hd as [-> Hs].
  destruct (delivery_name_component project_id
              (Transfer.strftime_Ymd (now w)) HP (strftime_Ymd_no_slash _))
    as [Hno Hkeep].
  unfold Transfer.destination in *.
  rewrite (join_component _ _ Hno Hkeep) in *.
  rewrite (verify_destination_dir _ _ _ _ _ _ Hv).
  rewrite (silent_verify _ _ _ _ _ _ Hv), Hs.
  split; [reflexivity |]. split; [apply strftime_Ymd_length | reflexivity].
Qed.

End Destination.

Lemma send_destination_dir_witness :
  Transfer.destination_dir
    {| Transfer.source_dir := "delivery";
       Transfer.destination_dir := "staging/P1_Delivery_20261104";
       Transfer.file_count := 0; Transfer.total_bytes := 0;
       Transfer.verified := false; Transfer.method := "rsync" |}
  = Path.str
      (Path.child (Path.parse "staging")
         ("P1" ++ "_Delivery_" ++ Transfer.strftime_Ymd Demo.day0))
  /\ String.length (Transfer.strftime_Ymd Demo.day0) = 8
  /\ started
       (Transfer.send Demo.quiet "delivery" "staging" "P1" "rsync"
          "Du=rwx,Dgo=rx" "Fu=rw,Fgo=r" (Demo.world Demo.delivery_disk)).1
     = [] ++ [Transfer.rsync_cmd (Path.parse "delivery")
                (Path.child (Path.parse "staging")
                   ("P1" ++ "_Delivery_" ++ Transfer.strftime_Ymd Demo.day0))
                "Du=rwx,Dgo=rx" "Fu=rw,Fgo=r"].
Proof.
  apply (send_destination_dir Demo.quiet "delivery" "staging" "P1" "rsync"
           "Du=rwx,Dgo=rx" "Fu=rw,Fgo=r" (Demo.world Demo.delivery_disk)).
  - reflexivity.
  - vm_compute. reflexivity.
Defined.

(** C8 as stated fails: a project identifier that is an absolute path
    replaces the root; the directory is made outside the root, which is
    not even created. *)
Lemma send_absolute_project_id_leaves_root :
  exists w' r,
    Transfer.send Demo.quiet "delivery" "staging" "/tmp/x" "copy"
      "Du=rwx,Dgo=rx" "Fu=rw,Fgo=r" (Demo.world Demo.delivery_disk)
    = (w', Return r)
    /\ Transfer.destination_dir r = "/tmp/x_Delivery_20261104"
    /\ Transfer.destination_dir r
       <> Path.str
            (Path.child (Path.parse "staging")
               ("/tmp/x" ++ "_Delivery_" ++ Transfer.strftime_Ymd Demo.day0))
    /\ Str.startswith "staging/" (Transfer.destination_dir r) = false
    /\ FS.is_dir (disk w') (Path.parse "/tmp/x_Delivery_20261104") = true
    /\ FS.exists_ (disk w') (Path.parse "staging") = false.
Proof.
  eexists _, _.
  split; [vm_compute; reflexivity |].
  split; [reflexivity |].
  split; [vm_compute; discriminate |].
  split; [reflexivity |].
  split; vm_compute; reflexivity.
Qed.

(** ** Entries of a directory *)

Lemma lexical_snoc stack ps c :
  String.eqb c ".." = false ->
  FS.lexical stack (ps ++ [c]) = FS.lexical stack ps ++ [c].
Proof.
  intros Hc. revert stack. induction ps as [|q ps IH]; intros stack.
  - cbn. by rewrite Hc.
  - cbn. destruct (String.eqb q ".."); apply IH.
Qed.

Lemma find_snoc ps c n :
  FS.find (ps ++ [c]) n
  = match FS.find ps n with
    | Some (FS.Dir es) => es !! c
    | _ => None
    end.
Proof.
  revert n. induction ps as [|q ps IH]; intros n.
  - cbn. destruct n as [data | es]; [done |]. by destruct (es !! c).
  - cbn. destruct n as [data | es]; [done |].
    destruct (es !! q) as [m |]; [apply IH | done].
Qed.

Lemma valid_name_not_dotdot c :
  FS.valid_name c = true -> String.eqb c ".." = false.
Proof.
  unfold FS.valid_name. intros H.
  apply andb_true_iff in H as [H _]. apply andb_true_iff in H as [_ H].
  by apply negb_true_iff.
Qed.

Lemma valid_name_component c :
  FS.valid_name c = true ->
  Str.contains "/" c = false /\ Path.keep_part c = true.
Proof.
  unfold FS.valid_name, Path.keep_part. intros H.
  apply andb_true_iff in H as [H Hs]. apply andb_true_iff in H as [H _].
  split; [by apply negb_true_iff | exact H].
Qed.

Lemma lookup_child fs p c es :
  FS.lookup fs p = Some (FS.Dir es) -> String.eqb c ".." = false ->
  FS.lookup fs (Path.child p c) = es !! c.
Proof.
  unfold FS.lookup, FS.locate. intros Hp Hc.
  change (Path.is_absolute (Path.child p c)) with (Path.is_absolute p).
  cbn [Path.child Path.parts].
  by rewrite (lexical_snoc _ _ _ Hc), find_snoc, Hp.
Qed.

Lemma name_child p c : Path.name (Path.child p c) = c.
Proof. unfold Path.name. cbn. apply last_last. Qed.

Lemma is_file_child fs p c es n :
  FS.lookup fs p = Some (FS.Dir es) -> Spec.names_ok es ->
  es !! c = Some n ->
  FS.is_file fs (Path.child p c) = Spec.is_regular n.
Proof.
  intros Hp Hok Hc. unfold FS.is_file.
  rewrite (lookup_child _ _ _ _ Hp (valid_name_not_dotdot _ (Hok _ _ Hc))), Hc.
  by destruct n.
Qed.

Lemma names_lookup (es : gmap string FS.node) c :
  c ∈ FS.names es <-> is_Some (es !! c).
Proof.
  unfold FS.names. rewrite list_elem_of_fmap. split.
  - intros ([k n] & -> & H). apply elem_of_map_to_list in H. by exists n.
  - intros [n H]. exists (c, n). split; [done | by apply elem_of_map_to_list].
Qed.

(** The regular files that the code finds in a directory are as many as
    its entries that are regular files. *)
Lemma regular_files_count fs p es :
  FS.lookup fs p = Some (FS.Dir es) -> Spec.names_ok es ->
  length (List.filter (FS.is_file fs) (Path.child p <$> FS.names es))
  = Spec.regular_count es.
Proof.
  intros Hp Hok. unfold FS.names, Spec.regular_count.
  assert (Hl : forall k n, (k, n) ∈ map_to_list es -> es !! k = Some n)
    by (intros k n; apply elem_of_map_to_list).
  induction (map_to_list es) as [|[k n] l IH]; [done |].
  cbn. rewrite (is_file_child _ _ _ _ n Hp Hok) by (apply Hl; left).
  destruct (Spec.is_regular n); cbn; rewrite IH; try done;
    intros k' n' H; apply Hl; by right.
Qed.

Lemma regular_files_dir p es w :
  FS.lookup (disk w) p = Some (FS.Dir es) ->
  Transfer.regular_files p w
  = (w, Return (List.filter (FS.is_file (disk w)) (Path.child p <$> FS.names es))).
Proof.
  intros Hp. unfold Transfer.regular_files, bind, OS.iterdir. by rewrite Hp.
Qed.

Lemma sizes_of_files (l : list Path.t) w :
  Forall (fun q => FS.is_file (disk w) q = true) l ->
  exists sizes, for_each l OS.st_size w = (w, Return sizes).
Proof.
  induction 1 as [|q l Hq _ [sizes IH]]; [by exists [] |].
  unfold FS.is_file in Hq.
  destruct (FS.lookup (disk w) q) as [[data | es] |] eqn:E; try discriminate.
  exists (String.length data :: sizes).
  cbn [for_each].
  assert (Hq' : OS.st_size q w = (w, Return (String.length data)))
    by (unfold OS.st_size; by rewrite E).
  rewrite (bind_of_return _ _ _ _ _ Hq'), (bind_of_return _ _ _ _ _ IH).
  reflexivity.
Qed.

Lemma names_ok_check (es : gmap string FS.node) :
  forallb FS.valid_name (FS.names es) = true -> Spec.names_ok es.
Proof.
  intros H c n Hc. rewrite forallb_forall in H. apply H.
  apply list_elem_of_In, names_lookup. by exists n.
Qed.

Lemma filter_all {A} (P : A -> bool) (l : list A) :
  Forall (fun x => P x = true) (List.filter P l).
Proof. apply Forall_forall. intros x Hx%list_elem_of_In%filter_In. tauto. Qed.

(** ** Verification of a transfer *)

Section Verification.

Variable spawn : Spawn.

(** [verify] only reads. *)
Lemma verify_reads src dest method w w' r :
  Transfer.verify src dest method w = (w', r) -> w' = w.
Proof.
  assert (Hrf : forall p v v' x, Transfer.regular_files p v = (v', x) -> v' = v).
  { intros p v v' x. unfold Transfer.regular_files, bind, OS.iterdir.
    destruct (FS.lookup (disk v) p) as [[data | es] |]; by inversion 1. }
  assert (Hsz : forall l v v' x, for_each l OS.st_size v = (v', x) -> v' = v).
  { induction l as [|q l IH]; intros v v' x; cbn; [by inversion 1 |].
    intros H. apply bind_cases in H as [(e & H & _) | (n & v1 & H1 & H)].
    - unfold OS.st_size in H.
      destruct (FS.lookup (disk v) q) as [[data | es] |]; by inversion H.
    - assert (v1 = v) as ->.
      { unfold OS.st_size in H1.
        destruct (FS.lookup (disk v) q) as [[data | es] |]; by inversion H1. }
      apply bind_cases in H as [(e & H & _) | (ns & v2 & H2 & H)].
      + by eapply IH.
      + inversion H; subst. by eapply IH. }
  unfold Transfer.verify. intros H.
  apply bind_cases in H as [(e & H & _) | (sf & v1 & H1 & H)];
    [by eapply Hrf |].
  apply Hrf in H1 as ->.
  apply bind_cases in H as [(e & H & _) | (df & v2 & H2 & H)];
    [by eapply Hrf |].
  apply Hrf in H2 as ->.
  apply bind_cases in H as [(e & H & _) | (sz & v3 & H3 & H)];
    [by eapply Hsz |].
  apply Hsz in H3 as ->. by inversion H.
Qed.

(** A transfer that returns found both directories in place. *)
Lemma send_returns_directories source_dir dest_root project_id method cd cf
    w w' r :
  Transfer.send spawn source_dir dest_root project_id method cd cf w
  = (w', Return r) ->
  exists dest a b,
    Transfer.deliver spawn source_dir dest_root project_id method cd cf w
    = (w', Return dest)
    /\ FS.lookup (disk w') (Path.parse source_dir) = Some (FS.Dir a)
    /\ FS.lookup (disk w') dest = Some (FS.Dir b).
Proof.
  unfold Transfer.send. intros H.
  apply bind_returns in H as (dest & w1 & Hd & Hv).
  pose proof (verify_reads _ _ _ _ _ _ Hv) as ->.
  unfold Transfer.verify in Hv.
  apply bind_returns in Hv as (sf & v1 & H1 & Hv).
  assert (v1 = w1) as ->.
  { unfold Transfer.regular_files, bind, OS.iterdir in H1.
    destruct (FS.lookup (disk w1) _) as [[data | es] |]; by inversion H1. }
  apply bind_returns in Hv as (df & v2 & H2 & _).
  unfold Transfer.regular_files, bind, OS.iterdir in H1, H2.
  destruct (FS.lookup (disk w1) (Path.parse source_dir)) as [[? | a] |] eqn:Ea;
    [by inversion H1 | | by inversion H1].
  destruct (FS.lookup (disk w1) dest) as [[? | b] |] eqn:Eb;
    [by inversion H2 | | by inversion H2].
  by exists dest, a, b.
Qed.

(** C4: once the files are transferred and both directories are in place,
    [send] returns a report, whatever the counts: it is verified exactly
    when the source and the destination hold as many regular files, and
    its file count is that of the destination. *)
Theorem send_verified_iff_counts source_dir dest_root project_id method cd cf
    w w1 dest a b :
  Transfer.deliver spawn source_dir dest_root project_id method cd cf w
  = (w1, Return dest) ->
  FS.lookup (disk w1) (Path.parse source_dir) = Some (FS.Dir a) ->
  FS.lookup (disk w1) dest = Some (FS.Dir b) ->
  Spec.names_ok a -> Spec.names_ok b ->
  exists r,
    Transfer.send spawn source_dir dest_root project_id method cd cf w
    = (w1, Return r)
    /\ (Transfer.verified r = true
        <-> Spec.regular_count a = Spec.regular_count b)
    /\ (Transfer.verified r = false
        <-> Spec.regular_count a <> Spec.regular_count b)
    /\ Transfer.file_count r = Spec.regular_count b.
Proof.
  intros Hd Ha Hb Hoka Hokb.
  unfold Transfer.send. rewrite (bind_of_return _ _ _ _ _ Hd).
  unfold Transfer.verify.
  rewrite (bind_of_return _ _ _ _ _ (regular_files_dir _ _ _ Ha)).
  rewrite (bind_of_return _ _ _ _ _ (regular_files_dir _ _ _ Hb)).
  destruct (sizes_of_files
              (List.filter (FS.is_file (disk w1)) (Path.child dest <$> FS.names b))
              w1 (filter_all _ _)) as [sizes Hs].
  rewrite (bind_of_return _ _ _ _ _ Hs).
  eexists. split; [reflexivity |]. cbn.
  rewrite (regular_files_count _ _ _ Ha Hoka),
    (regular_files_count _ _ _ Hb Hokb).
  split; [apply Nat.eqb_eq |]. split; [apply Nat.eqb_neq | reflexivity].
Qed.

End Verification.

Lemma send_verified_iff_counts_witness :
  exists r,
    Transfer.send Demo.quiet "delivery" "staging" "P1" "rsync"
      "Du=rwx,Dgo=rx" "Fu=rw,Fgo=r" (Demo.world Demo.delivery_disk)
    = ((Transfer.deliver Demo.quiet "delivery" "staging" "P1" "rsync"
          "Du=rwx,Dgo=rx" "Fu=rw,Fgo=r" (Demo.world Demo.delivery_disk)).1,
       Return r)
    /\ (Transfer.verified r = true
        <-> Spec.regular_count Demo.delivery_entries = Spec.regular_count ∅)
    /\ (Transfer.verified r = false
        <-> Spec.regular_count Demo.delivery_entries <> Spec.regular_count ∅)
    /\ Transfer.file_count r = Spec.regular_count ∅.
Proof.
  apply (send_verified_iff_counts Demo.quiet "delivery" "staging" "P1" "rsync"
           "Du=rwx,Dgo=rx" "Fu=rw,Fgo=r" (Demo.world Demo.delivery_disk) _
           (Path.parse "staging/P1_Delivery_20261104")).
  - vm_compute. reflexivity.
  - vm_compute. reflexivity.
  - vm_compute. reflexivity.
  - apply names_ok_check. vm_compute. reflexivity.
  - apply names_ok_check. vm_compute. reflexivity.
Defined.

(** ** From a path to a string and back *)

Lemma split_components s c :
  c ∈ Str.split Str.slash s -> Str.contains "/" c = false.
Proof.
  revert c. induction s as [|a s IH]; intros c.
  - cbn. intros ->%list_elem_of_singleton. reflexivity.
  - cbn [Str.split]. destruct (Ascii.eqb a Str.slash) eqn:Ha.
    + intros [-> | H]%elem_of_cons; [reflexivity | by apply IH].
    + destruct (Str.split Str.slash s) as [|x xs].
      * intros ->%list_elem_of_singleton.
        by rewrite contains_slash_cons, Ha.
      * intros [-> | H]%elem_of_cons.
        -- rewrite contains_slash_cons, Ha. apply IH. left.
        -- apply IH. by right.
Qed.

Lemma parse_well_formed s : Spec.well_formed (Path.parse s).
Proof.
  unfold Spec.well_formed, Path.parse. cbn [Path.anchor Path.parts]. split.
  - destruct (_ && _); [auto |]. destruct (Str.startswith "/" s); auto.
  - apply Forall_forall. intros c [Hc Hk]%list_elem_of_In%filter_In.
    split; [| exact Hk]. apply (split_components s). by apply list_elem_of_In.
Qed.

Lemma child_well_formed p c :
  Spec.well_formed p -> Spec.component c -> Spec.well_formed (Path.child p c).
Proof.
  intros [Ha Hp] Hc. split; [exact Ha |].
  cbn. apply Forall_app. split; [exact Hp | by constructor].
Qed.

Lemma split_cons_slash t :
  Str.split Str.slash (String "/" t) = "" :: Str.split Str.slash t.
Proof. reflexivity. Qed.

Lemma split_app_slash x t :
  Str.contains "/" x = false ->
  Str.split Str.slash (x ++ String "/" t) = x :: Str.split Str.slash t.
Proof.
  induction x as [|a x IH].
  - intros _. reflexivity.
  - rewrite contains_slash_cons. intros [Ha Hx]%orb_false_elim.
    rewrite append_cons. cbn [Str.split]. by rewrite Ha, (IH Hx).
Qed.

Lemma split_join ps :
  Forall Spec.component ps -> ps <> [] ->
  Str.split Str.slash (Str.join "/" ps) = ps.
Proof.
  induction 1 as [|c ps [Hc _] Hps IH]; [done |]. intros _.
  destruct ps as [|d ps].
  - cbn. by apply split_no_slash.
  - change (Str.join "/" (c :: d :: ps))
      with (c ++ String "/" (Str.join "/" (d :: ps)))%string.
    rewrite (split_app_slash _ _ Hc), IH; done.
Qed.

Lemma filter_components ps :
  Forall Spec.component ps -> List.filter Path.keep_part ps = ps.
Proof.
  induction 1 as [|c ps [_ Hk] _ IH]; [done |]. cbn. by rewrite Hk, IH.
Qed.

Lemma parts_of_join ps :
  Forall Spec.component ps ->
  List.filter Path.keep_part (Str.split Str.slash (Str.join "/" ps)) = ps.
Proof.
  intros H. destruct ps as [|c ps]; [reflexivity |].
  rewrite split_join by done. by apply filter_components.
Qed.

Lemma component_first c :
  Spec.component c -> exists a c', c = String a c' /\ Ascii.eqb "/" a = false.
Proof.
  intros [Hs Hk]. destruct c as [|a c']; [discriminate Hk |].
  exists a, c'. split; [reflexivity |].
  rewrite contains_slash_cons in Hs. apply orb_false_elim in Hs as [Ha _].
  destruct (Ascii.eqb_spec "/" a) as [<- | _]; [discriminate Ha | done].
Qed.

Lemma join_not_rooted ps :
  Forall Spec.component ps -> Str.startswith "/" (Str.join "/" ps) = false.
Proof.
  intros H. destruct H as [|c ps Hc _]; [reflexivity |].
  destruct (component_first _ Hc) as (a & c' & -> & Ha).
  destruct ps; cbn [Str.join]; rewrite ?append_cons, startswith_cons, Ha; done.
Qed.

Lemma parse_str p : Spec.well_formed p -> Path.parse (Path.str p) = p.
Proof.
  destruct p as [an ps]. intros [Ha Hps]. cbn in Ha, Hps.
  pose proof (join_not_rooted _ Hps) as Hj.
  pose proof (parts_of_join _ Hps) as Hf.
  unfold Path.str, Path.parse. cbn [Path.anchor Path.parts].
  destruct Ha as [-> | [-> | ->]].
  - destruct ps as [|c ps]; [reflexivity |].
    rewrite append_empty, Hf, (startswith_two_slashes _ Hj), Hj. reflexivity.
  - change ("/" ++ Str.join "/" ps)%string with (String "/" (Str.join "/" ps)).
    rewrite split_cons_slash, !startswith_cons, Hj. cbn. by rewrite Hf.
  - change ("//" ++ Str.join "/" ps)%string
      with (String "/" (String "/" (Str.join "/" ps))).
    rewrite !split_cons_slash, !startswith_cons, Hj. cbn. by rewrite Hf.
Qed.

(** ** Tokens in file names *)

Lemma startswith_spec p s :
  Str.startswith p s = true <-> exists r : string, s = (p ++ r)%string.
Proof.
  revert s. induction p as [|a p IH]; intros s.
  - split; [intros _; by exists s | by destruct s].
  - destruct s as [|b s].
    + split; [discriminate | intros [r H]; discriminate H].
    + rewrite startswith_cons, andb_true_iff, IH. split.
      * intros [->%Ascii.eqb_eq [r ->]]. by exists r.
      * intros [r H]. rewrite append_cons in H. injection H as -> ->.
        split; [apply Ascii.eqb_refl | by exists r].
Qed.

Lemma contains_spec p s : Str.contains p s = true <-> Spec.occurs_in p s.
Proof.
  unfold Spec.occurs_in. induction s as [|b s IH].
  - cbn [Str.contains]. rewrite orb_false_r, startswith_spec. split.
    + intros [r H]. by exists "", r.
    + intros ([|a l] & r & H); [by exists r | discriminate H].
  - cbn [Str.contains]. rewrite orb_true_iff, startswith_spec, IH. split.
    + intros [[r H] | (l & r & ->)]; [by exists "", r |].
      by exists (String b l), r.
    + intros ([|a l] & r & H); [left; by exists r |].
      rewrite append_cons in H. injection H as -> ->. right. by exists l, r.
Qed.

Lemma excluded_spec (exclude : gset string) name :
  Manifest.excluded exclude name = true
  <-> exists pat, pat ∈ exclude /\ Spec.occurs_in pat name.
Proof.
  unfold Manifest.excluded. rewrite existsb_exists. split.
  - intros (pat & Hin & Hc). exists pat.
    split; [by apply elem_of_elements, list_elem_of_In | by apply contains_spec].
  - intros (pat & Hin & Hc). exists pat.
    split; [by apply list_elem_of_In, elem_of_elements | by apply contains_spec].
Qed.

(** ** The manifest of a directory *)

Section ManifestFiles.

Variable md5_hex sha256_hex : string -> string.
Variable exclude : gset string.
Variable w : World.
Variable directory : Path.t.
Variable es : gmap string FS.node.
Hypothesis directory_entries : FS.lookup (disk w) directory = Some (FS.Dir es).
Hypothesis directory_well_formed : Spec.well_formed directory.
Hypothesis entries_ok : Spec.names_ok es.

Lemma compute_checksums_child c data :
  es !! c = Some (FS.File data) ->
  Manifest.compute_checksums md5_hex sha256_hex
    (Path.str (Path.child directory c)) w
  = (w, Return (Spec.record md5_hex sha256_hex es c)).
Proof.
  intros Hc. unfold Manifest.compute_checksums.
  pose proof (entries_ok _ _ Hc) as Hv.
  rewrite (parse_str (Path.child directory c))
    by (apply child_well_formed;
        [exact directory_well_formed | by apply valid_name_component]).
  assert (Hl : FS.lookup (disk w) (Path.child directory c)
               = Some (FS.File data)).
  { rewrite (lookup_child _ _ _ _ directory_entries
               (valid_name_not_dotdot _ Hv)). exact Hc. }
  unfold bind, OS.read, OS.st_size. rewrite !Hl, name_child.
  unfold Spec.record. by rewrite Hc.
Qed.

Lemma visit_child manifest c n :
  es !! c = Some n ->
  Manifest.visit md5_hex sha256_hex exclude manifest (Path.child directory c) w
  = (w, Return
          (if Spec.allowed exclude es c
           then Manifest.append_file (Spec.record md5_hex sha256_hex es c)
                  manifest
           else manifest)).
Proof.
  intros Hc. unfold Manifest.visit, bind at 1, OS.is_file.
  rewrite (is_file_child _ _ _ _ _ directory_entries entries_ok Hc).
  unfold Spec.allowed. rewrite Hc, name_child.
  destruct n as [data | sub]; [| reflexivity]. cbn [Spec.is_regular negb].
  destruct (Manifest.excluded exclude c); [reflexivity |]. cbn [negb].
  by rewrite (bind_of_return _ _ _ _ _ (compute_checksums_child _ _ Hc)).
Qed.

Lemma visit_all_children cs manifest :
  Forall (fun c => is_Some (es !! c)) cs ->
  exists m,
    Manifest.visit_all md5_hex sha256_hex exclude manifest
      (Path.child directory <$> cs) w = (w, Return m)
    /\ Manifest.files m
       = Manifest.files manifest
         ++ (Spec.record md5_hex sha256_hex es
             <$> List.filter (Spec.allowed exclude es) cs)
    /\ Manifest.project_id m = Manifest.project_id manifest
    /\ Manifest.delivery_date m = Manifest.delivery_date manifest.
Proof.
  intros H. revert manifest.
  induction H as [|c cs [n Hc] _ IH]; intros manifest.
  - exists manifest. cbn. by rewrite app_nil_r.
  - cbn [fmap list_fmap Manifest.visit_all].
    rewrite (bind_of_return _ _ _ _ _ (visit_child manifest _ _ Hc)).
    cbn [List.filter].
    destruct (Spec.allowed exclude es c).
    + destruct (IH (Manifest.append_file
                      (Spec.record md5_hex sha256_hex es c) manifest))
        as (m & Hm & Hf & Hp & Hd).
      exists m. split; [exact Hm |]. rewrite Hf. cbn.
      by rewrite <- app_assoc.
    + apply IH.
Qed.

End ManifestFiles.

Lemma permutation_of_fmap {A B} (f : A -> B) (l : list B) (l0 : list A) :
  l ≡ₚ f <$> l0 -> exists l1, l = f <$> l1 /\ l1 ≡ₚ l0.
Proof.
  intros H. destruct (Permutation_map_inv f l0 H) as (l1 & -> & Hp).
  exists l1. split; [reflexivity | by symmetry].
Qed.

Lemma filename_of_records md5_hex sha256_hex es (cs : list string) :
  Manifest.filename <$> (Spec.record md5_hex sha256_hex es <$> cs) = cs.
Proof. induction cs as [|c cs IH]; [done |]. cbn. by rewrite IH. Qed.

Section ManifestContent.

Variable md5_hex sha256_hex : string -> string.


End ManifestContent.


(** The manifest of the sample directory: the two data files, in order. *)
Example generate_sample_manifest :
  Manifest.filename
  <$> match (Manifest.generate Demo.fake_md5 Demo.fake_sha256 "delivery" "P1"
               None (Demo.world Demo.delivery_disk)).2 with
      | Return m => Manifest.files m
      | Raise _ => []
      end
  = ["a.vcf.gz"; "b.txt"].
Proof. vm_compute. reflexivity. Qed.

(** ** The manifest: empty list of patterns *)

Section EmptyPatterns.

Variable md5_hex sha256_hex : string -> string.

(** C9: an empty list of patterns is the same as no list: the tokens are
    MANIFEST and STATUS, [generate] does on every world what it does
    without the argument, and the manifest of a directory made with the
    empty list has a record for a regular file exactly when neither
    MANIFEST nor STATUS occurs in its name; a file with one of them in
    its name is left out. *)
Theorem generate_empty_patterns_is_default delivery_dir project_id w es :
  FS.lookup (disk w) (Path.parse delivery_dir) = Some (FS.Dir es) ->
  Spec.names_ok es ->
  Manifest.exclusions (Some []) = {[ "MANIFEST"; "STATUS" ]}
  /\ (forall v,
        Manifest.generate md5_hex sha256_hex delivery_dir project_id (Some []) v
        = Manifest.generate md5_hex sha256_hex delivery_dir project_id None v)
  /\ exists m,
       Manifest.generate md5_hex sha256_hex delivery_dir project_id (Some []) w
       = (w, Return m)
       /\ (forall name,
             name ∈ Manifest.filename <$> Manifest.files m
             <-> exists data,
                   es !! name = Some (FS.File data)
                   /\ ~ Spec.occurs_in "MANIFEST" name
                   /\ ~ Spec.occurs_in "STATUS" name)
       /\ (forall name,
             Spec.occurs_in "MANIFEST" name \/ Spec.occurs_in "STATUS" name ->
             name ∉ Manifest.filename <$> Manifest.files m).
Proof.
  intros Hdir Hok. split; [reflexivity |]. split; [reflexivity |].
  set (directory := Path.parse delivery_dir) in *.
  set (exclude := Manifest.exclusions (Some [])).
  destruct (permutation_of_fmap (Path.child directory)
              (Manifest.sorted_paths (Path.child directory <$> FS.names es))
              (FS.names es)) as (cs & Hsorted & Hperm).
  { apply merge_sort_Permutation. }
  assert (Hcs : Forall (fun c => is_Some (es !! c)) cs).
  { apply Forall_forall. intros c Hc. apply names_lookup. by rewrite <- Hperm. }
  destruct (visit_all_children md5_hex sha256_hex exclude w directory es Hdir
              (parse_well_formed _) Hok cs
              {| Manifest.project_id := project_id;
                 Manifest.delivery_date := Manifest.strftime_Y_m_d (now w);
                 Manifest.files := []; Manifest.metadata := ∅ |} Hcs)
    as (m & Hm & Hfiles & _).
  cbn [Manifest.files app] in Hfiles.
  assert (Hex : forall name,
             Manifest.excluded exclude name = true
             <-> Spec.occurs_in "MANIFEST" name \/ Spec.occurs_in "STATUS" name).
  { intros name. rewrite excluded_spec. unfold exclude.
    change (Manifest.exclusions (Some []))
      with ({[ "MANIFEST"; "STATUS" ]} : gset string).
    split.
    - intros (pat & Hin & Ho).
      apply elem_of_union in Hin as [Hin | Hin];
        apply elem_of_singleton in Hin; subst pat; auto.
    - intros [Ho | Ho]; [exists "MANIFEST" | exists "STATUS"];
        (split; [| exact Ho]).
      + apply elem_of_union_l. by apply elem_of_singleton.
      + apply elem_of_union_r. by apply elem_of_singleton. }
  assert (Hgen : Manifest.generate md5_hex sha256_hex delivery_dir project_id
                   (Some []) w = (w, Return m)).
  { unfold Manifest.generate. fold directory. fold exclude.
    unfold bind at 1, OS.is_dir, FS.is_dir. rewrite Hdir. cbn [negb].
    unfold bind at 1, OS.get_now. unfold bind at 1, OS.iterdir.
    rewrite Hdir. fold directory. by rewrite Hsorted. }
  clearbody exclude.
  assert (Hnames : forall name,
             name ∈ Manifest.filename <$> Manifest.files m
             <-> exists data,
                   es !! name = Some (FS.File data)
                   /\ ~ Spec.occurs_in "MANIFEST" name
                   /\ ~ Spec.occurs_in "STATUS" name).
  { intros name. rewrite Hfiles, filename_of_records.
    rewrite list_elem_of_In, filter_In, <- list_elem_of_In.
    rewrite Hperm, names_lookup. unfold Spec.allowed. split.
    - intros [_ Ha]. destruct (es !! name) as [[data | sub] |];
        try discriminate Ha.
      exists data. split; [reflexivity |].
      apply negb_true_iff in Ha.
      split; intros Ho; apply not_true_iff_false in Ha; apply Ha, Hex; auto.
    - intros (data & -> & Hn1 & Hn2). split; [by eexists |].
      apply negb_true_iff, not_true_iff_false. intros [Ho | Ho]%Hex; tauto. }
  exists m. split; [exact Hgen |]. split; [exact Hnames |].
  intros name Ho (data & _ & Hn1 & Hn2)%Hnames. tauto.
Qed.

End EmptyPatterns.

Lemma generate_empty_patterns_is_default_witness :
  Manifest.exclusions (Some []) = {[ "MANIFEST"; "STATUS" ]}
  /\ (forall v,
        Manifest.generate Demo.fake_md5 Demo.fake_sha256 "delivery" "P1"
          (Some []) v
        = Manifest.generate Demo.fake_md5 Demo.fake_sha256 "delivery" "P1"
            None v)
  /\ exists m,
       Manifest.generate Demo.fake_md5 Demo.fake_sha256 "delivery" "P1"
         (Some []) (Demo.world Demo.delivery_disk)
       = (Demo.world Demo.delivery_disk, Return m)
       /\ (forall name,
             name ∈ Manifest.filename <$> Manifest.files m
             <-> exists data,
                   Demo.delivery_entries !! name = Some (FS.File data)
                   /\ ~ Spec.occurs_in "MANIFEST" name
                   /\ ~ Spec.occurs_in "STATUS" name)
       /\ (forall name,
             Spec.occurs_in "MANIFEST" name \/ Spec.occurs_in "STATUS" name ->
             name ∉ Manifest.filename <$> Manifest.files m).
Proof.
  apply (generate_empty_patterns_is_default Demo.fake_md5 Demo.fake_sha256
           "delivery" "P1" (Demo.world Demo.delivery_disk)
           Demo.delivery_entries).
  - vm_compute. reflexivity.
  - apply names_ok_check. vm_compute. reflexivity.
Defined.

(** The manifest of the sample directory made with the empty list: the
    old manifest and status files are left out. *)
Example empty_patterns_leave_reports_out :
  Manifest.filename
  <$> match (Manifest.generate Demo.fake_md5 Demo.fake_sha256 "delivery" "P1"
               (Some []) (Demo.world Demo.delivery_disk)).2 with
      | Return m => Manifest.files m
      | Raise _ => []
      end
  = ["a.vcf.gz"; "b.txt"].
Proof. vm_compute. reflexivity. Qed.

(** * Properties of the rest of the pipeline *)

(** ** Computations with all exceptions *)

Lemma pbind_cases {A B} (c : P A) (k : A -> P B) w w' r :
  pbind c k w = (w', r) ->
  (exists e, c w = (w', Fail e) /\ r = Fail e) \/
  (exists a w1, c w = (w1, Ok a) /\ k a w1 = (w', r)).
Proof.
  unfold pbind. destruct (c w) as [w1 [a | e]]; intros H.
  - right. exists a, w1. split; [reflexivity | exact H].
  - left. exists e. inversion H; subst. split; reflexivity.
Qed.

Lemma pbind_ok {A B} (c : P A) (k : A -> P B) w w' b :
  pbind c k w = (w', Ok b) ->
  exists a w1, c w = (w1, Ok a) /\ k a w1 = (w', Ok b).
Proof.
  intros H. apply pbind_cases in H as [(e & _ & H) | H]; [discriminate H | exact H].
Qed.

Lemma pbind_of_ok {A B} (c : P A) (k : A -> P B) w w1 a :
  c w = (w1, Ok a) -> pbind c k w = k a w1.
Proof. unfold pbind. intros ->. reflexivity. Qed.

Lemma pbind_of_fail {A B} (c : P A) (k : A -> P B) w w1 e :
  c w = (w1, Fail e) -> pbind c k w = (w1, Fail e).
Proof. unfold pbind. intros ->. reflexivity. Qed.

Lemma lift_ok {A} (c : M A) w w' a :
  lift c w = (w', Ok a) <-> c w = (w', Return a).
Proof.
  unfold lift. destruct (c w) as [w1 [x | e]]; split; intros H;
    inversion H; reflexivity.
Qed.

Lemma reads_only_pbind {A B} (c : P A) (k : A -> P B) :
  FilterSpec.reads_only c -> (forall a, FilterSpec.reads_only (k a)) ->
  FilterSpec.reads_only (pbind c k).
Proof.
  intros Hc Hk w w' r H.
  apply pbind_cases in H as [(e & H & _) | (a & w1 & H1 & H2)].
  - exact (Hc _ _ _ H).
  - apply Hc in H1 as ->. exact (Hk _ _ _ _ H2).
Qed.

Lemma reads_only_exists p : FilterSpec.reads_only (lift (OS.exists_ p)).
Proof. intros w w' r H. by inversion H. Qed.

Lemma reads_only_read p : FilterSpec.reads_only (lift (OS.read p)).
Proof.
  intros w w' r. unfold lift, OS.read.
  destruct (FS.lookup (disk w) p) as [[data | es] |]; by inversion 1.
Qed.

Lemma reads_only_pure {A} (r : result A) : FilterSpec.reads_only (of_result r).
Proof. intros w w' x H. by inversion H. Qed.

Lemma reads_only_pret {A} (a : A) : FilterSpec.reads_only (pret a).
Proof. intros w w' x H. by inversion H. Qed.

Lemma reads_only_pfail {A} e : FilterSpec.reads_only (@pfail A e).
Proof. intros w w' x H. by inversion H. Qed.

Section FilterReads.

Variable csv_reader : CsvReader.

Lemma reads_only_load filepath id_column has_header delimiter :
  FilterSpec.reads_only
    (Filter.load_exclusion_set csv_reader filepath id_column has_header
       delimiter).
Proof.
  apply reads_only_pbind; [apply reads_only_exists | intros present].
  destruct present; cbn [negb]; [| apply reads_only_pfail].
  apply reads_only_pbind; [apply reads_only_read | intros text].
  apply reads_only_pbind; [apply reads_only_pure | intros ids].
  destruct (raises _); [apply reads_only_pfail | apply reads_only_pret].
Qed.

Lemma reads_only_load_with_reasons filepath id_column reason_column
    has_header delimiter :
  FilterSpec.reads_only
    (Filter.load_exclusion_set_with_reasons csv_reader filepath id_column
       reason_column has_header delimiter).
Proof.
  apply reads_only_pbind; [apply reads_only_exists | intros present].
  destruct present; cbn [negb]; [| apply reads_only_pfail].
  apply reads_only_pbind; [apply reads_only_read | intros text].
  apply reads_only_pbind; [apply reads_only_pure | intros ids].
  destruct (raises _); [apply reads_only_pfail | apply reads_only_pret].
Qed.

Lemma reads_only_load_all paths to_exclude :
  FilterSpec.reads_only (Filter.load_all csv_reader paths to_exclude).
Proof.
  revert to_exclude. induction paths as [|ep rest IH]; intros to_exclude.
  - apply reads_only_pret.
  - apply reads_only_pbind; [apply reads_only_load | intros ids; apply IH].
Qed.

(** The exclusion lists load one by one, in the same world, and add up. *)
Lemma load_all_ok paths to_exclude w w' E :
  Filter.load_all csv_reader paths to_exclude w = (w', Ok E) ->
  exists sets,
    Forall2 (fun ep S =>
               Filter.load_exclusion_set csv_reader ep 0 true "," w = (w, Ok S))
      paths sets
    /\ E = to_exclude ∪ ⋃ sets.
Proof.
  revert to_exclude. induction paths as [|ep rest IH]; intros to_exclude H.
  - inversion H; subst. exists []. split; [constructor |].
    cbn. by rewrite (right_id_L ∅ (∪)).
  - cbn [Filter.load_all] in H.
    apply pbind_ok in H as (S & w1 & H1 & H2).
    pose proof (reads_only_load _ _ _ _ _ _ _ H1) as ->.
    destruct (IH _ H2) as (sets & Hsets & ->).
    exists (S :: sets). split; [by constructor |].
    cbn [union_list foldr]. by rewrite (assoc_L (∪)).
Qed.

Lemma load_all_fails paths to_exclude w ep e0 :
  ep ∈ paths ->
  Filter.load_exclusion_set csv_reader ep 0 true "," w = (w, Fail e0) ->
  exists e, Filter.load_all csv_reader paths to_exclude w = (w, Fail e).
Proof.
  intros Hin Hfail. revert to_exclude.
  induction paths as [|ep1 rest IH]; intros to_exclude;
    [by apply elem_of_nil in Hin |].
  cbn [Filter.load_all].
  destruct (Filter.load_exclusion_set csv_reader ep1 0 true "," w)
    as [w1 [S | e1]] eqn:H1.
  - pose proof (reads_only_load _ _ _ _ _ _ _ H1) as ->.
    rewrite (pbind_of_ok _ _ _ _ _ H1).
    apply elem_of_cons in Hin as [-> | Hin]; [congruence | by apply IH].
  - pose proof (reads_only_load _ _ _ _ _ _ _ H1) as ->.
    exists e1. by rewrite (pbind_of_fail _ _ _ _ _ H1).
Qed.

End FilterReads.

(** ** Writing a list of identifiers and reading it back *)

Lemma append_nil_r s : (s ++ "")%string = s.
Proof. induction s as [|a s IH]; [done |]. by rewrite append_cons, IH. Qed.

Lemma append_assoc (s t u : string) :
  ((s ++ t) ++ u)%string = (s ++ (t ++ u))%string.
Proof.
  induction s as [|a s IH]; [done |]. by rewrite !append_cons, IH.
Qed.

Lemma spaceless_cons a s :
  FilterSpec.spaceless (String a s) = true ->
  Py.isspace a = false /\ FilterSpec.spaceless s = true.
Proof.
  cbn [FilterSpec.spaceless]. intros [Ha Hs]%andb_true_iff.
  split; [by apply negb_true_iff | exact Hs].
Qed.

Lemma spaceless_app s t :
  FilterSpec.spaceless (s ++ t)
  = FilterSpec.spaceless s && FilterSpec.spaceless t.
Proof.
  induction s as [|a s IH]; [done |].
  rewrite append_cons. cbn [FilterSpec.spaceless]. by rewrite IH, andb_assoc.
Qed.

Lemma not_space_not_newline a :
  Py.isspace a = false ->
  Ascii.eqb a Str.LF = false /\ Ascii.eqb a Str.CR = false.
Proof.
  intros H. split.
  - destruct (Ascii.eqb_spec a Str.LF) as [-> | _]; [discriminate H | done].
  - destruct (Ascii.eqb_spec a Str.CR) as [-> | _]; [discriminate H | done].
Qed.

Lemma lines_from_segment cur x rest :
  FilterSpec.spaceless x = true ->
  Str.lines_from cur (x ++ String Str.LF rest)
  = (cur ++ x)%string :: Str.lines_from "" rest.
Proof.
  revert cur. induction x as [|a x IH]; intros cur Hx.
  - rewrite append_empty, append_nil_r. reflexivity.
  - apply spaceless_cons in Hx as [Ha Hx].
    destruct (not_space_not_newline _ Ha) as [Hlf Hcr].
    rewrite append_cons. cbn [Str.lines_from]. rewrite Hlf, Hcr.
    rewrite (IH _ Hx), append_assoc. reflexivity.
Qed.

Lemma lines_listing xs :
  Forall FilterSpec.token xs -> xs <> [] ->
  Str.lines (FilterSpec.listing xs) = xs.
Proof.
  unfold Str.lines, FilterSpec.listing, Merge.newline.
  induction 1 as [|x xs [_ Hx] Hxs IH]; [done |]. intros _.
  destruct xs as [|y xs].
  - cbn [Str.join]. by rewrite (lines_from_segment _ _ _ Hx).
  - change (Str.join (String Str.LF "") (x :: y :: xs))
      with (x ++ String Str.LF (Str.join (String Str.LF "") (y :: xs)))%string.
    rewrite append_assoc, append_cons.
    rewrite (lines_from_segment _ _ _ Hx), append_empty.
    by rewrite IH.
Qed.

Lemma lstrip_token s : FilterSpec.spaceless s = true -> Py.lstrip s = s.
Proof.
  destruct s as [|a s]; [done |]. intros [Ha _]%spaceless_cons.
  cbn. by rewrite Ha.
Qed.

Lemma rstrip_token s : FilterSpec.spaceless s = true -> Py.rstrip s = s.
Proof.
  induction s as [|a s IH]; [done |]. intros [Ha Hs]%spaceless_cons.
  cbn [Py.rstrip]. rewrite (IH Hs), Ha. by destruct s.
Qed.

Lemma split_from_token cur s :
  FilterSpec.spaceless s = true -> (cur ++ s)%string <> "" ->
  Py.split_from cur s = [(cur ++ s)%string].
Proof.
  revert cur. induction s as [|a s IH]; intros cur Hs Hne.
  - rewrite append_nil_r in *. cbn.
    by destruct (String.eqb_spec cur "").
  - apply spaceless_cons in Hs as [Ha Hs]. cbn [Py.split_from]. rewrite Ha.
    rewrite (IH _ Hs); rewrite append_assoc; [done | exact Hne].
Qed.

Lemma line_id_token s : FilterSpec.token s -> Filter.line_id s = Some s.
Proof.
  intros [Hne Hs]. unfold Filter.line_id, Py.strip, Py.split.
  rewrite (lstrip_token _ Hs), (rstrip_token _ Hs).
  by rewrite (split_from_token "" s Hs).
Qed.

(** What [apply] writes reads back as the same identifiers. *)
Lemma read_ids_listing xs :
  Forall FilterSpec.token xs -> Filter.read_ids (FilterSpec.listing xs) = xs.
Proof.
  intros H. unfold Filter.read_ids. destruct xs as [|x xs]; [reflexivity |].
  rewrite (lines_listing _ H) by done.
  induction H as [|y ys Hy _ IH]; [done |].
  cbn [omap list_omap]. by rewrite (line_id_token _ Hy), IH.
Qed.

Lemma split_from_tokens cur s x :
  FilterSpec.spaceless cur = true ->
  x ∈ Py.split_from cur s -> FilterSpec.token x.
Proof.
  revert cur. induction s as [|a s IH]; intros cur Hcur.
  - cbn. destruct (String.eqb_spec cur "") as [-> | Hne].
    + by intros ?%elem_of_nil.
    + intros ->%list_elem_of_singleton. by split.
  - cbn [Py.split_from]. destruct (Py.isspace a) eqn:Ha.
    + intros [H | H]%elem_of_app; [| by apply (IH "")].
      destruct (String.eqb_spec cur "") as [-> | Hne].
      * by apply elem_of_nil in H.
      * apply list_elem_of_singleton in H as ->. by split.
    + apply IH. rewrite spaceless_app, Hcur. cbn. by rewrite Ha.
Qed.

(** The identifiers read from a cohort are tokens. *)
Lemma read_ids_tokens text : Forall FilterSpec.token (Filter.read_ids text).
Proof.
  apply Forall_forall. intros x Hx. unfold Filter.read_ids in Hx.
  apply list_elem_of_omap in Hx as (line & _ & Hid).
  unfold Filter.line_id, Py.split in Hid.
  apply (split_from_tokens "" (Py.strip line)); [done |].
  destruct (Py.split_from "" (Py.strip line)) as [|y ys]; [done |].
  cbn in Hid. injection Hid as ->. left.
Qed.

Lemma kept_tokens E ids :
  Forall FilterSpec.token ids -> Forall FilterSpec.token (FilterSpec.kept E ids).
Proof.
  rewrite !Forall_forall. intros H x Hx%list_elem_of_In%filter_In.
  apply H, list_elem_of_In. tauto.
Qed.

(** ** A run of the filter *)

Section FilterRun.

Variable csv_reader : CsvReader.

(** What a run that returns has done. *)
Lemma apply_ok cohort_path exclusion_paths exclusion_set output_path w w' rep :
  Filter.apply csv_reader cohort_path exclusion_paths exclusion_set
    output_path w = (w', Ok rep) ->
  exists text sets,
    FS.lookup (disk w) (Path.parse cohort_path) = Some (FS.File text)
    /\ Forall2 (fun ep S =>
                  Filter.load_exclusion_set csv_reader ep 0 true "," w
                  = (w, Ok S))
         (default [] exclusion_paths) sets
    /\ rep = {| Filter.original_count := length (Filter.read_ids text);
                Filter.exclusion_count :=
                  size (FilterSpec.union_of exclusion_set sets);
                Filter.final_count :=
                  length (FilterSpec.kept
                            (FilterSpec.union_of exclusion_set sets)
                            (Filter.read_ids text));
                Filter.exclusion_reasons := ∅ |}
    /\ if Merge.truthy output_path
       then exists w1,
              OS.mkdir_parents_exist_ok
                (Py.parent (Path.parse (default "" output_path))) w
              = (w1, Return tt)
              /\ OS.write (Path.parse (default "" output_path))
                   (FilterSpec.listing
                      (FilterSpec.kept (FilterSpec.union_of exclusion_set sets)
                         (Filter.read_ids text))) w1
                 = (w', Return tt)
       else w' = w.
Proof.
  unfold Filter.apply. intros H.
  apply pbind_ok in H as (present & w0 & Hex & H).
  injection Hex as <- <-.
  destruct (FS.exists_ (disk w) (Path.parse cohort_path)); [| discriminate H].
  cbn [negb] in H.
  apply pbind_ok in H as (E & w1 & Hload & H).
  assert (Hsets : w1 = w /\ exists sets,
             Forall2 (fun ep S =>
                        Filter.load_exclusion_set csv_reader ep 0 true "," w
                        = (w, Ok S))
               (default [] exclusion_paths) sets
             /\ E = FilterSpec.union_of exclusion_set sets).
  { unfold FilterSpec.union_of.
    destruct (Py.truthy_list exclusion_paths) eqn:Ht.
    - pose proof (reads_only_load_all _ _ _ _ _ _ Hload) as ->.
      split; [reflexivity |]. by apply load_all_ok in Hload.
    - injection Hload as <- <-. split; [reflexivity |]. exists [].
      destruct exclusion_paths as [[|ep l] |]; try discriminate Ht;
        (split; [constructor | cbn; by rewrite (right_id_L ∅ (∪))]). }
  destruct Hsets as (-> & sets & Hsets & ->).
  apply pbind_ok in H as (text & w2 & Hread & H).
  apply lift_ok in Hread. unfold OS.read in Hread.
  destruct (FS.lookup (disk w) (Path.parse cohort_path)) as [[data | es] |];
    try discriminate Hread.
  injection Hread as <- <-.
  apply pbind_ok in H as ([] & w3 & Hout & H).
  injection H as <- <-.
  exists data, sets. split; [reflexivity |]. split; [exact Hsets |].
  split; [reflexivity |].
  destruct (Merge.truthy output_path).
  - apply pbind_ok in Hout as ([] & w4 & Hmk & Hwr).
    apply lift_ok in Hmk, Hwr. by exists w4.
  - by injection Hout as <-.
Qed.

(** X1 (filter.py, apply): the file that a run writes holds, one per
    line and in cohort order, exactly the cohort identifiers that are in
    none of the exclusion lists and not in the set given; read the way
    [apply] reads a cohort, it gives them back. *)
Theorem apply_writes_the_unexcluded cohort_path exclusion_paths exclusion_set
    output_path w w' rep :
  output_path <> "" ->
  Filter.apply csv_reader cohort_path exclusion_paths exclusion_set
    (Some output_path) w = (w', Ok rep) ->
  exists text sets out_text,
    FS.lookup (disk w) (Path.parse cohort_path) = Some (FS.File text)
    /\ Forall2 (fun ep S =>
                  Filter.load_exclusion_set csv_reader ep 0 true "," w
                  = (w, Ok S))
         (default [] exclusion_paths) sets
    /\ FS.lookup (disk w') (Path.parse output_path) = Some (FS.File out_text)
    /\ Filter.read_ids out_text
       = List.filter
           (fun sid =>
              negb (bool_decide
                      (sid ∈ FilterSpec.union_of exclusion_set sets)))
           (Filter.read_ids text)
    /\ (forall sid,
          sid ∈ Filter.read_ids out_text
          <-> sid ∈ Filter.read_ids text
              /\ (sid ∉ (default ∅ exclusion_set : gset string))
              /\ Forall (fun S : gset string => sid ∉ S) sets)
    /\ Filter.final_count rep = length (Filter.read_ids out_text).
Proof.
  intros Hne H. apply apply_ok in H as (text & sets & Htext & Hsets & -> & Hout).
  assert (Ht : Merge.truthy (Some output_path) = true).
  { cbn. by destruct (String.eqb_spec output_path "") as [-> | _]. }
  rewrite Ht in Hout. destruct Hout as (w1 & _ & Hwr). cbn [default] in Hwr.
  apply write_then_lookup in Hwr.
  exists text, sets. eexists. split; [exact Htext |]. split; [exact Hsets |].
  split; [exact Hwr |].
  rewrite (read_ids_listing _ (kept_tokens _ _ (read_ids_tokens text))).
  split; [reflexivity |]. split; [| reflexivity].
  intros sid. unfold FilterSpec.kept.
  rewrite list_elem_of_In, filter_In, <- list_elem_of_In, negb_true_iff,
    bool_decide_eq_false.
  unfold FilterSpec.union_of. rewrite elem_of_union, elem_of_union_list.
  rewrite Forall_forall. split.
  - intros [Hin Hno]. split; [exact Hin |]. split.
    + intros Hs. apply Hno. by left.
    + intros S HS Hs. apply Hno. right. by exists S.
  - intros (Hin & Hno1 & Hno2). split; [exact Hin |].
    intros [Hs | (S & HS & Hs)]; [by apply Hno1 | by apply (Hno2 S)].
Qed.

(** X2 (filter.py, apply and removed_count): the report counts the cohort
    entries: [final_count] those kept, [removed_count] those whose
    identifier is excluded, and they add up to [original_count];
    [exclusion_count] is the size of the exclusion set, whether its
    identifiers are in the cohort or not. *)
Theorem apply_counts cohort_path exclusion_paths exclusion_set output_path
    w w' rep :
  Filter.apply csv_reader cohort_path exclusion_paths exclusion_set
    output_path w = (w', Ok rep) ->
  exists text sets,
    FS.lookup (disk w) (Path.parse cohort_path) = Some (FS.File text)
    /\ Forall2 (fun ep S =>
                  Filter.load_exclusion_set csv_reader ep 0 true "," w
                  = (w, Ok S))
         (default [] exclusion_paths) sets
    /\ Filter.original_count rep = length (Filter.read_ids text)
    /\ Filter.removed_count rep
       = Z.of_nat
           (length
              (List.filter
                 (fun sid =>
                    bool_decide (sid ∈ FilterSpec.union_of exclusion_set sets))
                 (Filter.read_ids text)))
    /\ (Z.of_nat (Filter.final_count rep) + Filter.removed_count rep
        = Z.of_nat (Filter.original_count rep))%Z
    /\ Filter.final_count rep <= Filter.original_count rep
    /\ Filter.exclusion_count rep
       = size (FilterSpec.union_of exclusion_set sets).
Proof.
  intros H. apply apply_ok in H as (text & sets & Htext & Hsets & -> & _).
  exists text, sets. split; [exact Htext |]. split; [exact Hsets |].
  unfold Filter.removed_count, FilterSpec.kept. cbn.
  set (E := FilterSpec.union_of exclusion_set sets).
  set (ids := Filter.read_ids text).
  pose proof (List.filter_length (fun sid => bool_decide (sid ∈ E)) ids) as Hl.
  assert (Hk : length (List.filter (fun sid => negb (bool_decide (sid ∈ E))) ids)
               <= length ids) by apply List.filter_length_le.
  repeat split; try reflexivity; lia.
Qed.

(** X3 (filter.py, apply): if one of the exclusion files does not load,
    because it is missing for instance, the run raises and writes
    nothing: no list is written from part of the exclusions. *)
Theorem apply_needs_every_exclusion_list cohort_path exclusion_paths
    exclusion_set output_path w ep e0 :
  ep ∈ exclusion_paths ->
  Filter.load_exclusion_set csv_reader ep 0 true "," w = (w, Fail e0) ->
  exists e,
    Filter.apply csv_reader cohort_path (Some exclusion_paths) exclusion_set
      output_path w = (w, Fail e).
Proof.
  intros Hin Hfail. unfold Filter.apply, pbind at 1, lift, OS.exists_.
  destruct (FS.exists_ (disk w) (Path.parse cohort_path)); cbn [negb];
    [| by eexists].
  assert (Ht : Py.truthy_list (Some exclusion_paths) = true).
  { destruct exclusion_paths; [by apply elem_of_nil in Hin | done]. }
  rewrite Ht. cbn [default].
  destruct (load_all_fails csv_reader exclusion_paths (default ∅ exclusion_set)
              w ep e0 Hin Hfail) as [e He].
  exists e. by rewrite (pbind_of_fail _ _ _ _ _ He).
Qed.

(** A missing exclusion file does not load. *)
Lemma load_missing filepath id_column has_header delimiter w :
  FS.exists_ (disk w) (Path.parse filepath) = false ->
  Filter.load_exclusion_set csv_reader filepath id_column has_header
    delimiter w = (w, Fail (Os FileNotFoundError)).
Proof.
  intros H. unfold Filter.load_exclusion_set, pbind, lift, OS.exists_.
  by rewrite H.
Qed.

End FilterRun.

Lemma apply_writes_the_unexcluded_witness :
  exists text sets out_text,
    FS.lookup FilterDemo.disk (Path.parse "cohort.txt") = Some (FS.File text)
    /\ Forall2 (fun ep S =>
                  Filter.load_exclusion_set Csv.reader ep 0 true ","
                    FilterDemo.world = (FilterDemo.world, Ok S))
         ["exclusions.csv"] sets
    /\ FS.lookup
         (disk (Filter.apply Csv.reader "cohort.txt" (Some ["exclusions.csv"])
                  None (Some "out/filtered.txt") FilterDemo.world).1)
         (Path.parse "out/filtered.txt") = Some (FS.File out_text)
    /\ Filter.read_ids out_text
       = List.filter
           (fun sid =>
              negb (bool_decide (sid ∈ FilterSpec.union_of None sets)))
           (Filter.read_ids text)
    /\ (forall sid,
          sid ∈ Filter.read_ids out_text
          <-> sid ∈ Filter.read_ids text
              /\ (sid ∉ (∅ : gset string))
              /\ Forall (fun S : gset string => sid ∉ S) sets)
    /\ 2 = length (Filter.read_ids out_text).
Proof.
  apply (apply_writes_the_unexcluded Csv.reader "cohort.txt"
           (Some ["exclusions.csv"]) None "out/filtered.txt" FilterDemo.world
           _ {| Filter.original_count := 4; Filter.exclusion_count := 2;
                Filter.final_count := 2; Filter.exclusion_reasons := ∅ |}).
  - discriminate.
  - vm_compute. reflexivity.
Defined.

Lemma apply_counts_witness :
  exists text sets,
    FS.lookup FilterDemo.disk (Path.parse "cohort.txt") = Some (FS.File text)
    /\ Forall2 (fun ep S =>
                  Filter.load_exclusion_set Csv.reader ep 0 true ","
                    FilterDemo.world = (FilterDemo.world, Ok S))
         ["exclusions.csv"] sets
    /\ 4 = length (Filter.read_ids text)
    /\ 2%Z
       = Z.of_nat
           (length
              (List.filter
                 (fun sid =>
                    bool_decide
                      (sid ∈ FilterSpec.union_of (Some {[ "S009" ]}) sets))
                 (Filter.read_ids text)))
    /\ (Z.of_nat 2 + 2 = Z.of_nat 4)%Z
    /\ 2 <= 4
    /\ 3 = size (FilterSpec.union_of (Some {[ "S009" ]}) sets).
Proof.
  apply (apply_counts Csv.reader "cohort.txt" (Some ["exclusions.csv"])
           (Some {[ "S009" ]}) None FilterDemo.world FilterDemo.world
           {| Filter.original_count := 4; Filter.exclusion_count := 3;
              Filter.final_count := 2; Filter.exclusion_reasons := ∅ |}).
  vm_compute. reflexivity.
Defined.

Lemma apply_needs_every_exclusion_list_witness :
  exists e,
    Filter.apply Csv.reader "cohort.txt"
      (Some ["exclusions.csv"; "withdrawn.csv"]) None
      (Some "out/filtered.txt") FilterDemo.world = (FilterDemo.world, Fail e).
Proof.
  apply (apply_needs_every_exclusion_list Csv.reader "cohort.txt"
           ["exclusions.csv"; "withdrawn.csv"] None (Some "out/filtered.txt")
           FilterDemo.world "withdrawn.csv" (Os FileNotFoundError)).
  - apply list_elem_of_In. cbn. auto.
  - vm_compute. reflexivity.
Defined.

Lemma filter_twice {A} (f : A -> bool) (l : list A) :
  List.filter f (List.filter f l) = List.filter f l.
Proof.
  induction l as [|x l IH]; [done |]. cbn. destruct (f x) eqn:E; [| exact IH].
  cbn. by rewrite E, IH.
Qed.

Section FilterAgain.

Variable csv_reader : CsvReader.

(** X4 (filter.py, apply): filtering the list that a run has written, with
    the exclusion set of that run, removes nothing more: the second report
    counts as many identifiers before as after. *)
Theorem apply_again_removes_nothing cohort_path exclusion_paths exclusion_set
    output_path w w' rep :
  output_path <> "" ->
  Filter.apply csv_reader cohort_path exclusion_paths exclusion_set
    (Some output_path) w = (w', Ok rep) ->
  exists sets rep',
    Forall2 (fun ep S =>
               Filter.load_exclusion_set csv_reader ep 0 true "," w
               = (w, Ok S))
      (default [] exclusion_paths) sets
    /\ Filter.apply csv_reader output_path None
         (Some (FilterSpec.union_of exclusion_set sets)) None w'
       = (w', Ok rep')
    /\ Filter.original_count rep' = Filter.final_count rep
    /\ Filter.final_count rep' = Filter.final_count rep
    /\ Filter.removed_count rep' = 0%Z.
Proof.
  intros Hne H.
  apply apply_ok in H as (text & sets & Htext & Hsets & -> & Hout).
  assert (Ht : Merge.truthy (Some output_path) = true).
  { cbn. by destruct (String.eqb_spec output_path "") as [-> | _]. }
  rewrite Ht in Hout. destruct Hout as (w1 & _ & Hwr).
  change (default "" (Some output_path)) with output_path in Hwr.
  apply write_then_lookup in Hwr.
  set (E := FilterSpec.union_of exclusion_set sets) in *.
  set (kept := FilterSpec.kept E (Filter.read_ids text)) in *.
  exists sets. eexists. split; [exact Hsets |].
  split.
  { unfold Filter.apply, pbind at 1, lift, OS.exists_, FS.exists_.
    rewrite Hwr. cbn [negb Py.truthy_list default].
    unfold pbind at 1, pret. unfold pbind at 1, lift, OS.read. rewrite Hwr.
    cbn [Merge.truthy]. unfold pbind, pret. reflexivity. }
  assert (Hk : Filter.read_ids (FilterSpec.listing kept) = kept).
  { apply read_ids_listing, kept_tokens, read_ids_tokens. }
  assert (Hf : List.filter (fun sid => negb (bool_decide (sid ∈ E))) kept
               = kept) by apply filter_twice.
  unfold Filter.removed_count. cbn. rewrite Hk.
  change (FilterSpec.union_of exclusion_set sets) with E. rewrite Hf.
  repeat split; lia.
Qed.

(** [l[i]] exists for an index within the list. *)
Lemma index_in_range {A} (l : list A) (i : Z) :
  (0 <= i)%Z -> (i < Z.of_nat (length l))%Z ->
  exists x, Py.index l i = Some x /\ l !! Z.to_nat i = Some x.
Proof.
  intros H0 Hlen. unfold Py.index.
  destruct (Z.leb_spec 0 i) as [_ | ?]; [| lia].
  destruct (lookup_lt_is_Some_2 l (Z.to_nat i)) as [x Hx]; [lia |].
  by exists x.
Qed.



(** The two loops side by side. *)
Lemma add_reasons_keys id_column reason_column rows mapping mapping' ids :
  (0 <= id_column)%Z ->
  Filter.add_reasons id_column reason_column rows mapping = Ok mapping' ->
  dom mapping ⊆ ids ->
  exists ids',
    Filter.add_ids id_column rows ids = Ok ids' /\ dom mapping' ⊆ ids'.
Proof.
  intros H0. revert mapping ids.
  induction rows as [|row rest IH]; intros mapping ids H Hsub.
  - injection H as <-. by exists ids.
  - cbn [Filter.add_reasons Filter.add_ids] in *.
    destruct (bool_decide (row = [])) eqn:Hrow; cbn [negb andb] in *;
      [by apply (IH mapping) |].
    destruct (Z.ltb_spec (Z.max id_column reason_column)
                (Z.of_nat (length row))) as [Hmax | Hmax].
    + destruct (Z.ltb_spec id_column (Z.of_nat (length row))) as [_ | ?];
        [| lia].
      destruct (Py.index row reason_column) as [reason |]; [| discriminate H].
      destruct (Py.index row id_column) as [field |]; [| discriminate H].
      apply (IH _ _ H). rewrite dom_insert_L. by apply union_mono_l.
    + destruct (Z.ltb_spec id_column (Z.of_nat (length row))) as [Hlt | _].
      * destruct (index_in_range row id_column H0 Hlt) as (field & -> & _).
        apply (IH _ _ H). etrans; [exact Hsub | apply union_subseteq_r].
      * by apply (IH mapping).
Qed.

(** X6 (filter.py, load_exclusion_set_with_reasons): for a column of
    identifiers that is not negative, every identifier that has a reason is
    also in the set that [load_exclusion_set] reads from the same file; a
    row without the reason column is in the set only. *)
Theorem reasons_are_for_loaded_ids filepath id_column reason_column has_header
    delimiter w w' mapping :
  (0 <= id_column)%Z ->
  Filter.load_exclusion_set_with_reasons csv_reader filepath id_column
    reason_column has_header delimiter w = (w', Ok mapping) ->
  exists ids,
    Filter.load_exclusion_set csv_reader filepath id_column has_header
      delimiter w = (w, Ok ids)
    /\ dom mapping ⊆ ids.
Proof.
  intros H0 H. unfold Filter.load_exclusion_set_with_reasons in H.
  unfold Filter.load_exclusion_set.
  apply pbind_ok in H as (present & w0 & Hex & H).
  rewrite (pbind_of_ok _ _ _ _ _ Hex).
  destruct present; cbn [negb] in *; [| discriminate H].
  apply pbind_ok in H as (text & w1 & Hread & H).
  rewrite (pbind_of_ok _ _ _ _ _ Hread).
  pose proof (reads_only_exists _ _ _ _ Hex) as ->.
  pose proof (reads_only_read _ _ _ _ Hread) as ->.
  apply pbind_ok in H as (m & w2 & Hm & H).
  unfold of_result in Hm. injection Hm as <- Hm.
  destruct (add_reasons_keys _ _ _ _ _ ∅ H0 Hm) as (ids & Hids & Hsub);
    [by rewrite dom_empty |].
  unfold pbind at 1, of_result. rewrite Hids.
  destruct (raises (csv_reader delimiter text)); [discriminate H |].
  injection H as <- <-. by exists ids.
Qed.

End FilterAgain.

Lemma apply_again_removes_nothing_witness :
  exists sets rep',
    Forall2 (fun ep S =>
               Filter.load_exclusion_set Csv.reader ep 0 true ","
                 FilterDemo.world = (FilterDemo.world, Ok S))
      ["exclusions.csv"] sets
    /\ Filter.apply Csv.reader "out/filtered.txt" None
         (Some (FilterSpec.union_of None sets)) None
         (Filter.apply Csv.reader "cohort.txt" (Some ["exclusions.csv"]) None
            (Some "out/filtered.txt") FilterDemo.world).1
       = ((Filter.apply Csv.reader "cohort.txt" (Some ["exclusions.csv"]) None
             (Some "out/filtered.txt") FilterDemo.world).1, Ok rep')
    /\ Filter.original_count rep' = 2
    /\ Filter.final_count rep' = 2
    /\ Filter.removed_count rep' = 0%Z.
Proof.
  apply (apply_again_removes_nothing Csv.reader "cohort.txt"
           (Some ["exclusions.csv"]) None "out/filtered.txt" FilterDemo.world
           _ {| Filter.original_count := 4; Filter.exclusion_count := 2;
                Filter.final_count := 2; Filter.exclusion_reasons := ∅ |}).
  - discriminate.
  - vm_compute. reflexivity.
Defined.


Lemma reasons_are_for_loaded_ids_witness :
  exists ids,
    Filter.load_exclusion_set Csv.reader "exclusions.csv" 0 true ","
      FilterDemo.world = (FilterDemo.world, Ok ids)
    /\ dom ({[ "S001" := "GenderMismatch"; "S002" := "Withdrawal" ]}
              : gmap string string) ⊆ ids.
Proof.
  apply (reasons_are_for_loaded_ids Csv.reader "exclusions.csv" 0 1 true ","
           FilterDemo.world FilterDemo.world).
  - lia.
  - vm_compute. reflexivity.
Defined.

(** The cases of [tests/test_filter.py]. *)
Example test_load_exclusion_set :
  (Filter.load_exclusion_set Csv.reader "exclusions.csv" 0 true ","
     FilterDemo.world).2 = Ok {[ "S001"; "S002" ]}.
Proof. vm_compute. reflexivity. Qed.

Example test_apply_basic :
  exists w' rep,
    Filter.apply Csv.reader "cohort.txt" (Some ["exclusions.csv"]) None
      (Some "filtered.txt") FilterDemo.world = (w', Ok rep)
    /\ Filter.original_count rep = 4
    /\ Filter.final_count rep = 2
    /\ Str.lines (Demo.read_file (disk w') "filtered.txt") = ["S003"; "S004"].
Proof.
  eexists _, _. split; [vm_compute; reflexivity |].
  repeat split; vm_compute; reflexivity.
Qed.

Example test_missing_cohort_raises :
  Filter.apply Csv.reader "/nonexistent/file.txt" None None None
    FilterDemo.world = (FilterDemo.world, Fail (Os FileNotFoundError)).
Proof. reflexivity. Qed.

(** A negative column counts from the end of each row, and a row that is
    too short for it raises [IndexError]: the guard of line 89 lets it
    through. *)
Example negative_column_raises :
  (Filter.load_exclusion_set Csv.reader "exclusions.csv" (-1) true ","
     FilterDemo.world).2 = Ok {[ "GenderMismatch"; "Withdrawal" ]}
  /\ (Filter.load_exclusion_set Csv.reader "exclusions.csv" (-3) true ","
        FilterDemo.world).2 = Fail IndexError.
Proof. split; vm_compute; reflexivity. Qed.

(** ** The order of the manifest *)

Lemma ascii_compare_refl a : Ascii.compare a a = Eq.
Proof. unfold Ascii.compare. apply N.compare_refl. Qed.

Lemma ascii_compare_lt_trans a b c :
  Ascii.compare a b = Lt -> Ascii.compare b c = Lt -> Ascii.compare a c = Lt.
Proof.
  unfold Ascii.compare. rewrite !N.compare_lt_iff. apply N.lt_trans.
Qed.

Lemma compare_not_gt_trans s1 s2 s3 :
  String.compare s1 s2 <> Gt -> String.compare s2 s3 <> Gt ->
  String.compare s1 s3 <> Gt.
Proof.
  revert s2 s3. induction s1 as [|a s1 IH]; intros [|b s2] [|c s3]; cbn;
    try done.
  destruct (Ascii.compare a b) eqn:Eab; [| | done];
    destruct (Ascii.compare b c) eqn:Ebc; try done.
  - apply Ascii.compare_eq_iff in Eab as ->.
    apply Ascii.compare_eq_iff in Ebc as ->.
    rewrite ascii_compare_refl. apply IH.
  - apply Ascii.compare_eq_iff in Eab as ->. by rewrite Ebc.
  - apply Ascii.compare_eq_iff in Ebc as <-. by rewrite Eab.
  - by rewrite (ascii_compare_lt_trans _ _ _ Eab Ebc).
Qed.

Lemma leb_not_gt s1 s2 :
  Manifest.str_le s1 s2 <-> String.compare s1 s2 <> Gt.
Proof.
  unfold Manifest.str_le, String.leb.
  destruct (String.compare s1 s2); cbn; split; done.
Qed.

Lemma str_le_trans : Transitive Manifest.str_le.
Proof.
  intros a b c. rewrite !leb_not_gt. apply compare_not_gt_trans.
Qed.

Lemma str_le_antisym : AntiSymm eq Manifest.str_le.
Proof.
  intros a b Hab%Is_true_true Hba%Is_true_true. by apply String.leb_antisym.
Qed.

Lemma str_le_total : Total Manifest.str_le.
Proof.
  intros a b. unfold Manifest.str_le.
  destruct (String.leb_total a b) as [H | H]; rewrite H; cbn; auto.
Qed.

Lemma by_name_total :
  Total (fun p q => Manifest.str_le (Path.name p) (Path.name q)).
Proof. intros p q. apply str_le_total. Qed.

Lemma strongly_sorted_filter {A} (R : relation A) (f : A -> bool) l :
  StronglySorted R l -> StronglySorted R (List.filter f l).
Proof.
  induction 1 as [|a l _ IH Ha]; [constructor |]. cbn.
  destruct (f a); [| exact IH]. constructor; [exact IH |].
  apply Forall_forall. intros x [Hx _]%list_elem_of_In%filter_In.
  rewrite Forall_forall in Ha. by apply Ha, list_elem_of_In.
Qed.


Lemma sum_permutation (l1 l2 : list nat) :
  l1 ≡ₚ l2 -> foldr Nat.add 0 l1 = foldr Nat.add 0 l2.
Proof. induction 1; cbn; lia. Qed.

Lemma filter_permutation {A} (f : A -> bool) (l1 l2 : list A) :
  l1 ≡ₚ l2 -> List.filter f l1 ≡ₚ List.filter f l2.
Proof.
  induction 1 as [| x l1 l2 _ IH | x y l | l1 l2 l3 _ IH1 _ IH2]; cbn.
  - done.
  - destruct (f x); [by constructor | done].
  - destruct (f x), (f y); try done. apply perm_swap.
  - by etrans.
Qed.

Section ManifestOrder.

Variable md5_hex sha256_hex : string -> string.

(** What [generate] returns for a directory: the records of the allowed
    names, taken in ascending order. *)
Lemma generate_files delivery_dir project_id exclude_patterns w es :
  FS.lookup (disk w) (Path.parse delivery_dir) = Some (FS.Dir es) ->
  Spec.names_ok es ->
  exists m cs,
    Manifest.generate md5_hex sha256_hex delivery_dir project_id
      exclude_patterns w = (w, Return m)
    /\ Manifest.files m
       = (Spec.record md5_hex sha256_hex es
          <$> List.filter
                (Spec.allowed (Manifest.exclusions exclude_patterns) es) cs)
    /\ cs ≡ₚ FS.names es
    /\ StronglySorted Manifest.str_le cs.
Proof.
  intros Hdir Hok.
  set (directory := Path.parse delivery_dir) in *.
  set (exclude := Manifest.exclusions exclude_patterns).
  destruct (permutation_of_fmap (Path.child directory)
              (Manifest.sorted_paths (Path.child directory <$> FS.names es))
              (FS.names es)) as (cs & Hsorted & Hperm).
  { apply merge_sort_Permutation. }
  assert (Hcs : Forall (fun c => is_Some (es !! c)) cs).
  { apply Forall_forall. intros c Hc. apply names_lookup. by rewrite <- Hperm. }
  destruct (visit_all_children md5_hex sha256_hex exclude w directory es Hdir
              (parse_well_formed _) Hok cs
              {| Manifest.project_id := project_id;
                 Manifest.delivery_date := Manifest.strftime_Y_m_d (now w);
                 Manifest.files := []; Manifest.metadata := ∅ |} Hcs)
    as (m & Hm & Hfiles & _).
  cbn [Manifest.files app] in Hfiles.
  exists m, cs. split; [| split; [exact Hfiles | split; [exact Hperm |]]].
  { unfold Manifest.generate. fold directory. fold exclude.
    unfold bind at 1, OS.is_dir, FS.is_dir. rewrite Hdir. cbn [negb].
    unfold bind at 1, OS.get_now. unfold bind at 1, OS.iterdir.
    rewrite Hdir. fold directory. by rewrite Hsorted. }
  apply (@sorting.Sorted_StronglySorted _ Manifest.str_le str_le_trans).
  assert (Hs : Sorted (fun p q => Manifest.str_le (Path.name p) (Path.name q))
                 (Path.child directory <$> cs)).
  { rewrite <- Hsorted. unfold Manifest.sorted_paths.
    apply (@Sorted_merge_sort _ _ _ by_name_total). }
  apply (Sorted_fmap Path.name _ Manifest.str_le) in Hs; [| done].
  rewrite <- list_fmap_compose in Hs.
  assert (He : Path.name ∘ Path.child directory <$> cs = cs).
  { clear. induction cs as [|c cs IH]; [done |].
    rewrite fmap_cons, IH. f_equal. apply name_child. }
  by rewrite He in Hs.
Qed.




End ManifestOrder.


(** ** Writing into a directory *)

Lemma make_dirs_existing ps n b :
  FS.find ps n = Some (FS.Dir b) -> FS.make_dirs ps n = inr n.
Proof.
  revert n. induction ps as [|c ps IH]; intros n.
  - cbn. by intros [= ->].
  - cbn. destruct n as [data | es]; [done |].
    destruct (es !! c) as [m |] eqn:E; [| done]. intros H. cbn.
    rewrite (IH _ H). by rewrite insert_id.
Qed.

Lemma put_child ps c new n es :
  FS.find ps n = Some (FS.Dir es) ->
  exists n',
    FS.put (ps ++ [c]) new n = inr n'
    /\ FS.find ps n' = Some (FS.Dir (<[c := new]> es)).
Proof.
  revert n. induction ps as [|q ps IH]; intros n.
  - cbn. intros [= ->]. by eexists.
  - cbn [FS.find]. destruct n as [data | es0]; [done |].
    destruct (es0 !! q) as [m |] eqn:E; [| done]. intros H.
    destruct (IH _ H) as (m' & Hput & Hfind).
    exists (FS.Dir (<[q := m']> es0)). split.
    + change ((q :: ps) ++ [c]) with (q :: (ps ++ [c])). cbn [FS.put].
      destruct (ps ++ [c]) as [|x xs] eqn:Ex;
        [by destruct ps; discriminate Ex |].
      by rewrite E, Hput.
    + cbn [FS.find]. by rewrite lookup_insert_eq.
Qed.

Lemma locate_child fs p c :
  String.eqb c ".." = false ->
  FS.locate fs (Path.child p c) = FS.locate fs p ++ [c].
Proof.
  intros Hc. unfold FS.locate.
  change (Path.is_absolute (Path.child p c)) with (Path.is_absolute p).
  cbn [Path.child Path.parts]. by apply lexical_snoc.
Qed.

Lemma parent_child p c : Py.parent (Path.child p c) = p.
Proof.
  destruct p as [a ps]. unfold Py.parent, Path.child. cbn.
  by rewrite removelast_last.
Qed.

Lemma set_root_same w : set_root (FS.root (disk w)) w = w.
Proof. by destruct w as [[r c d] n s]. Qed.

Lemma mkdir_existing p b w :
  FS.lookup (disk w) p = Some (FS.Dir b) ->
  OS.mkdir_parents_exist_ok p w = (w, Return tt).
Proof.
  unfold FS.lookup, OS.mkdir_parents_exist_ok. intros H.
  by rewrite (make_dirs_existing _ _ _ H), set_root_same.
Qed.

Lemma lookup_set_root n w p :
  FS.lookup (disk (set_root n w)) p = FS.find (FS.locate (disk w) p) n.
Proof. reflexivity. Qed.

(** Writing the entry [c] of a directory replaces that entry and nothing
    else of the directory. *)
Lemma write_child dir c data w es :
  FS.lookup (disk w) dir = Some (FS.Dir es) ->
  FS.valid_name c = true ->
  (forall sub, es !! c <> Some (FS.Dir sub)) ->
  exists w',
    OS.write (Path.child dir c) data w = (w', Return tt)
    /\ FS.lookup (disk w') dir = Some (FS.Dir (<[c := FS.File data]> es))
    /\ now w' = now w /\ started w' = started w.
Proof.
  intros Hdir Hv Hnd.
  pose proof (valid_name_not_dotdot _ Hv) as Hc.
  destruct (put_child _ c (FS.File data) _ _ Hdir) as (n' & Hput & Hfind).
  exists (set_root n' w). unfold OS.write.
  rewrite (lookup_child _ _ _ _ Hdir Hc), (locate_child _ _ _ Hc), Hput.
  split; [| by rewrite lookup_set_root].
  destruct (es !! c) as [[d | sub] |] eqn:E; try reflexivity.
  by destruct (Hnd sub).
Qed.

(** The same for a file that is opened through the string of its path,
    after [path.parent.mkdir(parents=True, exist_ok=True)]. *)
Lemma write_entry dir c data w es :
  Spec.well_formed dir ->
  FS.lookup (disk w) dir = Some (FS.Dir es) ->
  FS.valid_name c = true ->
  (forall sub, es !! c <> Some (FS.Dir sub)) ->
  exists w',
    (let* _ := OS.mkdir_parents_exist_ok
                 (Py.parent (Path.parse (Path.str (Path.join dir c)))) in
     OS.write (Path.parse (Path.str (Path.join dir c))) data) w
    = (w', Return tt)
    /\ FS.lookup (disk w') dir = Some (FS.Dir (<[c := FS.File data]> es))
    /\ now w' = now w /\ started w' = started w.
Proof.
  intros Hwf Hdir Hv Hnd.
  destruct (valid_name_component _ Hv) as [Hs Hk].
  rewrite (join_component _ _ Hs Hk).
  rewrite (parse_str (Path.child dir c))
    by (apply child_well_formed; [exact Hwf | by split]).
  rewrite parent_child.
  rewrite (bind_of_return _ _ _ _ _ (mkdir_existing _ _ _ Hdir)).
  by apply write_child.
Qed.

(** ** The manifest and the files written next to the data *)

Lemma default_tokens_exclude_reports c :
  c = ManifestSpec.manifest_name \/ c = ManifestSpec.status_name ->
  Manifest.excluded (Manifest.exclusions None) c = true.
Proof. intros [-> | ->]; vm_compute; reflexivity. Qed.

Lemma allowed_after_reports es t1 t2 c :
  Spec.allowed (Manifest.exclusions None)
    (<[ManifestSpec.status_name := FS.File t2]>
       (<[ManifestSpec.manifest_name := FS.File t1]> es)) c
  = Spec.allowed (Manifest.exclusions None) es c.
Proof.
  unfold Spec.allowed.
  destruct (decide (c = ManifestSpec.status_name)) as [-> | Hs].
  { rewrite lookup_insert_eq, default_tokens_exclude_reports by auto.
    by destruct (es !! ManifestSpec.status_name) as [[d | sub] |]. }
  rewrite lookup_insert_ne by done.
  destruct (decide (c = ManifestSpec.manifest_name)) as [-> | Hm].
  { rewrite lookup_insert_eq, default_tokens_exclude_reports by auto.
    by destruct (es !! ManifestSpec.manifest_name) as [[d | sub] |]. }
  by rewrite lookup_insert_ne.
Qed.

Lemma record_after_reports md5_hex sha256_hex es t1 t2 c :
  Spec.allowed (Manifest.exclusions None) es c = true ->
  Spec.record md5_hex sha256_hex
    (<[ManifestSpec.status_name := FS.File t2]>
       (<[ManifestSpec.manifest_name := FS.File t1]> es)) c
  = Spec.record md5_hex sha256_hex es c.
Proof.
  intros Ha. unfold Spec.record.
  assert (Hne : c <> ManifestSpec.status_name
                /\ c <> ManifestSpec.manifest_name).
  { unfold Spec.allowed in Ha.
    split; intros ->;
      rewrite default_tokens_exclude_reports in Ha by auto;
      by destruct (es !! _) as [[d | sub] |]. }
  destruct Hne as [Hs Hm]. by rewrite !lookup_insert_ne.
Qed.

Lemma elem_of_allowed exclude es cs c :
  cs ≡ₚ FS.names es ->
  c ∈ List.filter (Spec.allowed exclude es) cs
  <-> Spec.allowed exclude es c = true.
Proof.
  intros Hperm. rewrite list_elem_of_In, filter_In, <- list_elem_of_In.
  rewrite Hperm, names_lookup. split; [tauto |]. intros Ha.
  split; [| exact Ha]. unfold Spec.allowed in Ha.
  destruct (es !! c); [by eexists | discriminate].
Qed.

Lemma nodup_allowed exclude es cs :
  cs ≡ₚ FS.names es -> NoDup (List.filter (Spec.allowed exclude es) cs).
Proof.
  intros Hperm. apply NoDup_ListNoDup, List.NoDup_filter, NoDup_ListNoDup.
  rewrite Hperm. apply NoDup_fst_map_to_list.
Qed.

Section ManifestGuard.

Variable md5_hex sha256_hex : string -> string.
Variable csv_writerow : CsvWriter.
Variable encodable : string -> bool.

Lemma encoded_all lines :
  forallb encodable lines = true -> Report.encoded encodable lines = lines.
Proof.
  induction lines as [|l lines IH]; [done |]. cbn.
  intros [Hl Hr]%andb_true_iff. by rewrite Hl, IH.
Qed.

(** Writing the lines of the entry [c] of a directory: the entry holds
    the lines that could be encoded, and the call fails when one could
    not. *)
Lemma write_lines_entry dir c lines w es :
  Spec.well_formed dir ->
  FS.lookup (disk w) dir = Some (FS.Dir es) ->
  FS.valid_name c = true ->
  (forall sub, es !! c <> Some (FS.Dir sub)) ->
  exists w',
    (let+ _ := lift (OS.mkdir_parents_exist_ok
                       (Py.parent (Path.parse (Path.str (Path.join dir c))))) in
     Report.write_lines encodable (Path.parse (Path.str (Path.join dir c)))
       lines) w
    = (w', if forallb encodable lines then Ok tt else Fail UnicodeEncodeError)
    /\ FS.lookup (disk w') dir
       = Some (FS.Dir (<[c := FS.File
                                (Str.join "" (Report.encoded encodable lines))]>
                         es))
    /\ now w' = now w /\ started w' = started w.
Proof.
  intros Hwf Hdir Hv Hnd.
  destruct (write_entry dir c (Str.join "" (Report.encoded encodable lines))
              w es Hwf Hdir Hv Hnd) as (w' & Hw & Hl & Hn & Hs).
  exists w'. split; [| by repeat split].
  unfold bind in Hw. unfold pbind at 1, lift at 1.
  destruct (OS.mkdir_parents_exist_ok _ w) as [w0 [[] | e]];
    [| discriminate Hw].
  unfold Report.write_lines, pbind, lift. rewrite Hw.
  by destruct (forallb encodable lines).
Qed.

(** X8: once the manifest of a directory is generated, writing it to
    MANIFEST.tsv and its summary to STATUS_SUMMARY.tsv in that directory,
    as the pipeline does, succeeds when neither name is taken by a
    subdirectory and the encoding of the files has a code for every row;
    both files then hold the text of the writers, and a manifest
    generated afterwards with the default tokens lists the same files
    with the same records: the two reports never enter the manifest. *)
Theorem reports_stay_out_of_the_manifest delivery_dir project_id extra w es m :
  FS.lookup (disk w) (Path.parse delivery_dir) = Some (FS.Dir es) ->
  Spec.names_ok es ->
  (forall sub, es !! ManifestSpec.manifest_name <> Some (FS.Dir sub)) ->
  (forall sub, es !! ManifestSpec.status_name <> Some (FS.Dir sub)) ->
  Manifest.generate md5_hex sha256_hex delivery_dir project_id None w
  = (w, Return m) ->
  forallb encodable (Report.manifest_rows csv_writerow m) = true ->
  forallb encodable (Report.status_rows csv_writerow m extra) = true ->
  exists w1 w2 m',
    Report.write_manifest csv_writerow encodable m
      (Path.str (Path.join (Path.parse delivery_dir) "MANIFEST.tsv")) w
    = (w1, Ok tt)
    /\ Report.write_status_summary csv_writerow encodable m
         (Path.str (Path.join (Path.parse delivery_dir) "STATUS_SUMMARY.tsv"))
         extra w1
       = (w2, Ok tt)
    /\ FS.lookup (disk w2)
         (Path.child (Path.parse delivery_dir) "MANIFEST.tsv")
       = Some (FS.File (Report.manifest_text csv_writerow m))
    /\ FS.lookup (disk w2)
         (Path.child (Path.parse delivery_dir) "STATUS_SUMMARY.tsv")
       = Some (FS.File (Report.status_text csv_writerow m extra))
    /\ Manifest.generate md5_hex sha256_hex delivery_dir project_id None w2
       = (w2, Return m')
    /\ Manifest.files m' = Manifest.files m.
Proof.
  intros Hdir Hok Hnm Hns Hgen He1 He2.
  set (dir := Path.parse delivery_dir) in *.
  destruct (generate_files md5_hex sha256_hex delivery_dir project_id None
              w es Hdir Hok) as (m0 & cs & Hm & Hfiles & Hperm & Hsorted).
  rewrite Hgen in Hm. injection Hm as <-.
  set (t1 := Report.manifest_text csv_writerow m).
  set (t2 := Report.status_text csv_writerow m extra).
  destruct (write_lines_entry dir ManifestSpec.manifest_name
              (Report.manifest_rows csv_writerow m) w es
              (parse_well_formed _) Hdir eq_refl Hnm)
    as (w1 & H1 & Hl1 & Hn1 & _).
  rewrite He1 in H1. rewrite (encoded_all _ He1) in Hl1.
  fold (Report.manifest_text csv_writerow m) in Hl1. fold t1 in Hl1.
  set (es1 := <[ManifestSpec.manifest_name := FS.File t1]> es) in *.
  assert (Hns1 : forall sub, es1 !! ManifestSpec.status_name
                             <> Some (FS.Dir sub)).
  { intros sub. unfold es1. rewrite lookup_insert_ne by done. apply Hns. }
  destruct (write_lines_entry dir ManifestSpec.status_name
              (Report.status_rows csv_writerow m extra) w1 es1
              (parse_well_formed _) Hl1 eq_refl Hns1)
    as (w2 & H2 & Hl2 & Hn2 & _).
  rewrite He2 in H2. rewrite (encoded_all _ He2) in Hl2.
  fold (Report.status_text csv_writerow m extra) in Hl2. fold t2 in Hl2.
  set (es2 := <[ManifestSpec.status_name := FS.File t2]> es1) in *.
  assert (Hok2 : Spec.names_ok es2).
  { intros c n. unfold es2, es1.
    destruct (decide (c = ManifestSpec.status_name)) as [-> | Hs]; [done |].
    rewrite lookup_insert_ne by done.
    destruct (decide (c = ManifestSpec.manifest_name)) as [-> | Hc]; [done |].
    rewrite lookup_insert_ne by done. apply Hok. }
  destruct (generate_files md5_hex sha256_hex delivery_dir project_id None
              w2 es2 Hl2 Hok2) as (m' & cs' & Hm' & Hfiles' & Hperm' & Hsorted').
  exists w1, w2, m'.
  split; [exact H1 |]. split; [exact H2 |].
  split; [| split; [| split; [exact Hm' |]]].
  - rewrite (lookup_child _ _ _ _ Hl2) by reflexivity.
    unfold es2, es1. rewrite lookup_insert_ne by done.
    apply lookup_insert_eq.
  - rewrite (lookup_child _ _ _ _ Hl2) by reflexivity.
    apply lookup_insert_eq.
  - rewrite Hfiles, Hfiles'.
    assert (Hl : List.filter (Spec.allowed (Manifest.exclusions None) es2) cs'
                 = List.filter (Spec.allowed (Manifest.exclusions None) es) cs).
    { apply (@StronglySorted_unique _ Manifest.str_le str_le_antisym);
        [by apply strongly_sorted_filter | by apply strongly_sorted_filter |].
      apply NoDup_Permutation; [by apply nodup_allowed..|].
      intros c. rewrite (elem_of_allowed _ _ _ _ Hperm),
        (elem_of_allowed _ _ _ _ Hperm').
      unfold es2, es1. by rewrite allowed_after_reports. }
    rewrite Hl. apply list_fmap_ext. intros i c Hc.
    apply record_after_reports.
    apply (elem_of_allowed _ _ _ _ Hperm). by eapply list_elem_of_lookup_2.
Qed.

End ManifestGuard.

Lemma reports_stay_out_of_the_manifest_witness :
  exists w1 w2 m',
    Report.write_manifest CsvOut.writerow CsvOut.utf8 ReportDemo.manifest
      (Path.str (Path.join (Path.parse "delivery") "MANIFEST.tsv"))
      (Demo.world Demo.delivery_disk)
    = (w1, Ok tt)
    /\ Report.write_status_summary CsvOut.writerow CsvOut.utf8
         ReportDemo.manifest
         (Path.str (Path.join (Path.parse "delivery") "STATUS_SUMMARY.tsv"))
         None w1
       = (w2, Ok tt)
    /\ FS.lookup (disk w2) (Path.child (Path.parse "delivery") "MANIFEST.tsv")
       = Some (FS.File
                 (Report.manifest_text CsvOut.writerow ReportDemo.manifest))
    /\ FS.lookup (disk w2)
         (Path.child (Path.parse "delivery") "STATUS_SUMMARY.tsv")
       = Some (FS.File
                 (Report.status_text CsvOut.writerow ReportDemo.manifest None))
    /\ Manifest.generate Demo.fake_md5 Demo.fake_sha256 "delivery" "P1" None w2
       = (w2, Return m')
    /\ Manifest.files m' = Manifest.files ReportDemo.manifest.
Proof.
  apply (reports_stay_out_of_the_manifest Demo.fake_md5 Demo.fake_sha256
           CsvOut.writerow CsvOut.utf8 "delivery" "P1" None
           (Demo.world Demo.delivery_disk) Demo.delivery_entries).
  - vm_compute. reflexivity.
  - apply names_ok_check. vm_compute. reflexivity.
  - intros sub. vm_compute. discriminate.
  - intros sub. vm_compute. discriminate.
  - vm_compute. reflexivity.
  - vm_compute. reflexivity.
  - vm_compute. reflexivity.
Defined.

(** With an encoding that has no code for a character of a file name,
    here ASCII and an e acute, the manifest is generated but cannot be
    written: [write_manifest] raises [UnicodeEncodeError], and
    MANIFEST.tsv is left with the rows before the one of that file. *)
Example write_manifest_refused_name :
  exists m w1,
    Manifest.generate Demo.fake_md5 Demo.fake_sha256 "delivery" "P1" None
      (Demo.world ReportDemo.accented_disk)
    = (Demo.world ReportDemo.accented_disk, Return m)
    /\ Manifest.filename <$> Manifest.files m = ["a.txt"; ReportDemo.accented]
    /\ Report.write_manifest CsvOut.writerow CsvOut.ascii_only m
         "delivery/MANIFEST.tsv" (Demo.world ReportDemo.accented_disk)
       = (w1, Fail UnicodeEncodeError)
    /\ Str.lines (Demo.read_file (disk w1) "delivery/MANIFEST.tsv")
       = [("Filename" ++ Report.tab ++ "Size_Bytes" ++ Report.tab ++ "MD5"
           ++ Report.tab ++ "SHA256")%string;
          ("a.txt" ++ Report.tab ++ "3" ++ Report.tab ++ "md5:one"
           ++ Report.tab ++ "sha256:one")%string].
Proof.
  eexists _, _. split; [vm_compute; reflexivity |].
  split; [vm_compute; reflexivity |].
  split; vm_compute; reflexivity.
Qed.

(** ** Intermediate files of the batches *)

Lemma append_inv_r (s1 s2 t : string) :
  (s1 ++ t)%string = (s2 ++ t)%string -> s1 = s2.
Proof.
  revert s2. induction s1 as [|a s1 IH]; intros [|b s2]; [done | | |].
  - rewrite append_empty, append_cons. intros H.
    apply (f_equal String.length) in H. cbn in H.
    rewrite length_append in H. lia.
  - rewrite append_empty, append_cons. intros H.
    apply (f_equal String.length) in H. cbn in H.
    rewrite length_append in H. lia.
  - rewrite !append_cons. intros [= -> H]. by rewrite (IH _ H).
Qed.

Lemma name_component_or_empty s :
  Path.name (Path.parse s) = "" \/ Spec.component (Path.name (Path.parse s)).
Proof.
  destruct (parse_well_formed s) as [_ Hps]. unfold Path.name.
  induction Hps as [|c ps Hc _ IH]; [by left |].
  destruct ps as [|d ps]; [by right | exact IH].
Qed.

Lemma suffixed_component name suffix :
  name = "" \/ Spec.component name -> Spec.component suffix ->
  Spec.component (name ++ suffix).
Proof.
  intros [-> | [Hs Hk]] [Hs' Hk']; [by rewrite append_empty |].
  split; [by rewrite contains_slash_app, Hs, Hs' |].
  destruct name as [|a name]; [discriminate Hk |].
  destruct suffix as [|b suffix]; [discriminate Hk' |].
  rewrite append_cons.
  assert (Hlong : forall c d x, Path.keep_part (String c (String d x)) = true).
  { intros c d x. unfold Path.keep_part.
    change (String.eqb (String c (String d x)) ".")
      with (Ascii.eqb c "." && String.eqb (String d x) "").
    change (String.eqb (String d x) "") with false.
    by rewrite andb_false_r. }
  destruct name as [|a' name]; [rewrite append_empty | rewrite append_cons];
    apply Hlong.
Qed.

Lemma str_injective p q :
  Spec.well_formed p -> Spec.well_formed q -> Path.str p = Path.str q -> p = q.
Proof.
  intros Hp Hq H. by rewrite <- (parse_str p Hp), <- (parse_str q Hq), H.
Qed.

Lemma batch_out_child work_dir suffix bp :
  Spec.component suffix ->
  Merge.batch_out (Path.parse work_dir) suffix bp
  = Path.str (Path.child (Path.parse work_dir)
                (Path.name (Path.parse bp) ++ suffix))
    /\ Spec.well_formed
         (Path.child (Path.parse work_dir)
            (Path.name (Path.parse bp) ++ suffix)).
Proof.
  intros Hsuf.
  pose proof (suffixed_component _ _ (name_component_or_empty bp) Hsuf)
    as Hc.
  split; [| by apply child_well_formed; [apply parse_well_formed |]].
  unfold Merge.batch_out. destruct Hc as [Hs Hk].
  by rewrite (join_component _ _ Hs Hk).
Qed.

(** X9: the intermediate dataset of a batch is named after the last
    component of its prefix only.  Two batches get the same intermediate
    prefix in the working directory exactly when their prefixes end in
    the same name, wherever they lie: the later extraction then
    overwrites the earlier one. *)
Theorem batch_out_collides_on_names work_dir suffix bp1 bp2 :
  Spec.component suffix ->
  Merge.batch_out (Path.parse work_dir) suffix bp1
  = Merge.batch_out (Path.parse work_dir) suffix bp2
  <-> Path.name (Path.parse bp1) = Path.name (Path.parse bp2).
Proof.
  intros Hsuf.
  destruct (batch_out_child work_dir suffix bp1 Hsuf) as [-> Hw1].
  destruct (batch_out_child work_dir suffix bp2 Hsuf) as [-> Hw2].
  split.
  - intros H. apply (str_injective _ _ Hw1 Hw2) in H.
    injection H as H. apply app_inj_tail in H as [_ H].
    by apply append_inv_r in H.
  - by intros ->.
Qed.

Lemma batch_out_collides_on_names_witness :
  Merge.batch_out (Path.parse "work") "_subset" "run1/chr1"
  = Merge.batch_out (Path.parse "work") "_subset" "run2/chr1"
  <-> Path.name (Path.parse "run1/chr1") = Path.name (Path.parse "run2/chr1").
Proof.
  apply (batch_out_collides_on_names "work" "_subset" "run1/chr1" "run2/chr1").
  split; reflexivity.
Defined.

(** Two batches of different runs that share a file name: one
    intermediate dataset for both. *)
Example same_name_batches_share_a_subset :
  Spec.first_pass "plink" (Path.parse "work") ["run1/chr1"; "run2/chr1"] "k"
  = [["plink"; "--bfile"; "run1/chr1"; "--keep"; "k"; "--make-bed"; "--out";
      "work/chr1_subset"];
     ["plink"; "--bfile"; "run2/chr1"; "--keep"; "k"; "--make-bed"; "--out";
      "work/chr1_subset"]].
Proof. vm_compute. reflexivity. Qed.

(** ** The verdict of a merge report *)

Lemma lines_from_nonempty cur s :
  cur <> "" \/ s <> "" -> Str.lines_from cur s <> [].
Proof.
  revert cur. induction s as [|a s IH]; intros cur H.
  - destruct H as [H | H]; [| done]. cbn.
    destruct (String.eqb_spec cur ""); done.
  - cbn [Str.lines_from]. destruct (Ascii.eqb a Str.LF); [done |].
    destruct (Ascii.eqb a Str.CR).
    + destruct s as [|b s]; [done |]. by destruct (Ascii.eqb b Str.LF).
    + apply IH. left. by destruct cur.
Qed.

Section MergeVerdict.

Variable spawn : Spawn.
Variable plink_exec : string.

Lemma has_conflicts_true p w w1 :
  Merge.has_conflicts p w = (w1, Return true) ->
  w1 = w
  /\ forall data, FS.lookup (disk w) p = Some (FS.File data) -> data <> "".
Proof.
  unfold Merge.has_conflicts, bind, OS.exists_, OS.st_size, FS.exists_.
  destruct (FS.lookup (disk w) p) as [[data | sub] |] eqn:E.
  - rewrite E. cbn. intros [= <- H]. split; [reflexivity |].
    intros d [= <-] ->. discriminate H.
  - rewrite E. cbn. intros [= <- H]. split; [reflexivity |]. discriminate.
  - cbn. discriminate.
Qed.

Lemma count_lines_returns p w w1 n :
  Merge.count_lines p w = (w1, Return n) ->
  exists data,
    FS.lookup (disk w) p = Some (FS.File data) /\ n = length (Str.lines data).
Proof.
  unfold Merge.count_lines, bind, OS.read.
  destruct (FS.lookup (disk w) p) as [[data | sub] |]; [| discriminate..].
  cbn. intros [= <- <-]. by exists data.
Qed.

Lemma resolve_verdict wd bps keep out fa report w w' rep :
  Merge.resolve spawn plink_exec wd bps keep out fa report w
  = (w', Return rep) ->
  rep = report \/ exists n, 0 < n /\ rep = Merge.set_conflict n report.
Proof.
  unfold Merge.resolve. intros H.
  apply bind_returns in H as (b & w1 & Hc & H). destruct b.
  - right. apply has_conflicts_true in Hc as [-> Hne].
    unfold Merge.correct in H.
    apply bind_returns in H as (n & w2 & Hn & H).
    apply bind_returns in H as (cp & w3 & _ & H).
    apply bind_returns in H as (u & w4 & _ & H).
    apply bind_returns in H as (rc & w5 & _ & H).
    inversion H; subst. exists n. split; [| reflexivity].
    apply count_lines_returns in Hn as (data & Hd & ->).
    assert (Hl : Str.lines data <> [])
      by (apply lines_from_nonempty; right; by apply Hne).
    destruct (Str.lines data); [done | cbn; lia].
  - left. apply bind_returns in H as (u & w2 & _ & H). by inversion H.
Qed.

(** X10: the report of a merge that returns is consistent: it counts the
    batches it was given, it reports a correction exactly when it counts
    at least one conflict, a correction needs two batches, and with two
    batches or more the output prefix is the one asked for. *)
Theorem merge_report_is_consistent bps keep out work_dir convert w w' rep :
  Merge.merge spawn plink_exec bps keep out work_dir convert w
  = (w', Return rep) ->
  Merge.batch_count rep = length bps
  /\ (Merge.correction_applied rep = true
      <-> 0 < Merge.conflict_snp_count rep)
  /\ (Merge.correction_applied rep = true -> 2 <= length bps)
  /\ (2 <= length bps -> Merge.output_prefix rep = out).
Proof.
  unfold Merge.merge. intros H.
  apply bind_returns in H as (u & w1 & _ & H).
  apply bind_returns in H as (subsets & w2 & H2 & H).
  destruct (starts_extract_batches _ _ _ _ _ _ _ _ _ _ H2)
    as (tr1 & _ & _ & <-).
  rewrite length_fmap in H.
  destruct (Nat.ltb (length bps) 2) eqn:Hn.
  - apply Nat.ltb_lt in Hn. inversion H; subst.
    destruct bps as [|b1 bs]; cbn in *; repeat split; intros; try done;
      exfalso; lia.
  - apply Nat.ltb_ge in Hn.
    apply bind_returns in H as (fa & w3 & _ & H).
    apply bind_returns in H as (rep1 & w4 & H4 & H).
    destruct (starts_finish _ _ _ _ _ _ _ _ H)
      as (tr5 & _ & _ & (Hc & Hk & Hb) & Ho).
    rewrite Hc, Hk, Hb.
    destruct (resolve_verdict _ _ _ _ _ _ _ _ _ H4) as [-> | (n & Hpos & ->)];
      cbn; repeat split; intros; try done; lia.
Qed.

End MergeVerdict.

Lemma merge_report_is_consistent_witness :
  Merge.batch_count
    {| Merge.batch_count := 2; Merge.conflict_snp_count := 2;
       Merge.final_sample_count := 0; Merge.final_variant_count := 0;
       Merge.correction_applied := true; Merge.output_prefix := "out/final" |}
  = length ["data/b1"; "data/b2"]
  /\ (Merge.correction_applied
        {| Merge.batch_count := 2; Merge.conflict_snp_count := 2;
           Merge.final_sample_count := 0; Merge.final_variant_count := 0;
           Merge.correction_applied := true;
           Merge.output_prefix := "out/final" |}
      = true
      <-> 0 < Merge.conflict_snp_count
                {| Merge.batch_count := 2; Merge.conflict_snp_count := 2;
                   Merge.final_sample_count := 0;
                   Merge.final_variant_count := 0;
                   Merge.correction_applied := true;
                   Merge.output_prefix := "out/final" |})
  /\ (Merge.correction_applied
        {| Merge.batch_count := 2; Merge.conflict_snp_count := 2;
           Merge.final_sample_count := 0; Merge.final_variant_count := 0;
           Merge.correction_applied := true;
           Merge.output_prefix := "out/final" |}
      = true -> 2 <= length ["data/b1"; "data/b2"])
  /\ (2 <= length ["data/b1"; "data/b2"] ->
      Merge.output_prefix
        {| Merge.batch_count := 2; Merge.conflict_snp_count := 2;
           Merge.final_sample_count := 0; Merge.final_variant_count := 0;
           Merge.correction_applied := true;
           Merge.output_prefix := "out/final" |}
      = "out/final").
Proof.
  apply (merge_report_is_consistent (Demo.conflicting Demo.twice_rs1) "plink"
           ["data/b1"; "data/b2"] "keep.txt" "out/final" "work" true
           (Demo.world Demo.empty_disk)
           (Merge.merge (Demo.conflicting Demo.twice_rs1) "plink"
              ["data/b1"; "data/b2"] "keep.txt" "out/final" "work" true
              (Demo.world Demo.empty_disk)).1).
  vm_compute. reflexivity.
Defined.

(** ** Which command a failed merge names *)

Lemma os_only_blames {A} (c : M A) Q : MergeSpec.os_only c -> MergeSpec.blames c Q.
Proof. intros H w w' rc cmd Hc. by destruct (H _ _ _ _ Hc). Qed.

Lemma os_only_ret {A} (a : A) : MergeSpec.os_only (ret a).
Proof. intros w w' rc cmd. discriminate. Qed.

Lemma os_only_bind {A B} (c : M A) (k : A -> M B) :
  MergeSpec.os_only c -> (forall a, MergeSpec.os_only (k a)) ->
  MergeSpec.os_only (bind c k).
Proof.
  intros Hc Hk w w' rc cmd H.
  apply bind_cases in H as [(e & H & [= <-]) | (a & w1 & _ & H)].
  - by eapply Hc.
  - by eapply Hk.
Qed.

Lemma os_only_for_ {A} (xs : list A) (body : A -> M unit) :
  (forall x, MergeSpec.os_only (body x)) -> MergeSpec.os_only (for_ xs body).
Proof.
  intros Hb. induction xs as [|x xs IH]; [apply os_only_ret |].
  cbn [for_]. apply os_only_bind; [apply Hb | intros _; exact IH].
Qed.

Lemma os_only_exists p : MergeSpec.os_only (OS.exists_ p).
Proof. intros w w' rc cmd. discriminate. Qed.

Lemma os_only_st_size p : MergeSpec.os_only (OS.st_size p).
Proof.
  intros w w' rc cmd. unfold OS.st_size.
  by destruct (FS.lookup (disk w) p) as [[data | sub] |].
Qed.

Lemma os_only_read p : MergeSpec.os_only (OS.read p).
Proof.
  intros w w' rc cmd. unfold OS.read.
  by destruct (FS.lookup (disk w) p) as [[data | sub] |].
Qed.

Lemma os_only_write p data : MergeSpec.os_only (OS.write p data).
Proof.
  intros w w' rc cmd. unfold OS.write, OS.path_error.
  destruct (FS.lookup (disk w) p) as [[d | sub] |]; try done;
    by destruct (FS.put _ _ _) as [[|] | n].
Qed.

Lemma os_only_mkdir p : MergeSpec.os_only (OS.mkdir_parents_exist_ok p).
Proof.
  intros w w' rc cmd. unfold OS.mkdir_parents_exist_ok.
  by destruct (FS.make_dirs _ _) as [[|] | n].
Qed.

Lemma os_only_rename_or_copy src dst :
  MergeSpec.os_only (OS.rename_or_copy src dst).
Proof.
  intros w w' rc cmd. unfold OS.rename_or_copy, OS.path_error.
  repeat case_match; done.
Qed.

Lemma os_only_shutil_move src dst : MergeSpec.os_only (OS.shutil_move src dst).
Proof.
  intros w w' rc cmd. unfold OS.shutil_move.
  repeat case_match; try done; apply os_only_rename_or_copy.
Qed.

Lemma os_only_count_lines p : MergeSpec.os_only (Merge.count_lines p).
Proof.
  apply os_only_bind; [apply os_only_read | intros; apply os_only_ret].
Qed.

Lemma os_only_has_conflicts p : MergeSpec.os_only (Merge.has_conflicts p).
Proof.
  apply os_only_bind; [apply os_only_exists |].
  intros [|]; [| apply os_only_ret].
  apply os_only_bind; [apply os_only_st_size | intros; apply os_only_ret].
Qed.

Lemma os_only_promote fa out : MergeSpec.os_only (Merge.promote fa out).
Proof.
  apply os_only_for_. intros ext.
  apply os_only_bind; [apply os_only_exists |].
  intros [|]; [apply os_only_shutil_move | apply os_only_ret].
Qed.

Lemma blames_bind {A B} (c : M A) (k : A -> M B) Q :
  MergeSpec.blames c Q -> (forall a, MergeSpec.blames (k a) Q) ->
  MergeSpec.blames (bind c k) Q.
Proof.
  intros Hc Hk w w' rc cmd H.
  apply bind_cases in H as [(e & H & [= <-]) | (a & w1 & _ & H)].
  - by eapply Hc.
  - by eapply Hk.
Qed.

Lemma blames_ret {A} (a : A) Q : MergeSpec.blames (ret a) Q.
Proof. apply os_only_blames, os_only_ret. Qed.

Lemma blames_for_each {A B} (xs : list A) (body : A -> M B) Q :
  (forall x, MergeSpec.blames (body x) Q) ->
  MergeSpec.blames (for_each xs body) Q.
Proof.
  intros Hb. induction xs as [|x xs IH]; [apply blames_ret |].
  cbn [for_each]. apply blames_bind; [apply Hb |]. intros y.
  apply blames_bind; [exact IH | intros; apply blames_ret].
Qed.

(** A call whose status is checked raises for its own command, a call
    whose status is not checked never raises for a status. *)
Lemma blames_run spawn cmd (check : bool) (Q : list string -> Prop) :
  (check = true -> Q cmd) ->
  MergeSpec.blames (OS.subprocess_run spawn cmd check) Q.
Proof.
  intros HQ w w' rc c. unfold OS.subprocess_run.
  destruct (spawn cmd (disk w)) as [[rc' d] |]; [| discriminate].
  destruct check; cbn [andb]; [| discriminate].
  destruct (rc' =? 0)%Z eqn:E; cbn [negb]; [discriminate |].
  intros [= <- <- <-]. split; [by apply Z.eqb_neq |].
  split; [| by apply HQ]. cbn. apply last_snoc.
Qed.

Lemma blames_bind_result {A B} (c : M A) (k : A -> M B) L R Q :
  Spec.starts c L R -> MergeSpec.blames c Q ->
  (forall a, R a -> MergeSpec.blames (k a) Q) ->
  MergeSpec.blames (bind c k) Q.
Proof.
  intros Hs Hc Hk w w' rc cmd H.
  apply bind_cases in H as [(e & H & [= <-]) | (a & w1 & Ha & H)].
  - by eapply Hc.
  - destruct (Hs _ _ _ Ha) as (tr & _ & _ & HR). by eapply Hk.
Qed.

Lemma merge_lists_differ (wd : Path.t) :
  Spec.well_formed wd ->
  Path.str (Path.join wd "merge_list_corrected.txt")
  <> Path.str (Path.join wd "merge_list.txt").
Proof.
  intros Hwf. rewrite !join_component by reflexivity. intros H.
  apply str_injective in H;
    [| by apply child_well_formed; [| split]..].
  injection H as H. by apply app_inj_tail in H as [_ H].
Qed.

Section MergeFailures.

Variable spawn : Spawn.
Variable plink_exec : string.

Lemma blames_extract_batches wd bps keep suffix ex Q :
  (forall cmd, Spec.is_merge cmd = false -> Q cmd) ->
  MergeSpec.blames
    (Merge.extract_batches spawn plink_exec wd bps keep suffix ex) Q.
Proof.
  intros HQ. apply blames_for_each. intros bp.
  apply blames_bind; [| intros; apply blames_ret].
  apply blames_bind; [| intros; apply blames_ret].
  apply blames_run. intros _. apply HQ, is_merge_extract.
Qed.

Lemma blames_merge bps keep out work_dir convert :
  MergeSpec.blames
    (Merge.merge spawn plink_exec bps keep out work_dir convert)
    (MergeSpec.checked plink_exec (Path.parse work_dir) bps out).
Proof.
  unfold Merge.merge. set (wd := Path.parse work_dir).
  set (Q := MergeSpec.checked plink_exec wd bps out).
  assert (HQ : forall cmd, Spec.is_merge cmd = false -> Q cmd) by (by left).
  apply blames_bind; [apply os_only_blames, os_only_mkdir | intros _].
  apply blames_bind; [by apply blames_extract_batches | intros subsets].
  destruct (Nat.ltb (length subsets) 2); [apply blames_ret |].
  apply blames_bind.
  { unfold Merge.attempt_merge.
    apply blames_bind; [apply os_only_blames, os_only_write | intros _].
    apply blames_bind; [| intros; apply blames_ret].
    by apply blames_run. }
  intros fa. apply blames_bind.
  { unfold Merge.resolve.
    apply blames_bind; [apply os_only_blames, os_only_has_conflicts |].
    intros [|].
    - unfold Merge.correct.
      apply blames_bind; [apply os_only_blames, os_only_count_lines |].
      intros n.
      eapply blames_bind_result;
        [apply starts_extract_batches | by apply blames_extract_batches |].
      intros corrected <-.
      apply blames_bind; [apply os_only_blames, os_only_write | intros _].
      apply blames_bind; [| intros; apply blames_ret].
      apply blames_run. intros _. by right.
    - apply blames_bind; [apply os_only_blames, os_only_promote |].
      intros; apply blames_ret. }
  intros rep. unfold Merge.finish.
  apply blames_bind; [apply os_only_blames, os_only_exists | intros b1].
  apply blames_bind.
  { destruct b1; [| apply blames_ret].
    apply blames_bind; [apply os_only_blames, os_only_count_lines |].
    intros; apply blames_ret. }
  intros rep1.
  apply blames_bind; [apply os_only_blames, os_only_exists | intros b2].
  apply blames_bind.
  { destruct b2; [| apply blames_ret].
    apply blames_bind; [apply os_only_blames, os_only_count_lines |].
    intros; apply blames_ret. }
  intros rep2. apply blames_bind; [| intros; apply blames_ret].
  destruct convert; [| apply blames_ret].
  apply blames_bind; [| intros; apply blames_ret].
  apply blames_run. intros _. by left.
Qed.

(** X11: when a merge run fails with [CalledProcessError], the error
    names the command that was started last, and that command exited with
    a status other than 0; it is an extraction, the second merge or the
    export, never the first merge attempt, whose status is not looked
    at. *)
Theorem merge_failure_names_a_checked_command bps keep out work_dir convert
    w w' rc cmd :
  Merge.merge spawn plink_exec bps keep out work_dir convert w
  = (w', Raise (CalledProcessError rc cmd)) ->
  rc <> 0%Z
  /\ last (started w') = Some cmd
  /\ MergeSpec.checked plink_exec (Path.parse work_dir) bps out cmd
  /\ cmd <> Spec.first_merge plink_exec (Path.parse work_dir) bps.
Proof.
  intros H. destruct (blames_merge _ _ _ _ _ _ _ _ _ H) as (Hrc & Hlast & HQ).
  repeat split; try done.
  intros ->. destruct HQ as [HQ | HQ]; [discriminate HQ |].
  injection HQ as _ HQ _.
  by apply (merge_lists_differ (Path.parse work_dir) (parse_well_formed _)).
Qed.

End MergeFailures.

Lemma merge_failure_names_a_checked_command_witness :
  2%Z <> 0%Z
  /\ last (started
             (Merge.merge Demo.failing "plink" ["data/b1"; "data/b2"]
                "keep.txt" "out/final" "work" true
                (Demo.world Demo.empty_disk)).1)
     = Some ["plink"; "--bfile"; "data/b1"; "--keep"; "keep.txt";
             "--make-bed"; "--out"; "work/b1_subset"]
  /\ MergeSpec.checked "plink" (Path.parse "work") ["data/b1"; "data/b2"]
       "out/final"
       ["plink"; "--bfile"; "data/b1"; "--keep"; "keep.txt";
        "--make-bed"; "--out"; "work/b1_subset"]
  /\ ["plink"; "--bfile"; "data/b1"; "--keep"; "keep.txt";
      "--make-bed"; "--out"; "work/b1_subset"]
     <> Spec.first_merge "plink" (Path.parse "work") ["data/b1"; "data/b2"].
Proof.
  apply (merge_failure_names_a_checked_command Demo.failing "plink"
           ["data/b1"; "data/b2"] "keep.txt" "out/final" "work" true
           (Demo.world Demo.empty_disk)).
  vm_compute. reflexivity.
Defined.

(** A first merge attempt that exits with status 3 and leaves no
    conflict list: the run goes on to the export and returns. *)
Example failed_first_merge_is_not_an_error :
  (Merge.merge
     (fun cmd fs => Some ((if Spec.is_merge cmd then 3 else 0)%Z, fs))
     "plink" ["data/b1"; "data/b2"] "keep.txt" "out/final" "work" true
     (Demo.world Demo.empty_disk)).2
  = Return {| Merge.batch_count := 2; Merge.conflict_snp_count := 0;
              Merge.final_sample_count := 0; Merge.final_variant_count := 0;
              Merge.correction_applied := false;
              Merge.output_prefix := "out/final" |}.
Proof. vm_compute. reflexivity. Qed.

(** ** Places of the file system that lie apart *)

Lemma apart_irrefl s : TransferSpec.apart s s = false.
Proof.
  induction s as [|a s IH]; [done |]. cbn. by rewrite String.eqb_refl.
Qed.

Lemma apart_app_r s d x :
  TransferSpec.apart s d = true -> TransferSpec.apart s (d ++ x) = true.
Proof.
  revert d. induction s as [|a s IH]; intros [|b d]; try done.
  cbn. destruct (String.eqb a b); [apply IH | done].
Qed.

Lemma find_put_apart s d new n n' :
  TransferSpec.apart s d = true -> FS.put d new n = inr n' ->
  FS.find s n' = FS.find s n.
Proof.
  revert d n n'. induction s as [|a s IH]; intros [|b d] n n'; try done.
  cbn [TransferSpec.apart FS.put]. destruct n as [data | es]; [done |].
  destruct (String.eqb_spec a b) as [-> | Hab]; intros Hap.
  - destruct d as [|x d]; [by destruct s |].
    destruct (es !! b) as [m |] eqn:E; [| done].
    destruct (FS.put (x :: d) new m) as [e | m'] eqn:Ep; [done |].
    intros [= <-]. cbn [FS.find]. rewrite lookup_insert_eq, E.
    by apply (IH _ _ _ Hap).
  - intros Hput. assert (Hn : exists m', n' = FS.Dir (<[b := m']> es)).
    { revert Hput. destruct d as [|x d]; [intros [= <-]; by eexists |].
      destruct (es !! b) as [m |]; [| done].
      destruct (FS.put (x :: d) new m) as [e | m']; [done |].
      intros [= <-]. by eexists. }
    destruct Hn as [m' ->]. cbn [FS.find]. by rewrite lookup_insert_ne.
Qed.

Lemma find_make_dirs_apart s d n n' :
  TransferSpec.apart s d = true -> FS.make_dirs d n = inr n' ->
  FS.find s n' = FS.find s n.
Proof.
  revert d n n'. induction s as [|a s IH]; intros [|b d] n n'; try done.
  cbn [TransferSpec.apart FS.make_dirs]. destruct n as [data | es]; [done |].
  destruct (FS.make_dirs d (default (FS.Dir ∅) (es !! b))) as [e | m'] eqn:Em;
    [done |].
  destruct (String.eqb_spec a b) as [-> | Hab]; intros Hap [= <-];
    cbn [FS.find]; [| by rewrite lookup_insert_ne].
  rewrite lookup_insert_eq, (IH _ _ _ Hap Em).
  destruct (es !! b) as [m |]; [done |]. cbn.
  destruct s as [|x s]; [done |]. cbn. by rewrite lookup_empty.
Qed.

(** The directory that [mkdir(parents=True, exist_ok=True)] leaves: the
    one that was there, or an empty one. *)
Lemma make_dirs_find d n n' :
  FS.make_dirs d n = inr n' ->
  FS.find d n'
  = Some (FS.Dir match FS.find d n with
                 | Some (FS.Dir b) => b
                 | _ => ∅
                 end).
Proof.
  revert n n'. induction d as [|c d IH]; intros n n'.
  - cbn. destruct n; [done |]. by intros [= <-].
  - cbn [FS.make_dirs FS.find]. destruct n as [data | es]; [done |].
    destruct (FS.make_dirs d (default (FS.Dir ∅) (es !! c))) as [e | m'] eqn:Em;
      [done |].
    intros [= <-]. rewrite lookup_insert_eq, (IH _ _ Em).
    destruct (es !! c) as [m |]; [done |]. cbn.
    destruct d as [|x d]; [done |]. cbn. by rewrite lookup_empty.
Qed.

Lemma write_child_put dir c data w es :
  FS.lookup (disk w) dir = Some (FS.Dir es) ->
  FS.valid_name c = true ->
  (forall sub, es !! c <> Some (FS.Dir sub)) ->
  exists n',
    FS.put (FS.locate (disk w) dir ++ [c]) (FS.File data) (FS.root (disk w))
    = inr n'
    /\ OS.write (Path.child dir c) data w = (set_root n' w, Return tt)
    /\ FS.find (FS.locate (disk w) dir) n'
       = Some (FS.Dir (<[c := FS.File data]> es)).
Proof.
  intros Hdir Hv Hnd.
  pose proof (valid_name_not_dotdot _ Hv) as Hc.
  destruct (put_child _ c (FS.File data) _ _ Hdir) as (n' & Hput & Hfind).
  exists n'. split; [exact Hput |]. split; [| exact Hfind].
  unfold OS.write.
  rewrite (lookup_child _ _ _ _ Hdir Hc), (locate_child _ _ _ Hc), Hput.
  destruct (es !! c) as [[d | sub] |] eqn:E; try reflexivity.
  by destruct (Hnd sub).
Qed.

(** ** A transfer by copy *)

Lemma locate_set_root n w p :
  FS.locate (disk (set_root n w)) p = FS.locate (disk w) p.
Proof. reflexivity. Qed.

Lemma only_files_copy_entry es b c :
  TransferSpec.only_files b ->
  TransferSpec.only_files (TransferSpec.copy_entry es b c).
Proof.
  intros Hb. unfold TransferSpec.copy_entry.
  destruct (es !! c) as [[data | sub] |]; try exact Hb.
  intros k n. destruct (decide (k = c)) as [-> | Hk].
  - rewrite lookup_insert_eq. by intros [= <-].
  - rewrite lookup_insert_ne by done. apply Hb.
Qed.

Section CopyLoop.

Variable w0 : World.
Variable src dest : Path.t.
Variable es : gmap string FS.node.
Hypothesis entries_ok : Spec.names_ok es.
Hypothesis lie_apart :
  TransferSpec.apart (FS.locate (disk w0) src) (FS.locate (disk w0) dest)
  = true.

(** One round of the loop of [_copy], on a world that differs from [w0]
    in the tree only. *)
Lemma copy_step c nd n b :
  es !! c = Some nd ->
  FS.find (FS.locate (disk w0) src) n = Some (FS.Dir es) ->
  FS.find (FS.locate (disk w0) dest) n = Some (FS.Dir b) ->
  TransferSpec.only_files b ->
  exists n',
    (let* regular := OS.is_file (Path.child src c) in
     if regular
     then OS.shutil_copy2 (Path.child src c)
            (Path.join dest (Path.name (Path.child src c)))
     else ret tt) (set_root n w0)
    = (set_root n' w0, Return tt)
    /\ FS.find (FS.locate (disk w0) src) n' = Some (FS.Dir es)
    /\ FS.find (FS.locate (disk w0) dest) n'
       = Some (FS.Dir (TransferSpec.copy_entry es b c)).
Proof.
  intros Hc Hs Hd Hb.
  set (w := set_root n w0).
  assert (Hls : FS.lookup (disk w) src = Some (FS.Dir es)) by exact Hs.
  assert (Hld : FS.lookup (disk w) dest = Some (FS.Dir b)) by exact Hd.
  pose proof (entries_ok _ _ Hc) as Hv.
  pose proof (valid_name_not_dotdot _ Hv) as Hdd.
  destruct (valid_name_component _ Hv) as [Hsl Hk].
  assert (His : OS.is_file (Path.child src c) w
                = (w, Return (Spec.is_regular nd))).
  { unfold OS.is_file. by rewrite (is_file_child _ _ _ _ _ Hls entries_ok Hc). }
  rewrite (bind_of_return _ _ _ _ _ His).
  unfold TransferSpec.copy_entry. rewrite Hc.
  destruct nd as [data | sub]; cbn [Spec.is_regular];
    [| by exists n].
  rewrite name_child, (join_component _ _ Hsl Hk).
  assert (Hnd : forall sub, b !! c <> Some (FS.Dir sub)).
  { intros sub Hsub. by specialize (Hb _ _ Hsub). }
  destruct (write_child_put dest c data w b Hld Hv Hnd)
    as (n' & Hput & Hw & Hfind).
  exists n'. split; [| split; [| exact Hfind]].
  - unfold OS.shutil_copy2.
    assert (Hnot : FS.is_dir (disk w) (Path.child dest c) = false).
    { unfold FS.is_dir. rewrite (lookup_child _ _ _ _ Hld Hdd).
      destruct (b !! c) as [[d | sub] |] eqn:E; try done.
      by destruct (Hnd sub). }
    rewrite Hnot.
    assert (Hdiff : bool_decide (FS.locate (disk w) (Path.child src c)
                                 = FS.locate (disk w) (Path.child dest c))
                    = false).
    { apply bool_decide_eq_false. rewrite !locate_child by done.
      intros [He _]%app_inj_tail. unfold w in He.
      rewrite !locate_set_root in He.
      rewrite He, apart_irrefl in lie_apart. discriminate. }
    rewrite Hdiff, andb_false_r.
    assert (Hr : OS.read (Path.child src c) w = (w, Return data)).
    { unfold OS.read. by rewrite (lookup_child _ _ _ _ Hls Hdd), Hc. }
    rewrite (bind_of_return _ _ _ _ _ Hr). exact Hw.
  - rewrite <- Hs.
    eapply find_put_apart; [apply (apart_app_r _ _ [c] lie_apart) | exact Hput].
Qed.

Lemma copy_loop cs :
  Forall (fun c => is_Some (es !! c)) cs ->
  forall n b,
    FS.find (FS.locate (disk w0) src) n = Some (FS.Dir es) ->
    FS.find (FS.locate (disk w0) dest) n = Some (FS.Dir b) ->
    TransferSpec.only_files b ->
    exists n',
      for_ (Path.child src <$> cs)
        (fun fp =>
           let* regular := OS.is_file fp in
           if regular then OS.shutil_copy2 fp (Path.join dest (Path.name fp))
           else ret tt) (set_root n w0)
      = (set_root n' w0, Return tt)
      /\ FS.find (FS.locate (disk w0) src) n' = Some (FS.Dir es)
      /\ FS.find (FS.locate (disk w0) dest) n'
         = Some (FS.Dir (TransferSpec.copied es cs b)).
Proof.
  induction 1 as [|c cs [nd Hc] _ IH]; intros n b Hs Hd Hb.
  - by exists n.
  - destruct (copy_step c nd n b Hc Hs Hd Hb) as (n1 & H1 & Hs1 & Hd1).
    destruct (IH n1 _ Hs1 Hd1 (only_files_copy_entry _ _ _ Hb))
      as (n' & H2 & Hs2 & Hd2).
    exists n'. split; [| by split].
    cbn [fmap list_fmap for_].
    by rewrite (bind_of_return _ _ _ _ _ H1).
Qed.

End CopyLoop.

Lemma copied_lookup es cs b c :
  TransferSpec.copied es cs b !! c
  = match es !! c with
    | Some (FS.File data) =>
        if bool_decide (c ∈ cs) then Some (FS.File data) else b !! c
    | _ => b !! c
    end.
Proof.
  revert b. induction cs as [|x cs IH]; intros b.
  - cbn. by destruct (es !! c) as [[data | sub] |].
  - change (TransferSpec.copied es (x :: cs) b)
      with (TransferSpec.copied es cs (TransferSpec.copy_entry es b x)).
    rewrite IH. unfold TransferSpec.copy_entry.
    destruct (decide (x = c)) as [-> | Hx].
    + destruct (es !! c) as [[data | sub] |]; try done.
      rewrite lookup_insert_eq, (bool_decide_eq_true_2 (c ∈ c :: cs))
        by left.
      by destruct (bool_decide (c ∈ cs)).
    + assert (Hb : match es !! x with
                   | Some (FS.File data) => <[x := FS.File data]> b
                   | _ => b
                   end !! c = b !! c).
      { destruct (es !! x) as [[data | sub] |]; try done.
        by rewrite lookup_insert_ne. }
      rewrite Hb. destruct (es !! c) as [[data | sub] |]; try done.
      destruct (decide (c ∈ cs)) as [Hin | Hin].
      * rewrite (bool_decide_eq_true_2 _ Hin),
          (bool_decide_eq_true_2 (c ∈ x :: cs)); [done | by right].
      * rewrite (bool_decide_eq_false_2 _ Hin),
          (bool_decide_eq_false_2 (c ∈ x :: cs)); [done |].
        intros [-> | H]%elem_of_cons; done.
Qed.

Lemma copied_regular_part es :
  TransferSpec.copied es (FS.names es) ∅ = TransferSpec.regular_part es.
Proof.
  apply map_eq. intros c. rewrite copied_lookup, lookup_empty.
  unfold TransferSpec.regular_part. rewrite map_lookup_filter.
  destruct (es !! c) as [[data | sub] |] eqn:E; try done.
  cbn. rewrite bool_decide_eq_true_2; [done |].
  apply names_lookup. by rewrite E.
Qed.

Lemma regular_count_insert (m : gmap string FS.node) k v :
  m !! k = None ->
  Spec.regular_count (<[k := v]> m)
  = (if Spec.is_regular v then 1 else 0) + Spec.regular_count m.
Proof.
  intros Hk. unfold Spec.regular_count.
  rewrite (Permutation_length
             (filter_permutation _ _ _ (map_to_list_insert m k v Hk))).
  cbn. by destruct (Spec.is_regular v).
Qed.

Lemma regular_count_regular_part es :
  Spec.regular_count (TransferSpec.regular_part es) = Spec.regular_count es.
Proof.
  unfold TransferSpec.regular_part.
  induction es as [|k v m Hk IH] using map_ind.
  - by rewrite map_filter_empty.
  - rewrite (regular_count_insert _ _ _ Hk), map_filter_insert.
    destruct (decide (Spec.is_regular (k, v).2 = true)) as [Hr | Hr];
      cbn in Hr.
    + rewrite regular_count_insert, IH; [done |].
      apply map_lookup_filter_None. by left.
    + rewrite delete_id by done. rewrite IH.
      by destruct (Spec.is_regular v).
Qed.

Lemma names_ok_regular_part es :
  Spec.names_ok es -> Spec.names_ok (TransferSpec.regular_part es).
Proof.
  intros Hok c n [H _]%map_lookup_filter_Some. by eapply Hok.
Qed.

(** The sizes that [verify] adds up for a directory. *)
Lemma sizes_of_entries p es w (l : list (string * FS.node)) :
  FS.lookup (disk w) p = Some (FS.Dir es) -> Spec.names_ok es ->
  (forall k n, (k, n) ∈ l -> es !! k = Some n) ->
  exists sizes,
    for_each (List.filter (FS.is_file (disk w)) (Path.child p <$> l.*1))
      OS.st_size w = (w, Return sizes)
    /\ foldr Nat.add 0 sizes
       = foldr Nat.add 0 ((fun kn => TransferSpec.node_size kn.2) <$> l).
Proof.
  intros Hp Hok. induction l as [|[k n] l IH]; intros Hl.
  - by exists [].
  - destruct IH as (sizes & Hs & Hsum);
      [intros k' n' H; apply Hl; by right |].
    assert (Hk : es !! k = Some n) by (apply Hl; left).
    cbn [fmap list_fmap fst List.filter].
    rewrite (is_file_child _ _ _ _ _ Hp Hok Hk).
    destruct n as [data | sub]; cbn [Spec.is_regular].
    + exists (String.length data :: sizes). split; [| cbn; by rewrite Hsum].
      cbn [for_each].
      assert (Hq : OS.st_size (Path.child p k) w
                   = (w, Return (String.length data))).
      { unfold OS.st_size.
        by rewrite (lookup_child _ _ _ _ Hp
                      (valid_name_not_dotdot _ (Hok _ _ Hk))), Hk. }
      by rewrite (bind_of_return _ _ _ _ _ Hq), (bind_of_return _ _ _ _ _ Hs).
    + exists sizes. split; [exact Hs | exact Hsum].
Qed.

Lemma sizes_of_directory p es w :
  FS.lookup (disk w) p = Some (FS.Dir es) -> Spec.names_ok es ->
  exists sizes,
    for_each (List.filter (FS.is_file (disk w)) (Path.child p <$> FS.names es))
      OS.st_size w = (w, Return sizes)
    /\ foldr Nat.add 0 sizes = TransferSpec.bytes es.
Proof.
  intros Hp Hok. apply (sizes_of_entries p es w (map_to_list es) Hp Hok).
  intros k n. apply elem_of_map_to_list.
Qed.

Lemma bytes_insert (m : gmap string FS.node) k v :
  m !! k = None ->
  TransferSpec.bytes (<[k := v]> m)
  = TransferSpec.node_size v + TransferSpec.bytes m.
Proof.
  intros Hk. unfold TransferSpec.bytes.
  by rewrite (sum_permutation _ _
                (fmap_Permutation _ _ _ (map_to_list_insert m k v Hk))).
Qed.

Lemma bytes_regular_part es :
  TransferSpec.bytes (TransferSpec.regular_part es) = TransferSpec.bytes es.
Proof.
  unfold TransferSpec.regular_part.
  induction es as [|k v m Hk IH] using map_ind.
  - by rewrite map_filter_empty.
  - rewrite (bytes_insert _ _ _ Hk), map_filter_insert.
    destruct (decide (Spec.is_regular (k, v).2 = true)) as [Hr | Hr];
      cbn in Hr.
    + rewrite bytes_insert, IH; [done |].
      apply map_lookup_filter_None. by left.
    + rewrite delete_id by done. rewrite IH. by destruct v.
Qed.

Section CopyTransfer.

Variable spawn : Spawn.

(** X12: a transfer by copy into a destination directory that is new or
    empty, and that lies apart from the source, returns a verified
    report.  The destination then holds exactly the regular files of the
    source, with their content; subdirectories are not copied; the file
    count is that of the regular files of the source; the source is
    as it was, and no process is started. *)
Theorem send_by_copy_is_verified source_dir dest_root project_id method
    cd cf w w1 es :
  String.eqb method "rsync" = false ->
  FS.lookup (disk w) (Path.parse source_dir) = Some (FS.Dir es) ->
  Spec.names_ok es ->
  FS.lookup (disk w) (Transfer.destination dest_root project_id (now w))
  = None
  \/ FS.lookup (disk w) (Transfer.destination dest_root project_id (now w))
     = Some (FS.Dir ∅) ->
  TransferSpec.apart
    (FS.locate (disk w) (Path.parse source_dir))
    (FS.locate (disk w) (Transfer.destination dest_root project_id (now w)))
  = true ->
  OS.mkdir_parents_exist_ok
    (Transfer.destination dest_root project_id (now w)) w
  = (w1, Return tt) ->
  exists w' r,
    Transfer.send spawn source_dir dest_root project_id method cd cf w
    = (w', Return r)
    /\ Transfer.verified r = true
    /\ Transfer.file_count r = Spec.regular_count es
    /\ Transfer.total_bytes r = TransferSpec.bytes es
    /\ FS.lookup (disk w')
         (Transfer.destination dest_root project_id (now w))
       = Some (FS.Dir (TransferSpec.regular_part es))
    /\ FS.lookup (disk w') (Path.parse source_dir) = Some (FS.Dir es)
    /\ started w' = started w.
Proof.
  intros Hm Hsrc Hok Hfresh Hap Hmk.
  set (src := Path.parse source_dir) in *.
  set (dest := Transfer.destination dest_root project_id (now w)) in *.
  unfold OS.mkdir_parents_exist_ok in Hmk.
  destruct (FS.make_dirs (FS.locate (disk w) dest) (FS.root (disk w)))
    as [[|] | n1] eqn:Emk; try discriminate Hmk.
  injection Hmk as <-.
  assert (Hs1 : FS.find (FS.locate (disk w) src) n1 = Some (FS.Dir es)).
  { rewrite (find_make_dirs_apart _ _ _ _ Hap Emk). exact Hsrc. }
  assert (Hd1 : FS.find (FS.locate (disk w) dest) n1 = Some (FS.Dir ∅)).
  { rewrite (make_dirs_find _ _ _ Emk). unfold FS.lookup in Hfresh.
    by destruct Hfresh as [-> | ->]. }
  assert (Hcs : Forall (fun c => is_Some (es !! c)) (FS.names es)).
  { apply Forall_forall. intros c. apply names_lookup. }
  destruct (copy_loop w src dest es Hok Hap (FS.names es) Hcs n1 ∅ Hs1 Hd1)
    as (n' & Hloop & Hs' & Hd'); [intros c n; by rewrite lookup_empty |].
  rewrite copied_regular_part in Hd'.
  set (w' := set_root n' w).
  assert (Hdel : Transfer.deliver spawn source_dir dest_root project_id
                   method cd cf w = (w', Return dest)).
  { unfold Transfer.deliver. fold src.
    unfold bind at 1, OS.is_dir, FS.is_dir. rewrite Hsrc. cbn [negb].
    unfold bind at 1, OS.get_now. fold dest.
    unfold bind at 1, OS.mkdir_parents_exist_ok. rewrite Emk, Hm.
    unfold Transfer._copy.
    assert (Hit : OS.iterdir src (set_root n1 w)
                  = (set_root n1 w, Return (Path.child src <$> FS.names es))).
    { unfold OS.iterdir. by rewrite lookup_set_root, Hs1. }
    assert (Hcp : Transfer._copy src dest (set_root n1 w)
                  = (w', Return tt)).
    { unfold Transfer._copy. rewrite (bind_of_return _ _ _ _ _ Hit).
      exact Hloop. }
    unfold Transfer._copy in Hcp.
    by rewrite (bind_of_return _ _ _ _ _ Hcp). }
  assert (Hls : FS.lookup (disk w') src = Some (FS.Dir es)) by exact Hs'.
  assert (Hld : FS.lookup (disk w') dest
                = Some (FS.Dir (TransferSpec.regular_part es))) by exact Hd'.
  destruct (sizes_of_directory dest (TransferSpec.regular_part es) w' Hld
              (names_ok_regular_part _ Hok)) as (sizes & Hsz & Hsum).
  eexists w', _.
  split; [| split; [| split; [| split; [| by repeat split]]]].
  - unfold Transfer.send. rewrite (bind_of_return _ _ _ _ _ Hdel).
    fold src. unfold Transfer.verify.
    rewrite (bind_of_return _ _ _ _ _ (regular_files_dir _ _ _ Hls)).
    rewrite (bind_of_return _ _ _ _ _ (regular_files_dir _ _ _ Hld)).
    rewrite (bind_of_return _ _ _ _ _ Hsz). reflexivity.
  - cbn [Transfer.verified]. rewrite (regular_files_count _ _ _ Hls Hok),
      (regular_files_count _ _ _ Hld (names_ok_regular_part _ Hok)).
    rewrite regular_count_regular_part. apply Nat.eqb_refl.
  - cbn [Transfer.file_count].
    rewrite (regular_files_count _ _ _ Hld (names_ok_regular_part _ Hok)).
    apply regular_count_regular_part.
  - cbn [Transfer.total_bytes]. by rewrite Hsum, bytes_regular_part.
Qed.

(** X17: once the files are transferred and both directories are in
    place, the total size that [send] reports is the total size of the
    regular files of the destination directory, whatever the method. *)
Theorem send_total_bytes source_dir dest_root project_id method cd cf
    w w1 dest a b :
  Transfer.deliver spawn source_dir dest_root project_id method cd cf w
  = (w1, Return dest) ->
  FS.lookup (disk w1) (Path.parse source_dir) = Some (FS.Dir a) ->
  FS.lookup (disk w1) dest = Some (FS.Dir b) ->
  Spec.names_ok b ->
  exists r,
    Transfer.send spawn source_dir dest_root project_id method cd cf w
    = (w1, Return r)
    /\ Transfer.total_bytes r = TransferSpec.bytes b.
Proof.
  intros Hd Ha Hb Hokb.
  destruct (sizes_of_directory dest b w1 Hb Hokb) as (sizes & Hsz & Hsum).
  eexists. split.
  - unfold Transfer.send. rewrite (bind_of_return _ _ _ _ _ Hd).
    unfold Transfer.verify.
    rewrite (bind_of_return _ _ _ _ _ (regular_files_dir _ _ _ Ha)).
    rewrite (bind_of_return _ _ _ _ _ (regular_files_dir _ _ _ Hb)).
    rewrite (bind_of_return _ _ _ _ _ Hsz). reflexivity.
  - exact Hsum.
Qed.

End CopyTransfer.

Lemma send_by_copy_is_verified_witness :
  exists w' r,
    Transfer.send Demo.quiet "delivery" "staging" "P1" "copy"
      "Du=rwx,Dgo=rx" "Fu=rw,Fgo=r" (Demo.world Demo.delivery_disk)
    = (w', Return r)
    /\ Transfer.verified r = true
    /\ Transfer.file_count r = Spec.regular_count Demo.delivery_entries
    /\ Transfer.total_bytes r = TransferSpec.bytes Demo.delivery_entries
    /\ FS.lookup (disk w')
         (Transfer.destination "staging" "P1"
            (now (Demo.world Demo.delivery_disk)))
       = Some (FS.Dir (TransferSpec.regular_part Demo.delivery_entries))
    /\ FS.lookup (disk w') (Path.parse "delivery")
       = Some (FS.Dir Demo.delivery_entries)
    /\ started w' = started (Demo.world Demo.delivery_disk).
Proof.
  apply (send_by_copy_is_verified Demo.quiet "delivery" "staging" "P1" "copy"
           "Du=rwx,Dgo=rx" "Fu=rw,Fgo=r" (Demo.world Demo.delivery_disk)
           (OS.mkdir_parents_exist_ok
              (Transfer.destination "staging" "P1"
                 (now (Demo.world Demo.delivery_disk)))
              (Demo.world Demo.delivery_disk)).1
           Demo.delivery_entries).
  - reflexivity.
  - vm_compute. reflexivity.
  - apply names_ok_check. vm_compute. reflexivity.
  - left. vm_compute. reflexivity.
  - vm_compute. reflexivity.
  - vm_compute. reflexivity.
Defined.

(** A destination inside the source: the copy is still made, but the
    source has gained a subdirectory only, and the counts agree. *)
Example copy_into_the_source :
  match (Transfer.send Demo.quiet "delivery" "delivery" "P1" "copy"
           "Du=rwx,Dgo=rx" "Fu=rw,Fgo=r" (Demo.world Demo.delivery_disk)).2
  with
  | Return r => (Transfer.verified r, Transfer.file_count r)
  | Raise _ => (false, 0)
  end = (true, 4).
Proof. vm_compute. reflexivity. Qed.

(** ** The commands of a run of the pipeline *)


















Section TransferCommands.

Variable spawn : Spawn.



End TransferCommands.




Section PipelineRun.

Variable spawn : Spawn.
Variable csv_reader : CsvReader.
Variable csv_writerow : CsvWriter.
Variable encodable : string -> bool.
Variable md5_hex sha256_hex : string -> string.



(** X14: without the cohort file the pipeline stops at its first step:
    it fails with [FileNotFoundError] once the working and the delivery
    directory are made, starts no process and writes no file. *)
Theorem run_needs_the_cohort config w w1 w2 :
  OS.mkdir_parents_exist_ok (Path.parse (Pipeline.work_dir config)) w
  = (w1, Return tt) ->
  OS.mkdir_parents_exist_ok (Path.parse (Pipeline.delivery_dir config)) w1
  = (w2, Return tt) ->
  FS.exists_ (disk w2) (Path.parse (Pipeline.cohort_file config)) = false ->
  Pipeline.run spawn csv_reader csv_writerow encodable md5_hex sha256_hex
    config w
  = (w2, Fail (Os FileNotFoundError))
  /\ started w2 = started w.
Proof.
  intros H1 H2 Hc. split.
  - unfold Pipeline.run.
    assert (L1 : lift (OS.mkdir_parents_exist_ok
                         (Path.parse (Pipeline.work_dir config))) w
                 = (w1, Ok tt)) by (unfold lift; by rewrite H1).
    assert (L2 : lift (OS.mkdir_parents_exist_ok
                         (Path.parse (Pipeline.delivery_dir config))) w1
                 = (w2, Ok tt)) by (unfold lift; by rewrite H2).
    rewrite (pbind_of_ok _ _ _ _ _ L1), (pbind_of_ok _ _ _ _ _ L2).
    apply pbind_of_fail. unfold Filter.apply.
    assert (L3 : lift (OS.exists_ (Path.parse (Pipeline.cohort_file config)))
                   w2 = (w2, Ok false))
      by (unfold lift, OS.exists_; by rewrite Hc).
    by rewrite (pbind_of_ok _ _ _ _ _ L3).
  - by rewrite (silent_mkdir _ _ _ _ H2), (silent_mkdir _ _ _ _ H1).
Qed.

End PipelineRun.


Lemma run_needs_the_cohort_witness :
  Pipeline.run Demo.quiet Csv.reader CsvOut.writerow CsvOut.utf8
    Demo.fake_md5 Demo.fake_sha256 PipelineDemo.no_cohort FilterDemo.world
  = ((OS.mkdir_parents_exist_ok (Path.parse "delivery")
        (OS.mkdir_parents_exist_ok (Path.parse "work") FilterDemo.world).1).1,
     Fail (Os FileNotFoundError))
  /\ started
       (OS.mkdir_parents_exist_ok (Path.parse "delivery")
          (OS.mkdir_parents_exist_ok (Path.parse "work") FilterDemo.world).1).1
     = started FilterDemo.world.
Proof.
  apply (run_needs_the_cohort Demo.quiet Csv.reader CsvOut.writerow
           CsvOut.utf8 Demo.fake_md5 Demo.fake_sha256 PipelineDemo.no_cohort
           FilterDemo.world
           (OS.mkdir_parents_exist_ok (Path.parse "work") FilterDemo.world).1).
  - vm_compute. reflexivity.
  - vm_compute. reflexivity.
  - vm_compute. reflexivity.
Defined.

(** The commands of the sample run, with a tool that reports no
    conflict: two extractions, one merge, the export and the
    synchronisation. *)
Example sample_run_commands :
  started (PipelineDemo.run PipelineDemo.config).1
  = [["plink"; "--bfile"; "batch_01"; "--keep"; "work/cohort_filtered.txt";
      "--make-bed"; "--out"; "work/batch_01_subset"];
     ["plink"; "--bfile"; "batch_02"; "--keep"; "work/cohort_filtered.txt";
      "--make-bed"; "--out"; "work/batch_02_subset"];
     ["plink"; "--bfile"; "work/batch_01_subset"; "--merge-list";
      "work/merge_list.txt"; "--make-bed"; "--out"; "work/merge_attempt"];
     ["plink"; "--bfile"; "delivery/NBR030_final_genotypes"; "--recode";
      "vcf"; "bgz"; "--out"; "delivery/NBR030_final_genotypes"];
     ["rsync"; "-a"; "--chmod=Du=rwx,Dgo=rx,Fu=rw,Fgo=r"; "delivery/";
      "staging/NBR030_Delivery_20261104/"]].
Proof. vm_compute. reflexivity. Qed.

(** ** The counts of a merge report *)

Lemma exists_returns p w w1 b :
  OS.exists_ p w = (w1, Return b) -> w1 = w /\ b = FS.exists_ (disk w) p.
Proof. by intros [= <- <-]. Qed.

Lemma count_lines_reads p w w1 n :
  Merge.count_lines p w = (w1, Return n) -> w1 = w.
Proof.
  unfold Merge.count_lines, bind, OS.read.
  destruct (FS.lookup (disk w) p) as [[data | sub] |]; [| discriminate..].
  by intros [= <- _].
Qed.

(** The count that [finish] takes from a file that may be absent. *)
Lemma optional_count p (set : nat -> Merge.MergeReport -> Merge.MergeReport)
    report w w1 rep :
  (if FS.exists_ (disk w) (Path.parse p)
   then let* n := Merge.count_lines (Path.parse p) in ret (set n report)
   else ret report) w = (w1, Return rep) ->
  w1 = w
  /\ (rep = set (MergeSpec.line_count (disk w) p) report
      \/ FS.exists_ (disk w) (Path.parse p) = false /\ rep = report).
Proof.
  destruct (FS.exists_ (disk w) (Path.parse p)) eqn:E.
  - intros H. apply bind_returns in H as (n & w2 & Hn & [= <- <-]).
    pose proof (count_lines_reads _ _ _ _ Hn) as ->.
    apply count_lines_returns in Hn as (data & Hd & ->).
    split; [reflexivity |]. left. unfold MergeSpec.line_count. by rewrite Hd.
  - intros [= <- <-]. auto.
Qed.

Lemma line_count_absent fs p :
  FS.exists_ fs (Path.parse p) = false -> MergeSpec.line_count fs p = 0.
Proof.
  unfold FS.exists_, MergeSpec.line_count.
  by destruct (FS.lookup fs (Path.parse p)).
Qed.

Section MergeCounts.

Variable spawn : Spawn.
Variable plink_exec : string.

Lemma finish_counts out (convert : bool) report w w' rep :
  Merge.final_sample_count report = 0 ->
  Merge.final_variant_count report = 0 ->
  Merge.finish spawn plink_exec out convert report w = (w', Return rep) ->
  Merge.final_sample_count rep
  = MergeSpec.line_count (disk w) (out ++ ".fam")
  /\ Merge.final_variant_count rep
     = MergeSpec.line_count (disk w) (out ++ ".bim")
  /\ if convert
     then exists rc,
            OS.subprocess_run spawn (Spec.export plink_exec out) true w
            = (w', Return rc)
     else w' = w.
Proof.
  intros Hs0 Hv0. unfold Merge.finish. intros H.
  apply bind_returns in H as (b1 & v1 & H1 & H).
  apply exists_returns in H1 as [-> ->].
  apply bind_returns in H as (rep1 & v2 & H2 & H).
  apply (optional_count (out ++ ".fam") Merge.set_final_sample_count) in H2
    as [-> Hrep1].
  apply bind_returns in H as (b2 & v3 & H3 & H).
  apply exists_returns in H3 as [-> ->].
  apply bind_returns in H as (rep2 & v4 & H4 & H).
  apply (optional_count (out ++ ".bim") Merge.set_final_variant_count) in H4
    as [-> Hrep2].
  apply bind_returns in H as (u & v5 & H5 & [= <- <-]).
  split; [| split].
  - destruct Hrep2 as [-> | [_ ->]];
      destruct Hrep1 as [-> | [Ha ->]]; cbn; try done;
      by rewrite (line_count_absent _ _ Ha).
  - destruct Hrep2 as [-> | [Hb ->]]; [done |].
    rewrite (line_count_absent _ _ Hb).
    by destruct Hrep1 as [-> | [_ ->]].
  - destruct convert.
    + apply bind_returns in H5 as (rc & v6 & H6 & [= <-]). by exists rc.
    + by injection H5 as <-.
Qed.

(** X15: the sample and variant counts of a merge report are the line
    counts of [<output_prefix>.fam] and [<output_prefix>.bim] as they are
    on disk before the export to VCF is started, 0 for a file that is
    not there; the export is the last thing the run does.  With fewer
    than two batches nothing is counted: both counts are 0. *)
Theorem merge_counts_precede_the_export bps keep out work_dir convert
    w w' rep :
  Merge.merge spawn plink_exec bps keep out work_dir convert w
  = (w', Return rep) ->
  if Nat.ltb (length bps) 2 then
    Merge.final_sample_count rep = 0 /\ Merge.final_variant_count rep = 0
  else
    exists w4,
      Merge.final_sample_count rep
      = MergeSpec.line_count (disk w4) (out ++ ".fam")
      /\ Merge.final_variant_count rep
         = MergeSpec.line_count (disk w4) (out ++ ".bim")
      /\ if convert
         then exists rc,
                OS.subprocess_run spawn (Spec.export plink_exec out) true w4
                = (w', Return rc)
         else w4 = w'.
Proof.
  unfold Merge.merge. intros H.
  apply bind_returns in H as (u & w1 & _ & H).
  apply bind_returns in H as (subsets & w2 & H2 & H).
  destruct (starts_extract_batches _ _ _ _ _ _ _ _ _ _ H2)
    as (tr1 & _ & _ & <-).
  rewrite length_fmap in H.
  destruct (Nat.ltb (length bps) 2).
  - injection H as _ <-. by destruct bps.
  - apply bind_returns in H as (fa & w3 & _ & H).
    apply bind_returns in H as (rep1 & w4 & H4 & H).
    exists w4.
    assert (Hz : Merge.final_sample_count rep1 = 0
                 /\ Merge.final_variant_count rep1 = 0).
    { destruct (resolve_verdict _ _ _ _ _ _ _ _ _ _ _ H4)
        as [-> | (n & _ & ->)]; by cbn. }
    destruct Hz as [Hs0 Hv0].
    destruct (finish_counts _ _ _ _ _ _ Hs0 Hv0 H) as (Hs & Hv & Hc).
    split; [exact Hs |]. split; [exact Hv |].
    destruct convert; [exact Hc | by symmetry].
Qed.

End MergeCounts.

Lemma merge_counts_precede_the_export_witness :
  exists w4,
    Merge.final_sample_count
      {| Merge.batch_count := 2; Merge.conflict_snp_count := 2;
         Merge.final_sample_count := 0; Merge.final_variant_count := 1;
         Merge.correction_applied := true;
         Merge.output_prefix := "work/final" |}
    = MergeSpec.line_count (disk w4) ("work/final" ++ ".fam")
    /\ Merge.final_variant_count
         {| Merge.batch_count := 2; Merge.conflict_snp_count := 2;
            Merge.final_sample_count := 0; Merge.final_variant_count := 1;
            Merge.correction_applied := true;
            Merge.output_prefix := "work/final" |}
       = MergeSpec.line_count (disk w4) ("work/final" ++ ".bim")
    /\ exists rc,
         OS.subprocess_run (Demo.careless Demo.twice_rs1)
           (Spec.export "plink" "work/final") true w4
         = ((Merge.merge (Demo.careless Demo.twice_rs1) "plink"
               ["data/b1"; "data/b2"] "keep.txt" "work/final" "work" true
               (Demo.world Demo.empty_disk)).1,
            Return rc).
Proof.
  apply (merge_counts_precede_the_export (Demo.careless Demo.twice_rs1)
           "plink" ["data/b1"; "data/b2"] "keep.txt" "work/final" "work" true
           (Demo.world Demo.empty_disk)).
  vm_compute. reflexivity.
Defined.

(** One batch: the subset is the output, and nothing is counted, whatever
    the subset holds. *)
Example single_batch_counts_nothing :
  match (Merge.merge Demo.lenient_subsetter "plink" ["b1"] "keep.txt"
           "out/final" "work" true (Demo.world Demo.disjoint_disk)).2 with
  | Return rep =>
      (Merge.final_sample_count rep, Merge.final_variant_count rep,
       Merge.output_prefix rep)
  | Raise _ => (1, 1, "")
  end = (0, 0, "work/b1_subset").
Proof. vm_compute. reflexivity. Qed.

(** ** A transfer that fails *)

Lemma os_only_is_file p : MergeSpec.os_only (OS.is_file p).
Proof. intros w w' rc cmd. discriminate. Qed.

Lemma os_only_iterdir p : MergeSpec.os_only (OS.iterdir p).
Proof.
  intros w w' rc cmd. unfold OS.iterdir.
  by destruct (FS.lookup (disk w) p) as [[data | sub] |].
Qed.

Lemma os_only_shutil_copy2 src dst : MergeSpec.os_only (OS.shutil_copy2 src dst).
Proof.
  intros w w' rc cmd. unfold OS.shutil_copy2.
  destruct (_ && _); [discriminate |].
  apply os_only_bind; [apply os_only_read | intros; apply os_only_write].
Qed.

Lemma os_only_for_each {A B} (xs : list A) (body : A -> M B) :
  (forall x, MergeSpec.os_only (body x)) ->
  MergeSpec.os_only (for_each xs body).
Proof.
  intros Hb. induction xs as [|x xs IH]; [apply os_only_ret |].
  cbn [for_each]. apply os_only_bind; [apply Hb |]. intros y.
  apply os_only_bind; [exact IH | intros; apply os_only_ret].
Qed.

Lemma os_only_regular_files p : MergeSpec.os_only (Transfer.regular_files p).
Proof.
  apply os_only_bind; [apply os_only_iterdir |].
  intros entries w w' rc cmd. discriminate.
Qed.

Lemma os_only_copy src dest : MergeSpec.os_only (Transfer._copy src dest).
Proof.
  apply os_only_bind; [apply os_only_iterdir |]. intros entries.
  apply os_only_for_. intros fp.
  apply os_only_bind; [apply os_only_is_file |].
  intros [|]; [apply os_only_shutil_copy2 | apply os_only_ret].
Qed.

Lemma os_only_verify src dest method :
  MergeSpec.os_only (Transfer.verify src dest method).
Proof.
  apply os_only_bind; [apply os_only_regular_files |]. intros sf.
  apply os_only_bind; [apply os_only_regular_files |]. intros df.
  apply os_only_bind; [| intros; apply os_only_ret].
  apply os_only_for_each. intros p. apply os_only_st_size.
Qed.

Section TransferFailure.

Variable spawn : Spawn.

(** X16: a transfer fails with [CalledProcessError] only when the method
    is [rsync] and the tool exits with a status other than 0; the error
    names the [rsync] command, the only command started.  By then the
    source was found to be a directory and the destination directory was
    made; the disk is left as the tool left it, and nothing is counted
    or verified. *)
Theorem send_failure_names_rsync source_dir dest_root project_id method
    cd cf w w' rc cmd :
  Transfer.send spawn source_dir dest_root project_id method cd cf w
  = (w', Raise (CalledProcessError rc cmd)) ->
  method = "rsync"
  /\ rc <> 0%Z
  /\ cmd = Transfer.rsync_cmd (Path.parse source_dir)
             (Transfer.destination dest_root project_id (now w)) cd cf
  /\ started w' = started w ++ [cmd]
  /\ FS.is_dir (disk w) (Path.parse source_dir) = true
  /\ exists w1,
       OS.mkdir_parents_exist_ok
         (Transfer.destination dest_root project_id (now w)) w
       = (w1, Return tt)
       /\ spawn cmd (disk w1) = Some (rc, disk w').
Proof.
  unfold Transfer.send. intros H.
  apply bind_cases in H as [(e & H & [= <-]) | (dest & w1 & _ & H)];
    [| by destruct (os_only_verify _ _ _ _ _ _ _ H)].
  revert H. unfold Transfer.deliver, bind at 1, OS.is_dir. cbn beta iota.
  destruct (FS.is_dir (disk w) (Path.parse source_dir)); cbn [negb];
    [| discriminate].
  unfold bind at 1, OS.get_now. cbn beta iota. intros H.
  apply bind_cases in H as [(e & H & [= <-]) | ([] & w1 & H1 & H)];
    [by destruct (os_only_mkdir _ _ _ _ _ H) |].
  destruct (String.eqb_spec method "rsync") as [-> | Hm].
  2:{ apply bind_cases in H as [(e & H & [= <-]) | ([] & w2 & _ & H)];
        [by destruct (os_only_copy _ _ _ _ _ _ H) | discriminate H]. }
  apply bind_cases in H as [(e & H & [= <-]) | ([] & w2 & _ & H)];
    [| discriminate H].
  unfold Transfer._rsync in H.
  apply bind_cases in H as [(e & H & [= <-]) | (rc' & w2 & _ & H)];
    [| discriminate H].
  pose proof (subprocess_run_started _ _ _ _ _ _ H) as Hst.
  rewrite (silent_mkdir _ _ _ _ H1) in Hst.
  unfold OS.subprocess_run in H.
  destruct (spawn _ (disk w1)) as [[rc' d] |] eqn:Es; [| discriminate H].
  cbn [andb] in H. destruct (rc' =? 0)%Z eqn:Erc; cbn [negb] in H;
    [discriminate H |].
  injection H as <- <- <-.
  split; [reflexivity |]. split; [by apply Z.eqb_neq |].
  split; [reflexivity |]. split; [exact Hst |]. split; [reflexivity |].
  exists w1. split; [exact H1 | exact Es].
Qed.

End TransferFailure.

Lemma send_failure_names_rsync_witness :
  "rsync" = "rsync"
  /\ 2%Z <> 0%Z
  /\ ["rsync"; "-a"; "--chmod=Du=rwx,Dgo=rx,Fu=rw,Fgo=r"; "delivery/";
      "staging/P1_Delivery_20261104/"]
     = Transfer.rsync_cmd (Path.parse "delivery")
         (Transfer.destination "staging" "P1"
            (now (Demo.world Demo.delivery_disk)))
         "Du=rwx,Dgo=rx" "Fu=rw,Fgo=r"
  /\ started
       (Transfer.send Demo.failing "delivery" "staging" "P1" "rsync"
          "Du=rwx,Dgo=rx" "Fu=rw,Fgo=r" (Demo.world Demo.delivery_disk)).1
     = started (Demo.world Demo.delivery_disk)
       ++ [["rsync"; "-a"; "--chmod=Du=rwx,Dgo=rx,Fu=rw,Fgo=r"; "delivery/";
            "staging/P1_Delivery_20261104/"]]
  /\ FS.is_dir (disk (Demo.world Demo.delivery_disk)) (Path.parse "delivery")
     = true
  /\ exists w1,
       OS.mkdir_parents_exist_ok
         (Transfer.destination "staging" "P1"
            (now (Demo.world Demo.delivery_disk)))
         (Demo.world Demo.delivery_disk)
       = (w1, Return tt)
       /\ Demo.failing
            ["rsync"; "-a"; "--chmod=Du=rwx,Dgo=rx,Fu=rw,Fgo=r"; "delivery/";
             "staging/P1_Delivery_20261104/"] (disk w1)
          = Some (2%Z,
                  disk (Transfer.send Demo.failing "delivery" "staging" "P1"
                          "rsync" "Du=rwx,Dgo=rx" "Fu=rw,Fgo=r"
                          (Demo.world Demo.delivery_disk)).1).
Proof.
  apply (send_failure_names_rsync Demo.failing "delivery" "staging" "P1"
           "rsync" "Du=rwx,Dgo=rx" "Fu=rw,Fgo=r"
           (Demo.world Demo.delivery_disk)).
  vm_compute. reflexivity.
Defined.

(** The second test of [tests/test_transfer.py]: a source that is not
    there. *)
Example test_source_not_found_raises :
  Transfer.send Demo.quiet "nonexistent" "." "X" "rsync"
    "Du=rwx,Dgo=rx" "Fu=rw,Fgo=r" (Demo.world Demo.delivery_disk)
  = (Demo.world Demo.delivery_disk, Raise NotADirectoryError).
Proof. vm_compute. reflexivity. Qed.

Lemma send_total_bytes_witness :
  exists r,
    Transfer.send Demo.quiet "delivery" "staging" "P1" "copy"
      "Du=rwx,Dgo=rx" "Fu=rw,Fgo=r" (Demo.world Demo.delivery_disk)
    = ((Transfer.deliver Demo.quiet "delivery" "staging" "P1" "copy"
          "Du=rwx,Dgo=rx" "Fu=rw,Fgo=r" (Demo.world Demo.delivery_disk)).1,
       Return r)
    /\ Transfer.total_bytes r
       = TransferSpec.bytes (TransferSpec.regular_part Demo.delivery_entries).
Proof.
  apply (send_total_bytes Demo.quiet "delivery" "staging" "P1" "copy"
           "Du=rwx,Dgo=rx" "Fu=rw,Fgo=r" (Demo.world Demo.delivery_disk) _
           (Path.parse "staging/P1_Delivery_20261104")
           Demo.delivery_entries).
  - vm_compute. reflexivity.
  - vm_compute. reflexivity.
  - vm_compute. reflexivity.
  - apply names_ok_check. vm_compute. reflexivity.
Defined.

(** The first test of [tests/test_transfer.py]: two files, copied. *)
Example test_copy_method :
  match (Transfer.send Demo.quiet "source" "staging" "TEST001" "copy"
           "Du=rwx,Dgo=rx" "Fu=rw,Fgo=r"
           (Demo.world
              {| FS.root :=
                   FS.Dir {[ "source" :=
                               FS.Dir {[ "file_a.txt" := FS.File "data a";
                                         "file_b.txt" := FS.File "data b" ]};
                             "staging" := FS.Dir ∅ ]};
                 FS.cwd := []; FS.dir_size := 4096 |})).2 with
  | Return r =>
      (Transfer.file_count r, Transfer.verified r, Transfer.total_bytes r)
  | Raise _ => (0, false, 0)
  end = (2, true, 12).
Proof. vm_compute. reflexivity. Qed.
